(* ===== verification/_CoqProject ===== *)
-Q . S2P
Prelude.v
PyJson.v
PyDate.v
PyFloat.v
Kubectl.v
NodeProbe.v
PodProbe.v
EndpointProbe.v
Cluster.v
HealthCheck.v
EcrCleanup.v
CostReport.v
ArgParse.v
Cli.v
