(* ===== verification/Prelude.v ===== *)
(** * GitOps automation scripts: a verification development

    The repository ships three Python scripts under [src/automation/]:
    - [health_check.py]: a cluster health gate.  It asks [kubectl] whether
      the control plane is reachable, then fetches the nodes, the pods of
      one namespace, and the services and endpoints of that namespace, and
      reduces them to counters, a verdict and a process exit code;
    - [cleanup_ecr.py]: a retention policy for the images of one ECR
      repository (sort by push date, keep the newest [keep_latest], delete
      the rest that are older than [days_to_keep] days);
    - [cost_report.py]: three AWS Cost Explorer queries for a window of
      [days] days, printed per EC2 instance type and as EKS and ECR
      floating-point totals.

    The components interact only through collaborators: [subprocess.run]
    of [kubectl] and [json.loads] for the health check, the boto3 ECR
    client for the cleanup, the boto3 Cost Explorer client and the clock
    for the report.  No state survives one run; the state a run threads is
    the printed output, the processes it spawns, the cloud calls it makes
    and the Python exception that ends it ([sys.exit] raises
    [SystemExit]).

    ** Layout (one file per component, in dependency order)
    - [Prelude] (this file): the Python runtime the scripts rely on.
      Python exceptions with the message [str(e)] prints ([exc],
      [exc_str]); an exception monad [Exc] for the pure loops ([foldM] for
      a [for] loop, [mapM] for a comprehension) and a writer-exception
      monad [PyM] for the code that prints, spawns processes, calls cloud
      APIs, writes raw text and exits, with [try_except] for [try]/[except], [for_] for a
      loop with effects, and [exit_code] for the status of the process
      once the exception reaches the top level.  Notations live in
      [py_scope]; the monad laws are in the rewrite database [py_simpl];
      shared lemmas are in the hint database [gitops]; [raises_only] and
      [trace_only] with the tactics [solve_raises], [solve_raises_outcome]
      and [solve_trace] bound what a computation can raise and emit.
    - [PyJson]: the values [json.loads] and boto3 build ([pyval]) and the
      dynamic operations the scripts apply to them: [dict.get]
      ([py_get]), [for] iteration ([py_iter]), [len], indexing
      ([py_index]), string comparison, hashing of dictionary keys,
      [str.join], [str] and [repr], each raising the exception Python
      raises on a value of the wrong type, with its message.
    - [PyDate]: [datetime] dates as CPython's proleptic Gregorian
      ordinals: [ord_to_ymd] and [ymd_to_ord] of [_datetimemodule.c],
      [timedelta] subtraction with its [OverflowError]s ([sub_days]) and
      [strftime('%Y-%m-%d')].
    - [PyFloat]: Python floats as IEEE binary64 ([spec_float] of the
      Standard Library, computed without axioms): [float()] of a string
      with correct rounding, [+] ([SFadd]), and the [:.2f] format.
    - [Kubectl]: the collaborator interface, the class [Host]
      ([subprocess.run] and [json.loads]), and the two functions of
      [health_check.py] that call it, [run_kubectl_command] (lines 12-27)
      and [check_cluster_connectivity] (lines 29-39).
    - [NodeProbe], [PodProbe], [EndpointProbe]: [check_node_status] (lines
      41-60), [check_pod_status] (62-91) and [check_service_endpoints]
      (93-110), each as the loop of the source over [pyval] (the
      implementation: a record of counters threaded through [foldM], or a
      [gmap] for [endpoint_map]) and as a closed form over typed records
      (the abstract specification, the data model of the spec), with a
      refinement theorem [check_*_refines] relating the two through the
      encoding of the records as [kubectl] JSON.
    - [Cluster]: a [snapshot] of typed records, the verdict rule of the
      spec [spec_healthy], and the class [Serves]: the interface a [Host]
      promises to [run_health_check] (each [kubectl get] answers the
      encoding of the snapshot).  [snapshot_host] implements it.
    - [HealthCheck]: [run_health_check] (lines 112-170), every print, the
      [', '.join] of the unready services and every [sys.exit], and the
      verdict [is_healthy] it computes.
    - [EcrCleanup]: [cleanup_old_images] of [cleanup_ecr.py] (lines
      40-110) with [get_ecr_client], [list_images] and
      [get_image_details], over the class [EcrClient] (the boto3 client
      of the region, its three calls, the clock and its UTC offset).
      The cutoff [now - timedelta(days=...)] raises [OverflowError] as
      Python does ([dt_sub_days]).  Dates are [datetime]s as seconds
      with their aware/naive flag, so that the sort raises [TypeError]
      exactly when Python's does; the sort is a stable insertion sort
      ([sort_newest_first]), the slices are Python's ([py_slice_upto],
      [py_slice_from], negative bounds included).
    - [CostReport]: [generate_cost_report] of [cost_report.py] (lines
      71-126) with the three queries (lines 14-69), over the class
      [CostExplorer] (client creation, [get_cost_and_usage], and the date
      each of the two [datetime.now()] calls reads); the three
      [try]/[except Exception] sections, and a typed model of the
      answers of Cost Explorer ([cost_day], [response_to_py]) against
      which the loops are refined.
    - [ArgParse]: [int()] of a string ([PyLong_FromString], base 10:
      whitespace, sign, underscores, the 4300-digit limit) and the part of
      CPython 3.12.0's [argparse] the scripts use: [ArgumentParser] with
      its [-h]/[--help] action, [add_argument] ([store] with [type=int]
      and [default], [store_true], [required]), and [parse_args]: the
      classification of each argument string ([parse_optional]: option
      strings, [=], abbreviations, one-letter clusters, negative
      numbers), the loop that consumes the optionals ([consume]), the
      defaults, the required and unrecognized checks, and the exits of
      [parser.error] (status 2, text on [sys.stderr]) and of the help
      (status 0, text on [sys.stdout]), recorded as [EvWrite] events.
      The program name and the usage and help texts form the interface
      [ArgparseEnv].
    - [Cli]: the three [__main__] blocks ([health_check.py] 172-179,
      [cleanup_ecr.py] 112-130, [cost_report.py] 128-135): each parser as
      the script builds it, then [script_main]: [parse_args] and, on a
      namespace, the attribute reads and the call of [run_health_check],
      [cleanup_old_images] or [generate_cost_report].

    ** What the theorems show
    - Verdict (HealthCheck, C1-C5): the exit code is 0 exactly when the
      cluster is reachable and the counters pass the gate; an unreachable
      control plane stops the run after one process; a run ends in one of
      four outcomes, each characterised; against a host that [Serves] a
      snapshot the verdict is the spec's rule [spec_healthy].
    - Divergences (C4, C6-C8, C11, C14): failed [kubectl] queries read as
      an empty, healthy cluster; adding a node without a Ready condition
      to any snapshot makes the spec's verdict UNHEALTHY and leaves the
      script's exit code unchanged; a missing [kubectl] binary escapes as
      [FileNotFoundError]; a nameless service crashes the [join]; the
      node counters add up to the number of Ready conditions, not of
      nodes; [crash_loop_backoff] counts containers, not pods.
    - Probes (C9-C14, C16-C17): each probe, run against a [Host] whose
      [kubectl get] answers the JSON of typed records, returns the
      closed form of the records: the node counters partition the nodes
      when each carries one Ready condition, the phase counters
      partition the pods, and the report of services without endpoints
      keeps the services' order and holds exactly the names the endpoint
      map gives no subset (the last endpoints object of a name decides).
    - Command line of the health check (C15): no option checks the
      namespace [default], and [--namespace=NS] checks [NS] for every
      [NS] but [--].
    - The [kubectl] wrapper (C37): [run_kubectl_command] spawns one
      [kubectl ... -o json] and, on each of its four branches, returns
      the decoded value, [{}] with the error line, or raises
      [FileNotFoundError].
    - ECR cleanup (C18-C24, C32, C36): only digests of the deletion plan
      are ever passed to [batch_delete_image], never in dry-run mode,
      where the run prints the first five planned tags and how many
      more; the
      sort is a stable permutation ordered newest first; the plan is
      exactly the images past [keep_latest] that are older than the
      cutoff; and, for every client, the defects of the code: no push
      date ever reaches it, so nothing is deleted; mixed naive and aware
      dates end the run in [TypeError]; the count printed after a
      deletion is the length of the plan, above the digests sent when
      planned images have none; a [--days] that overflows [timedelta] or
      [datetime] ends the run in [OverflowError] before any deletion.
    - Cost report (C25-C31): once the client exists and the dates are
      computed, the report always reaches its closing note with one line
      per EKS and ECR section; it sends exactly the three requests, for
      one window; the window printed spans [days] days plus the clock's
      drift between its two readings; an impossible [--days] ends in an
      uncaught [OverflowError]; the totals are the binary64 sums of the
      daily amounts and the EC2 lines those of the groups, up to the
      first error; [format_2f] prints the hundredths nearest to the
      binary64 value, ties to even.
    - Command lines (C33-C35): every command line [cleanup_ecr.py]
      accepts calls [cleanup_old_images] with a [str] repository, [int]
      days and keep-latest, a [str] region and the negated boolean
      [--execute]; it deletes only when an argument is [--execute] or an
      abbreviation of it; [--days N] reaches [generate_cost_report] as
      [N], negative [N] included, and the default is 30.
    Among the lemmas the claims rest on: [int(str(z)) == z] up to 4300
    digits ([int_str_roundtrip]), the calendar conversions are inverse
    to each other ([calendar_roundtrip]), Python's slices split a list
    ([py_slices_split]), and every namespace [parse_args] returns holds
    a value of each option's type, and of its [type] for a required
    option ([parse_args_typed]).

    ** Bounds and fuel
    Every loop of the scripts is a [for] over a finite list, modelled by
    structural recursion ([foldM], [for_], [Fixpoint]); no fuel is needed
    and every definition is total.  Counters are Python integers,
    unbounded, modelled as [nat]; dates are [Z] seconds (ECR) or [Z]
    ordinals (cost report), floats are binary64.  The calendar theorems
    evaluate two tables by [vm_compute]: leapness of the 400 years of a
    cycle and the month and day of the 366 days of a common and a leap
    year; the rest is carried by the 400-year periodicity of the
    algorithm.  [float()] settles by its bounds a decimal at or above
    [10 ^ 310] (infinite) or below [10 ^ -330] (zero), so that it never
    computes a huge power of ten.  [parse_args] recurses on the list of
    classified arguments and consumes one or two of them per step, so
    [consume] is structural; [explicit_flags] recurses on the cluster
    string.  The 4300-digit limit of [int()] is a constant of the model
    ([max_str_digits]), Python's default.

    ** What is not modelled
    - A command line holding [--], or giving [--] as the argument of an
      option ([--namespace=--]): how [_get_values] strips it differs
      between Python versions, and [parse_args] returns [None] there.  The layout of the usage and help texts (it depends on the
      width of the terminal) is the interface [ArgparseEnv].  The model
      follows CPython 3.12.0; later releases changed the handling of
      one-letter clusters and of negative numbers.
    - [json.loads] itself: it is a parameter of the [Host] interface; JSON
      numbers are modelled as integers (floats never reach the code paths
      of the scripts, and Cost Explorer sends amounts as strings).  Python
      strings are modelled as byte strings: [len], iteration and [repr]
      differ from Python's on non-ASCII text only, and [float()] accepts
      ASCII digits and whitespace only.
    - [%Y] of [strftime] pads years below 1000 to four digits, as current
      CPython does; older C libraries print them unpadded.
    - Wall-clock time: [datetime.now] is an operation of [EcrClient] and
      of [CostExplorer]. *)

From Stdlib Require Import ZArith Lia.
From stdpp Require Import base list strings sets pretty.

Declare Scope py_scope.
Delimit Scope py_scope with py.
Open Scope py_scope.

Create HintDb gitops.
Create Rewrite HintDb py_simpl.

(** ** Python exceptions *)

(** The exceptions the scripts raise or catch, with what [str(e)] prints
    of them: the message of the built-in exceptions, the file name of a
    [FileNotFoundError], the message botocore formats for a
    [ClientError].  [CalledProcessError] carries the return code and the
    captured standard error of the process; [SystemExit] carries the exit
    status given to [sys.exit]. *)
Inductive exc :=
| AttributeError (msg : string)
| TypeError (msg : string)
| KeyError (msg : string)
| IndexError (msg : string)
| ValueError (msg : string)
| OverflowError (msg : string)
| FileNotFoundError (filename : string)
| JSONDecodeError
| CalledProcessError (returncode : Z) (stderr : string)
| ClientError (message : string)
| SystemExit (code : Z).

(** [except Exception] catches everything but [SystemExit], which
    derives from [BaseException] only. *)
Definition is_Exception (e : exc) : bool :=
  match e with SystemExit _ => false | _ => true end.

(** [str(e)], as an f-string ["{e}"] prints it.  [JSONDecodeError] and
    [CalledProcessError] are raised only inside [run_kubectl_command],
    whose handler prints their fields and not [str(e)]; they print as
    their class name here. *)
Definition exc_str (e : exc) : string :=
  match e with
  | AttributeError m | TypeError m | KeyError m | IndexError m
  | ValueError m | OverflowError m | ClientError m => m
  | FileNotFoundError f => "[Errno 2] No such file or directory: '" ++ f ++ "'"
  | JSONDecodeError => "JSONDecodeError"
  | CalledProcessError _ _ => "CalledProcessError"
  | SystemExit c => pretty c
  end%string.

(** ** The exception monad of the pure loops *)

Definition Exc (A : Type) : Type := (exc + A)%type.

Definition exc_ret {A} (a : A) : Exc A := inr a.

Definition exc_bind {A B} (r : Exc A) (f : A -> Exc B) : Exc B :=
  match r with inl e => inl e | inr a => f a end.

Notation "'let?' x ':=' r 'in' k" := (exc_bind r (fun x => k))
  (at level 10, x name, r at level 100, k at level 200) : py_scope.

(** A Python [for] loop whose body can raise: the body is applied to the
    elements in order, and the first exception stops the loop. *)
Fixpoint foldM {A B} (f : A -> B -> Exc A) (a : A) (l : list B) : Exc A :=
  match l with
  | [] => inr a
  | b :: l' => let? a' := f a b in foldM f a' l'
  end.

(** [[f(x) for x in l]] for an [f] that can raise: the first exception
    stops the comprehension. *)
Fixpoint mapM {A B} (f : A -> Exc B) (l : list A) : Exc (list B) :=
  match l with
  | [] => inr []
  | x :: l' => let? y := f x in let? ys := mapM f l' in inr (y :: ys)
  end.

(** ** The monad of the scripts: output, processes and exceptions *)

(** What a run does that can be observed: the lines it prints, the
    processes it spawns (argument vectors), the cloud API calls it
    issues (operation name and arguments), and the raw text [argparse]
    writes to a file descriptor ([file.write], 1 for [sys.stdout], 2 for
    [sys.stderr]). *)
Inductive event :=
| EvPrint (line : string)
| EvSpawn (argv : list string)
| EvApi (op : string) (args : list string)
| EvWrite (fd : Z) (text : string).

Definition PyM (A : Type) : Type := (list event * Exc A)%type.

Definition ret {A} (a : A) : PyM A := ([], inr a).

Definition bind {A B} (m : PyM A) (f : A -> PyM B) : PyM B :=
  match m with
  | (w, inl e) => (w, inl e)
  | (w, inr a) => let '(w', r) := f a in (w ++ w', r)
  end.

Notation "'let*' x ':=' m 'in' k" := (bind m (fun x => k))
  (at level 10, x name, m at level 100, k at level 200) : py_scope.
Notation "m ;; k" := (bind m (fun _ => k))
  (at level 100, right associativity) : py_scope.

Definition raise {A} (e : exc) : PyM A := ([], inl e).

Definition lift {A} (r : Exc A) : PyM A := ([], r).

Definition emit (ev : event) : PyM unit := ([ev], inr tt).

(** [print(s)]. *)
Definition print (s : string) : PyM unit := emit (EvPrint s).

(** [sys.exit(code)] raises [SystemExit(code)]. *)
Definition sys_exit {A} (code : Z) : PyM A := raise (SystemExit code).

(** [try: m except ...: h]: the handler says which exceptions it catches
    ([Some] of the handler body) and which it lets through ([None]). *)
Definition try_except {A} (m : PyM A) (h : exc -> option (PyM A)) : PyM A :=
  match m with
  | (w, inl e) =>
      match h e with
      | Some k => let '(w', r) := k in (w ++ w', r)
      | None => (w, inl e)
      end
  | (w, inr a) => (w, inr a)
  end.

(** The status of the interpreter once the outcome reaches the top level:
    a normal end is 0, [SystemExit c] is [c], and an uncaught exception
    prints a traceback and ends with status 1. *)
Definition exit_code {A} (r : Exc A) : Z :=
  match r with
  | inr _ => 0
  | inl (SystemExit c) => c
  | inl _ => 1
  end.

Definition outcome {A} (m : PyM A) : Exc A := snd m.
Definition trace {A} (m : PyM A) : list event := fst m.

(** The lines printed by a run, in order. *)
Definition printed (w : list event) : list string :=
  omap (fun ev => match ev with EvPrint s => Some s | _ => None end) w.

(** The processes spawned by a run, in order. *)
Definition spawned (w : list event) : list (list string) :=
  omap (fun ev => match ev with EvSpawn a => Some a | _ => None end) w.

(** The cloud API calls of a run, in order. *)
Definition api_calls (w : list event) : list (string * list string) :=
  omap (fun ev => match ev with EvApi op args => Some (op, args) | _ => None end) w.

(** [for x in l: body(x)], for a body that can print or raise. *)
Fixpoint for_ {A} (l : list A) (body : A -> PyM unit) : PyM unit :=
  match l with [] => ret tt | x :: l' => body x;; for_ l' body end.

Lemma for_map {A B} (g : A -> B) (l : list A) (body : B -> PyM unit) :
  for_ (map g l) body = for_ l (fun x => body (g x)).
Proof. induction l as [|x l IH]; simpl; [done|]. by rewrite IH. Qed.

Lemma for_ext {A} (l : list A) (b1 b2 : A -> PyM unit) :
  (forall x, b1 x = b2 x) -> for_ l b1 = for_ l b2.
Proof. intros Hb. induction l as [|x l IH]; simpl; [done|]. by rewrite Hb, IH. Qed.

(** ** Python string helpers *)

Definition newline : string := String (Ascii.ascii_of_nat 10) EmptyString.

(** [s * n] for a string [s]. *)
Fixpoint str_repeat (s : string) (n : nat) : string :=
  match n with O => EmptyString | S n' => (s ++ str_repeat s n')%string end.

(** The decimal digits of [n], zero-padded on the left to [width], as the
    [%02d] of a format string writes them. *)
Definition zero_pad (width : nat) (n : Z) : string :=
  let s := pretty n in (str_repeat "0" (width - String.length s) ++ s)%string.

(** ** Monad laws and the lemmas every component uses *)

Lemma bind_ret_l {A B} (a : A) (f : A -> PyM B) : bind (ret a) f = f a.
Proof. unfold bind, ret. by destruct (f a). Qed.

Lemma bind_ret_r {A} (m : PyM A) : bind m ret = m.
Proof. destruct m as [w [e|a]]; simpl; rewrite ?app_nil_r; done. Qed.

Lemma bind_assoc {A B C} (m : PyM A) (f : A -> PyM B) (g : B -> PyM C) :
  bind (bind m f) g = bind m (fun a => bind (f a) g).
Proof.
  destruct m as [w [e|a]]; simpl; [done|].
  destruct (f a) as [w1 [e1|b]]; simpl; [done|].
  destruct (g b) as [w2 r2]. by rewrite app_assoc.
Qed.

Lemma bind_raise {A B} (e : exc) (f : A -> PyM B) : bind (raise e) f = raise e.
Proof. done. Qed.

Lemma bind_lift_inl {A B} (e : exc) (f : A -> PyM B) :
  bind (lift (inl e)) f = raise e.
Proof. done. Qed.

Lemma bind_lift_inr {A B} (a : A) (f : A -> PyM B) : bind (lift (inr a)) f = f a.
Proof. apply bind_ret_l. Qed.

(** The outcome of [bind] is the outcome of its continuation: a run is
    deterministic, so the events never influence the value. *)
Lemma outcome_bind {A B} (m : PyM A) (f : A -> PyM B) :
  outcome (bind m f) = exc_bind (outcome m) (fun a => outcome (f a)).
Proof. destruct m as [w [e|a]]; simpl; [done|]. by destruct (f a). Qed.

Lemma trace_bind {A B} (m : PyM A) (f : A -> PyM B) :
  trace (bind m f) =
  trace m ++ match outcome m with inl _ => [] | inr a => trace (f a) end.
Proof.
  destruct m as [w [e|a]]; simpl; [by rewrite app_nil_r|]. by destruct (f a).
Qed.

Lemma printed_app w1 w2 : printed (w1 ++ w2) = printed w1 ++ printed w2.
Proof. apply omap_app. Qed.

Lemma api_calls_app w1 w2 : api_calls (w1 ++ w2) = api_calls w1 ++ api_calls w2.
Proof. apply omap_app. Qed.

Lemma printed_map_print l : printed (map EvPrint l) = l.
Proof. induction l; simpl; congruence. Qed.

Lemma printed_api_cons op args w : printed (EvApi op args :: w) = printed w.
Proof. done. Qed.

Lemma api_calls_map_print l : api_calls (map EvPrint l) = [].
Proof. by induction l. Qed.

Lemma api_calls_api_cons op args w : api_calls (EvApi op args :: w) = (op, args) :: api_calls w.
Proof. done. Qed.

Lemma printed_print_cons s w : printed (EvPrint s :: w) = s :: printed w.
Proof. done. Qed.

Lemma api_calls_print_cons s w : api_calls (EvPrint s :: w) = api_calls w.
Proof. done. Qed.

Lemma map_print_events {A} (f : A -> string) l : map (fun x => EvPrint (f x)) l = map EvPrint (map f l).
Proof. by rewrite map_map. Qed.

(** The lines and the calls of an explicit list of events. *)
Ltac trace_eval :=
  repeat first [rewrite printed_api_cons | rewrite printed_print_cons |
                rewrite api_calls_api_cons | rewrite api_calls_print_cons |
                rewrite printed_app | rewrite api_calls_app |
                rewrite printed_map_print | rewrite api_calls_map_print].

Lemma outcome_try_except {A} (m : PyM A) h :
  outcome (try_except m h) =
  match outcome m with
  | inl e => match h e with Some k => outcome k | None => inl e end
  | inr a => inr a
  end.
Proof.
  destruct m as [w [e|a]]; simpl; [|done].
  destruct (h e) as [[w' r]|]; done.
Qed.

Lemma foldM_app {A B} (f : A -> B -> Exc A) a l1 l2 :
  foldM f a (l1 ++ l2) = let? a' := foldM f a l1 in foldM f a' l2.
Proof.
  revert a; induction l1 as [|b l1 IH]; intros a; simpl; [done|].
  destruct (f a b); simpl; [done|]. apply IH.
Qed.

(** A loop whose body never raises is a [fold_left]. *)
Lemma foldM_total {A B} (f : A -> B -> Exc A) (g : A -> B -> A) a l :
  (forall a b, b ∈ l -> f a b = inr (g a b)) ->
  foldM f a l = inr (fold_left g l a).
Proof.
  revert a; induction l as [|b l IH]; intros a Hf; simpl; [done|].
  rewrite Hf by set_solver. simpl. apply IH. intros; apply Hf; set_solver.
Qed.

(** Counting the elements of a list that satisfy a test. *)
Fixpoint count_if {A} (p : A -> bool) (l : list A) : nat :=
  match l with
  | [] => 0
  | x :: l' => (if p x then 1 else 0) + count_if p l'
  end.

Lemma count_if_cons {A} (p : A -> bool) x l :
  count_if p (x :: l) = (if p x then 1 else 0) + count_if p l.
Proof. done. Qed.

Lemma count_if_app {A} (p : A -> bool) l1 l2 :
  count_if p (l1 ++ l2) = count_if p l1 + count_if p l2.
Proof. induction l1 as [|x l1 IH]; simpl; [done|]. rewrite IH. lia. Qed.

Lemma count_if_filter {A} (p : A -> bool) l : count_if p l = length (List.filter p l).
Proof. induction l as [|x l IH]; simpl; [done|]. destruct (p x); simpl; lia. Qed.

(** A test that holds of some element counts it at least once. *)
Lemma count_if_pos {A} (p : A -> bool) l x : x ∈ l -> p x = true -> 0 < count_if p l.
Proof.
  induction l as [|y l IH]; intros Hx Hp; [set_solver|]. simpl.
  apply elem_of_cons in Hx as [->|Hx]; [rewrite Hp; lia|]. specialize (IH Hx Hp). lia.
Qed.

Lemma count_if_le {A} (p : A -> bool) l : count_if p l <= length l.
Proof.
  induction l as [|x l IH]; [done|]. rewrite count_if_cons. simpl.
  destruct (p x); lia.
Qed.

(** The elements that pass a test and the elements that fail it
    partition the list. *)
Lemma count_if_complement {A} (p : A -> bool) l :
  count_if p l + count_if (fun x => negb (p x)) l = length l.
Proof.
  induction l as [|x l IH]; [done|]. rewrite !count_if_cons. simpl.
  destruct (p x); simpl; lia.
Qed.

Lemma count_if_ext {A} (p q : A -> bool) l :
  (forall x, x ∈ l -> p x = q x) -> count_if p l = count_if q l.
Proof.
  induction l as [|x l IH]; intros H; [done|]. rewrite !count_if_cons.
  rewrite H by set_solver. f_equal. apply IH. intros; apply H; set_solver.
Qed.

Lemma count_if_false {A} (p : A -> bool) l :
  (forall x, x ∈ l -> p x = false) -> count_if p l = 0.
Proof.
  induction l as [|x l IH]; intros H; [done|]. rewrite count_if_cons.
  rewrite H by set_solver. apply IH. intros; apply H; set_solver.
Qed.

Lemma list_filter_nil {A} (p : A -> bool) l :
  Forall (fun x => p x = false) l -> List.filter p l = [].
Proof. induction 1 as [|x l Hx _ IH]; simpl; [done|]. by rewrite Hx. Qed.

(** [List.filter] keeps the order of the list it filters. *)
Lemma list_filter_sublist {A} (p : A -> bool) l : List.filter p l `sublist_of` l.
Proof.
  induction l as [|x l IH]; simpl; [done|].
  destruct (p x); [by apply sublist_skip|by apply sublist_cons].
Qed.

(** Two elements with the same image under a map without duplicates are
    the same element. *)
Lemma NoDup_map_same {A B} (f : A -> B) l x y :
  NoDup (map f l) -> x ∈ l -> y ∈ l -> f x = f y -> x = y.
Proof.
  induction l as [|z l IH]; intros Hnd Hx Hy Hf; [set_solver|].
  simpl in Hnd. apply NoDup_cons in Hnd as [Hz Hnd].
  apply elem_of_cons in Hx as [->|Hx], Hy as [->|Hy]; auto.
  - destruct Hz. rewrite Hf. apply list_elem_of_In, in_map, list_elem_of_In, Hy.
  - destruct Hz. rewrite <- Hf. apply list_elem_of_In, in_map, list_elem_of_In, Hx.
Qed.

(** ** Which exceptions a computation can raise *)

Definition raises_only {A} (P : exc -> Prop) (r : Exc A) : Prop :=
  forall e, r = inl e -> P e.

Lemma raises_only_inr {A} (P : exc -> Prop) (a : A) : raises_only P (inr a).
Proof. by intros e. Qed.

Lemma raises_only_inl {A} (P : exc -> Prop) e : P e -> raises_only (A:=A) P (inl e).
Proof. by intros He e' [= <-]. Qed.

Lemma raises_only_bind {A B} (P : exc -> Prop) (r : Exc A) (f : A -> Exc B) :
  raises_only P r -> (forall a, raises_only P (f a)) -> raises_only P (exc_bind r f).
Proof. intros Hr Hf e. destruct r as [e'|a]; simpl; [intros [= ->]; by apply Hr|exact (Hf a e)]. Qed.

Lemma raises_only_foldM {A B} (P : exc -> Prop) (f : A -> B -> Exc A) a l :
  (forall a b, raises_only P (f a b)) -> raises_only P (foldM f a l).
Proof.
  intros Hf. revert a; induction l as [|b l IH]; intros a e; simpl; [done|].
  destruct (f a b) as [e'|a'] eqn:E; [|apply IH].
  intros [= <-]. by apply (Hf a b e').
Qed.

Lemma raises_only_mono {A} (P Q : exc -> Prop) (r : Exc A) :
  (forall e, P e -> Q e) -> raises_only P r -> raises_only Q r.
Proof. intros HPQ Hr e He. by apply HPQ, Hr. Qed.

Lemma raises_only_if {A} (P : exc -> Prop) (b : bool) (r1 r2 : Exc A) :
  raises_only P r1 -> raises_only P r2 -> raises_only P (if b then r1 else r2).
Proof. by destruct b. Qed.

#[export] Hint Resolve raises_only_inr raises_only_bind raises_only_foldM
  raises_only_if : gitops.

(** Prove [raises_only P r] by following the structure of [r]: binds,
    loops and tests are split, the leaves are closed by the [gitops]
    hints. *)
Ltac solve_raises :=
  repeat (intros; cbv zeta;
    first [ apply raises_only_inr
          | apply raises_only_bind
          | apply raises_only_foldM
          | apply raises_only_if
          | solve [eauto with gitops] ]).

(** The exceptions [except Exception] catches. *)
Definition Exception (e : exc) : Prop := is_Exception e = true.

Lemma raises_only_outcome_bind {A B} P (m : PyM A) (f : A -> PyM B) :
  raises_only P (outcome m) -> (forall a, raises_only P (outcome (f a))) ->
  raises_only P (outcome (bind m f)).
Proof. intros. rewrite outcome_bind. by apply raises_only_bind. Qed.

Lemma raises_only_outcome_lift {A} P (r : Exc A) : raises_only P r -> raises_only P (outcome (lift r)).
Proof. done. Qed.

Lemma raises_only_outcome_emit P ev : raises_only P (outcome (emit ev)).
Proof. apply raises_only_inr. Qed.

Lemma raises_only_outcome_for_ {A} P (l : list A) (body : A -> PyM unit) :
  (forall x, raises_only P (outcome (body x))) -> raises_only P (outcome (for_ l body)).
Proof.
  intros Hb. induction l as [|x l IH]; cbn [for_]; [apply raises_only_inr|].
  by apply raises_only_outcome_bind.
Qed.

(** Prove [raises_only P (outcome m)] by following the structure of [m]. *)
Ltac solve_raises_outcome :=
  repeat (intros; cbv zeta;
    first [ apply raises_only_outcome_bind
          | apply raises_only_outcome_for_
          | apply raises_only_outcome_emit
          | apply raises_only_outcome_lift; solve_raises
          | solve [eauto with gitops] ]).

(** ** Which events a run can produce *)

Definition trace_only {A} (P : event -> Prop) (m : PyM A) : Prop := Forall P (trace m).

Lemma trace_only_ret {A} P (a : A) : trace_only P (ret a).
Proof. constructor. Qed.

Lemma trace_only_raise {A} P e : trace_only (A:=A) P (raise e).
Proof. constructor. Qed.

Lemma trace_only_lift {A} P (r : Exc A) : trace_only P (lift r).
Proof. constructor. Qed.

Lemma trace_only_emit P ev : P ev -> trace_only P (emit ev).
Proof. repeat constructor. done. Qed.

Lemma trace_only_bind {A B} P (m : PyM A) (f : A -> PyM B) :
  trace_only P m -> (forall a, trace_only P (f a)) -> trace_only P (bind m f).
Proof.
  unfold trace_only. rewrite trace_bind. intros Hm Hf.
  apply Forall_app. split; [done|]. destruct (outcome m); [constructor|apply Hf].
Qed.

(** The continuation only runs on the value the first step returned. *)
Lemma trace_only_bind_dep {A B} P (m : PyM A) (f : A -> PyM B) :
  trace_only P m -> (forall a, outcome m = inr a -> trace_only P (f a)) ->
  trace_only P (bind m f).
Proof.
  unfold trace_only. rewrite trace_bind. intros Hm Hf.
  apply Forall_app. split; [done|]. destruct (outcome m); [constructor|by apply Hf].
Qed.

Lemma trace_only_try_except {A} P (m : PyM A) h :
  trace_only P m ->
  (forall e, match h e with Some k => trace_only P k | None => True end) ->
  trace_only P (try_except m h).
Proof.
  unfold trace_only. destruct m as [w [e|a]]; simpl; [|done]. intros Hm Hh.
  specialize (Hh e). destruct (h e) as [[w' r]|]; simpl in *; [|done].
  apply Forall_app. by split.
Qed.

(** [try: m except Exception as e: k(e)]. *)
Lemma trace_only_try_except_Exception {A} P (m : PyM A) (k : exc -> PyM A) :
  trace_only P m -> (forall e, trace_only P (k e)) ->
  trace_only P (try_except m (fun e => if is_Exception e then Some (k e) else None)).
Proof.
  intros Hm Hk. apply trace_only_try_except; [done|]. intros e.
  destruct (is_Exception e); [apply Hk|exact I].
Qed.

Lemma trace_only_for_ {A} P (l : list A) (body : A -> PyM unit) :
  (forall x, trace_only P (body x)) -> trace_only P (for_ l body).
Proof.
  intros Hb. induction l as [|x l IH]; cbn [for_]; [apply trace_only_ret|].
  by apply trace_only_bind.
Qed.

Lemma trace_only_if {A} P (b : bool) (m1 m2 : PyM A) :
  trace_only P m1 -> trace_only P m2 -> trace_only P (if b then m1 else m2).
Proof. by destruct b. Qed.

#[export] Hint Resolve trace_only_ret trace_only_raise trace_only_lift trace_only_emit
  trace_only_bind trace_only_if : gitops.

(** Prove [trace_only P m] by following the structure of [m]; the events
    themselves are left to [tac]. *)
Ltac solve_trace tac :=
  repeat (intros; cbv zeta;
    first [ apply trace_only_ret | apply trace_only_raise | apply trace_only_lift
          | apply trace_only_emit; tac
          | apply trace_only_bind | apply trace_only_if
          | apply trace_only_for_
          | apply trace_only_try_except_Exception
          | apply trace_only_try_except
          | match goal with
            | |- match ?x with _ => _ end => destruct x
            | |- context [if ?b then _ else _] => destruct b
            end
          | progress simpl
          | exact I ]).

#[export] Hint Rewrite @bind_ret_l @bind_ret_r @bind_assoc @bind_raise
  @bind_lift_inl @bind_lift_inr : py_simpl.
#[export] Hint Rewrite @count_if_cons @count_if_app : py_simpl.
#[export] Hint Resolve count_if_le count_if_complement : gitops.

(** Unfold a run step by step: the monad laws, then computation. *)
Ltac py_simp := repeat (progress (autorewrite with py_simpl; simpl)).

(** Case analysis on the test of a Python [if] on strings. *)
Ltac case_streq :=
  match goal with
  | |- context [String.eqb ?a ?b] => destruct (String.eqb_spec a b)
  end.
