(* ===== verification/PyJson.v ===== *)
(** * Python values built by [json.loads] and boto3, and the operations
    the scripts apply to them

    [json.loads] turns a JSON document into [None], [bool], [int], [str],
    [list] and [dict] values ([pyval]; JSON objects become dicts whose keys
    are strings); boto3 answers are values of the same shapes.  The
    scripts traverse them with [dict.get], [for] loops, [len], indexing,
    [==] against string literals, dictionary stores, [str.join] and
    f-strings ([str], [repr]); each of these is defined here with the
    exception Python raises when the value has the wrong type and the
    message [str(e)] gives it: [.get] on a non-dict raises
    [AttributeError], iterating or measuring a scalar raises [TypeError],
    an index past the end raises [IndexError], hashing a list or dict
    raises [TypeError], [str.join] names the first item that is not a
    string. *)

From Stdlib Require Import ZArith Ascii.
From stdpp Require Import base list strings countable numbers sets pretty.
From S2P Require Import Prelude.

#[local] Set Warnings "-register-all".

Inductive pyval :=
| PNone
| PBool (b : bool)
| PInt (z : Z)
| PStr (s : string)
| PList (l : list pyval)
| PDict (kvs : list (string * pyval)).

(** The value bound to a key of a dict ([json.loads] keeps one binding
    per key; the first binding is the one read). *)
Fixpoint dict_lookup (k : string) (kvs : list (string * pyval)) : option pyval :=
  match kvs with
  | [] => None
  | (k', v) :: kvs' => if String.eqb k k' then Some v else dict_lookup k kvs'
  end.

(** [type(v).__name__], as Python's error messages quote it. *)
Definition py_type_name (v : pyval) : string :=
  match v with
  | PNone => "NoneType" | PBool _ => "bool" | PInt _ => "int"
  | PStr _ => "str" | PList _ => "list" | PDict _ => "dict"
  end.

(** [d.get(k, default)]: only a dict has a [get] method. *)
Definition py_get (d : pyval) (k : string) (default : pyval) : Exc pyval :=
  match d with
  | PDict kvs =>
      inr (match dict_lookup k kvs with Some v => v | None => default end)
  | _ => inl (AttributeError ("'" ++ py_type_name d ++ "' object has no attribute 'get'"))
  end%string.

(** [d.get(k)], whose default is [None]. *)
Definition py_get1 (d : pyval) (k : string) : Exc pyval := py_get d k PNone.

(** The elements a [for] loop visits: a list's elements, a dict's keys, a
    string's characters; [None], booleans and integers are not iterable. *)
Definition py_iter (v : pyval) : Exc (list pyval) :=
  match v with
  | PList l => inr l
  | PDict kvs => inr (map (fun kv => PStr kv.1) kvs)
  | PStr s => inr (map (fun c => PStr (String c EmptyString)) (String.list_ascii_of_string s))
  | _ => inl (TypeError ("'" ++ py_type_name v ++ "' object is not iterable"))
  end%string.

(** [len(v)]. *)
Definition py_len (v : pyval) : Exc nat :=
  match v with
  | PList l => inr (length l)
  | PDict kvs => inr (length kvs)
  | PStr s => inr (String.length s)
  | _ => inl (TypeError ("object of type '" ++ py_type_name v ++ "' has no len()"))
  end%string.

(** [v == "literal"]: a value equals a string literal only when it is a
    string with the same characters. *)
Definition py_eq_str (v : pyval) (s : string) : bool :=
  match v with PStr t => String.eqb t s | _ => false end.

(** ** [repr] and [str] *)

Definition dquote : ascii := ascii_of_nat 34.
Definition squote : ascii := ascii_of_nat 39.
Definition backslash : ascii := ascii_of_nat 92.

Definition hex_digit (n : nat) : ascii :=
  match String.get n "0123456789abcdef" with Some c => c | None => "0"%char end.

(** One character of [repr(s)] quoted with [q]: the backslash, the quote,
    tab, newline and carriage return are escaped, the other control
    characters written [\xNN]. *)
Definition repr_char (q : ascii) (c : ascii) : string :=
  let n := nat_of_ascii c in
  if Ascii.eqb c backslash then String backslash (String backslash EmptyString)
  else if Ascii.eqb c q then String backslash (String q EmptyString)
  else if n =? 9 then String backslash "t"
  else if n =? 10 then String backslash "n"
  else if n =? 13 then String backslash "r"
  else if (n <? 32) || (n =? 127) then
    String backslash (String "x"%char (String (hex_digit (n / 16))
                                        (String (hex_digit (n mod 16)) EmptyString)))
  else String c EmptyString.

(** [repr(s)]: single quotes, unless the string holds a single quote and
    no double quote. *)
Definition py_repr_str (s : string) : string :=
  let cs := String.list_ascii_of_string s in
  let q := if existsb (Ascii.eqb squote) cs && negb (existsb (Ascii.eqb dquote) cs)
           then dquote else squote in
  String q (String.concat "" (map (repr_char q) cs) ++ String q EmptyString)%string.

(** [repr(v)]; containers show the [repr] of their items. *)
Fixpoint py_repr (v : pyval) : string :=
  match v with
  | PNone => "None"
  | PBool b => if b then "True" else "False"
  | PInt z => pretty z
  | PStr s => py_repr_str s
  | PList l => "[" ++ String.concat ", " (map py_repr l) ++ "]"
  | PDict kvs =>
      "{" ++ String.concat ", " (map (fun kv => py_repr_str kv.1 ++ ": " ++ py_repr kv.2) kvs) ++ "}"
  end%string.

(** [str(v)], as an f-string prints a value: a string is its own [str]. *)
Definition py_str (v : pyval) : string := match v with PStr s => s | _ => py_repr v end.

(** [v[i]]: a list or a string is indexed from the front, or from the back
    for a negative index; a dict looks the index up as a key, which is
    never among the string keys of a decoded document. *)
Definition py_index (v : pyval) (i : Z) : Exc pyval :=
  let idx n := if (i <? 0)%Z then (Z.of_nat n + i)%Z else i in
  match v with
  | PList l =>
      match (if (0 <=? idx (length l))%Z then l !! Z.to_nat (idx (length l)) else None) with
      | Some x => inr x | None => inl (IndexError "list index out of range") end
  | PStr s =>
      match (if (0 <=? idx (String.length s))%Z
             then String.get (Z.to_nat (idx (String.length s))) s else None) with
      | Some c => inr (PStr (String c EmptyString))
      | None => inl (IndexError "string index out of range") end
  | PDict _ => inl (KeyError (pretty i))
  | _ => inl (TypeError ("'" ++ py_type_name v ++ "' object is not subscriptable"))
  end%string.

(** ** Dictionary keys

    A dict built by the scripts is keyed by whatever [.get] returned.
    Python identifies keys by [hash] and [==]: [True] and [1] are the same
    key, and lists and dicts are unhashable. *)
Inductive pykey := KNone | KInt (z : Z) | KStr (s : string).

#[export] Instance pykey_eq_dec : EqDecision pykey.
Proof. solve_decision. Defined.

#[export] Instance pykey_countable : Countable pykey.
Proof.
  refine (inj_countable'
    (fun k => match k with
              | KNone => inl ()
              | KInt z => inr (inl z)
              | KStr s => inr (inr s)
              end)
    (fun x => match x with
              | inl _ => KNone
              | inr (inl z) => KInt z
              | inr (inr s) => KStr s
              end) _).
  by intros [].
Defined.

Definition py_hash (v : pyval) : Exc pykey :=
  match v with
  | PNone => inr KNone
  | PBool b => inr (KInt (Z.b2z b))
  | PInt z => inr (KInt z)
  | PStr s => inr (KStr s)
  | _ => inl (TypeError ("unhashable type: '" ++ py_type_name v ++ "'"))
  end%string.

(** The [TypeError] of [str.join] on the item [v] at index [i]. *)
Definition join_item_error (i : nat) (v : pyval) : exc :=
  TypeError ("sequence item " ++ pretty i ++ ": expected str instance, " ++
             py_type_name v ++ " found")%string.

(** [sep.join(items)]: the items are checked in order and the first that is
    not a string raises. *)
Fixpoint py_join_from (i : nat) (sep : string) (items : list pyval) : Exc string :=
  match items with
  | [] => inr EmptyString
  | [PStr s] => inr s
  | PStr s :: items' =>
      let? rest := py_join_from (S i) sep items' in inr (s ++ sep ++ rest)%string
  | v :: _ => inl (join_item_error i v)
  end.

Definition py_join (sep : string) (items : list pyval) : Exc string := py_join_from 0 sep items.

(** ** Lemmas on the operations *)

Lemma dict_lookup_head k v kvs : dict_lookup k ((k, v) :: kvs) = Some v.
Proof. simpl. by rewrite String.eqb_refl. Qed.

Lemma py_eq_str_spec v s : py_eq_str v s = true <-> v = PStr s.
Proof.
  destruct v; simpl; split; try done; try congruence.
  - by intros ->%String.eqb_eq.
  - intros [= ->]. apply String.eqb_refl.
Qed.

Lemma py_join_from_strings i sep (ss : list string) :
  exists s, py_join_from i sep (map PStr ss) = inr s.
Proof.
  revert i. induction ss as [|s ss IH]; intros i; simpl; [by eexists|].
  destruct ss; simpl in *; [by eexists|]. destruct (IH (S i)) as [r ->]. by eexists.
Qed.

Lemma py_join_strings sep (ss : list string) : exists s, py_join sep (map PStr ss) = inr s.
Proof. apply py_join_from_strings. Qed.

(** [str.join] fails on a list with a non-string item, on the first such
    item. *)
Lemma py_join_from_non_string i sep items v :
  v ∈ items -> (forall s, v <> PStr s) ->
  exists j w, py_join_from i sep items = inl (join_item_error j w) /\ forall s, w <> PStr s.
Proof.
  revert i. induction items as [|w items IH]; intros i Hin Hv; [set_solver|].
  destruct w as [| | |s| |]; simpl; try by do 2 eexists.
  apply elem_of_cons in Hin as [->|Hin]; [by destruct (Hv s)|].
  destruct items as [|w' items]; [set_solver|].
  destruct (IH (S i) Hin Hv) as (j & u & Hj & Hu). rewrite Hj. by exists j, u.
Qed.

Lemma py_join_non_string sep items v :
  v ∈ items -> (forall s, v <> PStr s) ->
  exists j w, py_join sep items = inl (join_item_error j w) /\ forall s, w <> PStr s.
Proof. apply py_join_from_non_string. Qed.

(** The exceptions of a traversal of ill-typed JSON. *)
Definition json_error (e : exc) : Prop :=
  match e with AttributeError _ | TypeError _ => True | _ => False end.

Lemma py_get_raises d k default : raises_only json_error (py_get d k default).
Proof. destruct d; apply raises_only_inr || by apply raises_only_inl. Qed.

Lemma py_get1_raises d k : raises_only json_error (py_get1 d k).
Proof. apply py_get_raises. Qed.

Lemma py_iter_raises v : raises_only json_error (py_iter v).
Proof. destruct v; apply raises_only_inr || by apply raises_only_inl. Qed.

Lemma py_len_raises v : raises_only json_error (py_len v).
Proof. destruct v; apply raises_only_inr || by apply raises_only_inl. Qed.

Lemma py_hash_raises v : raises_only json_error (py_hash v).
Proof. destruct v; apply raises_only_inr || by apply raises_only_inl. Qed.

Lemma py_join_from_raises i sep items : raises_only json_error (py_join_from i sep items).
Proof.
  revert i. induction items as [|v items IH]; intros i; simpl; [apply raises_only_inr|].
  destruct v; try by apply raises_only_inl.
  destruct items; [apply raises_only_inr|]. apply raises_only_bind; [done|].
  intros; apply raises_only_inr.
Qed.

Lemma py_join_raises sep items : raises_only json_error (py_join sep items).
Proof. apply py_join_from_raises. Qed.

#[export] Hint Resolve py_join_raises : gitops.
#[export] Hint Resolve py_get_raises py_get1_raises py_iter_raises py_len_raises
  py_hash_raises : gitops.
#[export] Hint Rewrite dict_lookup_head : py_simpl.

Lemma json_error_Exception e : json_error e -> Exception e.
Proof. by destruct e. Qed.

Lemma py_get_exc d k default : raises_only Exception (py_get d k default).
Proof. eapply raises_only_mono, py_get_raises. apply json_error_Exception. Qed.

Lemma py_get1_exc d k : raises_only Exception (py_get1 d k).
Proof. apply py_get_exc. Qed.

Lemma py_iter_exc v : raises_only Exception (py_iter v).
Proof. eapply raises_only_mono, py_iter_raises. apply json_error_Exception. Qed.

Lemma py_index_exc v i : raises_only Exception (py_index v i).
Proof. destruct v; simpl; repeat case_match; by apply raises_only_inr || apply raises_only_inl. Qed.

#[export] Hint Resolve py_get_exc py_get1_exc py_iter_exc py_index_exc : gitops.
