(* ===== verification/PyDate.v ===== *)
(** * Python dates: proleptic Gregorian ordinals, [timedelta] and
    [strftime('%Y-%m-%d')]

    [cost_report.py] reads the clock with [datetime.now()], subtracts a
    [timedelta(days=days)] and prints both dates with
    [strftime('%Y-%m-%d')].  A date is what CPython's [datetime] module
    computes with: its proleptic Gregorian ordinal (0001-01-01 is day 1,
    9999-12-31 is day [max_ordinal]).  [ord_to_ymd] and [ymd_to_ord] are
    the conversions of [_datetimemodule.c] (the same algorithm as
    [_ord2ymd] and [_ymd2ord] of [datetime.py]), written with the
    module's constants; the time of day of a [datetime] plays no part in
    the date it prints or in a subtraction of whole days, and is left out.

    The theorems show the two round trips: every ordinal converts to a
    valid date that converts back to it, and every valid date converts to
    an ordinal that converts back to it.  Each is checked by evaluation
    on one 400-year cycle of the calendar and carried to all years by the
    periodicity of the algorithm. *)

From Stdlib Require Import ZArith Lia.
From stdpp Require Import base list strings pretty.
From S2P Require Import Prelude.

#[local] Open Scope Z_scope.

(** ** The calendar of [_datetimemodule.c] *)

Definition is_leap (year : Z) : bool :=
  (year mod 4 =? 0) && (negb (year mod 100 =? 0) || (year mod 400 =? 0)).

(** [_days_in_month] and [_days_before_month], indexed by the month. *)
Definition days_in_month_table (month : Z) : Z :=
  match month with
  | 1 => 31 | 2 => 28 | 3 => 31 | 4 => 30 | 5 => 31 | 6 => 30
  | 7 => 31 | 8 => 31 | 9 => 30 | 10 => 31 | 11 => 30 | 12 => 31
  | _ => 0
  end.

Definition days_before_month_table (month : Z) : Z :=
  match month with
  | 1 => 0 | 2 => 31 | 3 => 59 | 4 => 90 | 5 => 120 | 6 => 151
  | 7 => 181 | 8 => 212 | 9 => 243 | 10 => 273 | 11 => 304 | 12 => 334
  | _ => 0
  end.

Definition days_in_month_leap (leap : bool) (month : Z) : Z :=
  if (month =? 2) && leap then 29 else days_in_month_table month.

Definition days_before_month_leap (leap : bool) (month : Z) : Z :=
  days_before_month_table month + (if (month >? 2) && leap then 1 else 0).

(** [days_in_month(year, month)] and [days_before_month(year, month)]. *)
Definition days_in_month (year month : Z) : Z := days_in_month_leap (is_leap year) month.

Definition days_before_month (year month : Z) : Z :=
  days_before_month_leap (is_leap year) month.

Definition days_before_year (year : Z) : Z :=
  let y := year - 1 in y * 365 + y / 4 - y / 100 + y / 400.

(** [DI4Y], [DI100Y], [DI400Y]: the days of 4, 100 and 400 years. *)
Definition DI4Y : Z := 1461.
Definition DI100Y : Z := 36524.
Definition DI400Y : Z := 146097.

(** [MAXORDINAL]: the ordinal of 9999-12-31. *)
Definition max_ordinal : Z := 3652059.

Record ymd := mk_ymd { ymd_year : Z; ymd_month : Z; ymd_day : Z }.

(** The end of [ord_to_ymd]: the month and day of the day [n] (from 0)
    of [year], whose leapness the caller computed as [leapyear]. *)
Definition month_day (year : Z) (leapyear : bool) (n : Z) : ymd :=
  let month := Z.shiftr (n + 50) 5 in
  let preceding := days_before_month_leap leapyear month in
  if preceding >? n then
    let month := month - 1 in
    let preceding := preceding - days_in_month year month in
    mk_ymd year month (n - preceding + 1)
  else mk_ymd year month (n - preceding + 1).

(** The part of [ord_to_ymd] after the 400-year cycle is split off: [year]
    is the first year of the cycle and [n] the day within it. *)
Definition ord_in_cycle (year n : Z) : ymd :=
  let n100 := n / DI100Y in let n := n mod DI100Y in
  let n4 := n / DI4Y in let n := n mod DI4Y in
  let n1 := n / 365 in let n := n mod 365 in
  let year := year + n100 * 100 + n4 * 4 + n1 in
  if (n1 =? 4) || (n100 =? 4) then mk_ymd (year - 1) 12 31 else
  let leapyear := (n1 =? 3) && (negb (n4 =? 24) || (n100 =? 3)) in
  month_day year leapyear n.

(** [ord_to_ymd(ordinal)]. *)
Definition ord_to_ymd (ordinal : Z) : ymd :=
  let ordinal := ordinal - 1 in
  ord_in_cycle ((ordinal / DI400Y) * 400 + 1) (ordinal mod DI400Y).

(** [ymd_to_ord(year, month, day)]. *)
Definition ymd_to_ord (d : ymd) : Z :=
  days_before_year (ymd_year d) + days_before_month (ymd_year d) (ymd_month d) + ymd_day d.

Definition valid_ymd (d : ymd) : bool :=
  (1 <=? ymd_month d) && (ymd_month d <=? 12) &&
  (1 <=? ymd_day d) && (ymd_day d <=? days_in_month (ymd_year d) (ymd_month d)).

(** ** [timedelta(days=days)] and [datetime - timedelta] *)

(** [MAX_DELTA_DAYS]. *)
Definition max_delta_days : Z := 999999999.

(** [timedelta(days=days)]: the constructor refuses a magnitude above
    [MAX_DELTA_DAYS]. *)
Definition timedelta_days (days : Z) : Exc Z :=
  if max_delta_days <? Z.abs days then
    inl (OverflowError ("days=" ++ pretty days ++ "; must have magnitude <= 999999999")%string)
  else inr days.

(** What [datetime] arithmetic raises on a result outside years 1 to
    9999. *)
Definition date_out_of_range : exc := OverflowError "date value out of range".

(** [now - timedelta(days=days)] on the ordinal of [now]. *)
Definition sub_days (ordinal days : Z) : Exc Z :=
  let? days := timedelta_days days in
  if (1 <=? ordinal - days) && (ordinal - days <=? max_ordinal) then inr (ordinal - days)
  else inl date_out_of_range.

(** ** [strftime('%Y-%m-%d')] *)

(** [%Y] is the year on four digits, [%m] and [%d] on two. *)
Definition strftime_ymd (d : ymd) : string :=
  (zero_pad 4 (ymd_year d) ++ "-" ++ zero_pad 2 (ymd_month d) ++ "-" ++
   zero_pad 2 (ymd_day d))%string.

(** ** Checking a range of integers by evaluation *)

Fixpoint check_range (f : Z -> bool) (lo : Z) (n : nat) : bool :=
  match n with O => true | S n' => f lo && check_range f (lo + 1) n' end.

Lemma check_range_spec f lo n :
  check_range f lo n = true -> forall z, lo <= z < lo + Z.of_nat n -> f z = true.
Proof.
  revert lo. induction n as [|n IH]; intros lo Hc z Hz; simpl in *; [lia|].
  apply andb_true_iff in Hc as [Hlo Hc].
  destruct (Z.eq_dec z lo) as [->|]; [done|]. apply (IH (lo + 1)); [done|lia].
Qed.


(** ** The leap years and the days before a year *)

Lemma is_leap_add_cycles y k : is_leap (y + 400 * k) = is_leap y.
Proof.
  unfold is_leap.
  replace (y + 400 * k) with (y + (100 * k) * 4) by lia. rewrite Z_mod_plus_full.
  replace (y + 100 * k * 4) with (y + (4 * k) * 100) by lia. rewrite Z_mod_plus_full.
  replace (y + 4 * k * 100) with (y + k * 400) by lia. by rewrite Z_mod_plus_full.
Qed.

Lemma days_before_year_add_cycles y k :
  days_before_year (y + 400 * k) = days_before_year y + DI400Y * k.
Proof.
  unfold days_before_year, DI400Y.
  replace (y + 400 * k - 1) with (y - 1 + (100 * k) * 4) by lia. rewrite Z.div_add by lia.
  replace (y - 1 + 100 * k * 4) with (y - 1 + (4 * k) * 100) by lia. rewrite Z.div_add by lia.
  replace (y - 1 + 4 * k * 100) with (y - 1 + k * 400) by lia. rewrite Z.div_add by lia. lia.
Qed.

(** The year of the day [n] of a cycle, as [ord_to_ymd] counts it: [a]
    centuries, [b] four-year blocks and [c] years. *)
Lemma days_before_year_in_cycle k a b c :
  0 <= a <= 3 -> 0 <= b <= 24 -> 0 <= c <= 3 ->
  days_before_year (400 * k + 1 + 100 * a + 4 * b + c) =
  DI400Y * k + DI100Y * a + DI4Y * b + 365 * c.
Proof.
  intros Ha Hb Hc. unfold days_before_year, DI400Y, DI100Y, DI4Y.
  replace (400 * k + 1 + 100 * a + 4 * b + c - 1) with (400 * k + 100 * a + 4 * b + c) by lia.
  rewrite <- (Z.div_unique (400 * k + 100 * a + 4 * b + c) 4 (100 * k + 25 * a + b) c),
    <- (Z.div_unique (400 * k + 100 * a + 4 * b + c) 100 (4 * k + a) (4 * b + c)),
    <- (Z.div_unique (400 * k + 100 * a + 4 * b + c) 400 k (100 * a + 4 * b + c)) by lia.
  lia.
Qed.

Definition leap_check (a b c : Z) : bool :=
  Bool.eqb (is_leap (1 + 100 * a + 4 * b + c)) ((c =? 3) && (negb (b =? 24) || (a =? 3))).

(** The leapness [ord_to_ymd] computes from [n1], [n4] and [n100] is
    [is_leap] of the year, checked on one cycle. *)
Lemma is_leap_in_cycle k a b c :
  0 <= a <= 3 -> 0 <= b <= 24 -> 0 <= c <= 3 ->
  is_leap (400 * k + 1 + 100 * a + 4 * b + c) = (c =? 3) && (negb (b =? 24) || (a =? 3)).
Proof.
  intros Ha Hb Hc.
  replace (400 * k + 1 + 100 * a + 4 * b + c) with (1 + 100 * a + 4 * b + c + 400 * k) by lia.
  rewrite is_leap_add_cycles. apply Bool.eqb_prop. change (leap_check a b c = true).
  apply (check_range_spec (fun c => leap_check a b c) 0 4); [|lia].
  apply (check_range_spec (fun b => check_range (fun c => leap_check a b c) 0 4) 0 25); [|lia].
  apply (check_range_spec (fun a => check_range (fun b =>
           check_range (fun c => leap_check a b c) 0 4) 0 25) 0 4); [|lia].
  vm_compute. reflexivity.
Qed.

(** ** The month and the day within a year *)

Lemma month_day_year y y' l n : is_leap y = is_leap y' ->
  month_day y l n = mk_ymd y (ymd_month (month_day y' l n)) (ymd_day (month_day y' l n)).
Proof. intros Hy. unfold month_day, days_in_month. rewrite Hy. by case_match. Qed.

Lemma valid_ymd_year y y' m d : is_leap y = is_leap y' ->
  valid_ymd (mk_ymd y m d) = valid_ymd (mk_ymd y' m d).
Proof. intros Hy. unfold valid_ymd, days_in_month; simpl. by rewrite Hy. Qed.

Lemma month_day_year_field y l n : ymd_year (month_day y l n) = y.
Proof. unfold month_day. by case_match. Qed.

(** A year of each kind: 1 is common, 4 is leap. *)
Definition leap_year_of (l : bool) : Z := if l then 4 else 1.

Lemma is_leap_year_of l : is_leap (leap_year_of l) = l.
Proof. by destruct l. Qed.

Definition month_day_check (l : bool) (n : Z) : bool :=
  let d := month_day (leap_year_of l) l n in
  valid_ymd d && (days_before_month_leap l (ymd_month d) + ymd_day d =? n + 1).

(** The month and day of the day [n] of a year are a valid date, [n] days
    after the first of January. *)
Lemma month_day_spec y n :
  0 <= n < 365 ->
  valid_ymd (month_day y (is_leap y) n) = true /\
  days_before_month y (ymd_month (month_day y (is_leap y) n)) +
    ymd_day (month_day y (is_leap y) n) = n + 1.
Proof.
  intros Hn. rewrite (month_day_year y (leap_year_of (is_leap y))) by by rewrite is_leap_year_of.
  assert (Hc : month_day_check (is_leap y) n = true).
  { apply (check_range_spec (month_day_check (is_leap y)) 0 365); [|lia].
    destruct (is_leap y); vm_compute; reflexivity. }
  unfold month_day_check in Hc. apply andb_true_iff in Hc as [Hv He%Z.eqb_eq].
  split; [|exact He]. rewrite (valid_ymd_year y (leap_year_of (is_leap y))) by by rewrite is_leap_year_of.
  rewrite <- (month_day_year_field (leap_year_of (is_leap y)) (is_leap y) n) at 1.
  by destruct (month_day _ _ _).
Qed.

(** ** From an ordinal to a date and back *)

Lemma valid_dec31 y : valid_ymd (mk_ymd y 12 31) = true.
Proof. reflexivity. Qed.

Lemma ord_in_cycle_spec k n :
  0 <= n < DI400Y ->
  valid_ymd (ord_in_cycle (400 * k + 1) n) = true /\
  ymd_to_ord (ord_in_cycle (400 * k + 1) n) = DI400Y * k + n + 1.
Proof.
  intros Hn. unfold ord_in_cycle. cbv zeta.
  pose proof (Z_div_mod_eq_full n DI100Y) as E1.
  pose proof (Z.mod_pos_bound n DI100Y ltac:(done)) as B1.
  set (a := n / DI100Y) in *. set (n1 := n mod DI100Y) in *.
  pose proof (Z_div_mod_eq_full n1 DI4Y) as E2.
  pose proof (Z.mod_pos_bound n1 DI4Y ltac:(done)) as B2.
  set (b := n1 / DI4Y) in *. set (n2 := n1 mod DI4Y) in *.
  pose proof (Z_div_mod_eq_full n2 365) as E3.
  pose proof (Z.mod_pos_bound n2 365 ltac:(done)) as B3.
  set (c := n2 / 365) in *. set (r := n2 mod 365) in *.
  unfold DI400Y, DI100Y, DI4Y in *.
  assert (0 <= a <= 4 /\ 0 <= b <= 24 /\ 0 <= c <= 4) as (Ha & Hb & Hc) by lia.
  destruct ((c =? 4) || (a =? 4)) eqn:Hlast.
  - split; [apply valid_dec31|]. unfold ymd_to_ord, days_before_month, days_before_month_leap.
    cbn [ymd_year ymd_month ymd_day days_before_month_table].
    apply orb_true_iff in Hlast as [->%Z.eqb_eq | ->%Z.eqb_eq].
    + assert (a <= 3 /\ b <= 23 /\ r = 0) as (? & ? & ->) by lia.
      replace (400 * k + 1 + a * 100 + b * 4 + 4 - 1) with (400 * k + 1 + 100 * a + 4 * b + 3) by lia.
      rewrite (days_before_year_in_cycle k a b 3), (is_leap_in_cycle k a b 3) by lia.
      replace (b =? 24) with false by lia. unfold DI400Y, DI100Y, DI4Y. simpl. lia.
    + assert (b = 0 /\ c = 0 /\ r = 0) as (-> & -> & ->) by lia.
      replace (400 * k + 1 + 4 * 100 + 0 * 4 + 0 - 1) with (400 * k + 1 + 100 * 3 + 4 * 24 + 3) by lia.
      rewrite (days_before_year_in_cycle k 3 24 3), (is_leap_in_cycle k 3 24 3) by lia.
      unfold DI400Y, DI100Y, DI4Y. simpl. lia.
  - apply orb_false_iff in Hlast as [Hc4%Z.eqb_neq Ha4%Z.eqb_neq].
    replace (400 * k + 1 + a * 100 + b * 4 + c) with (400 * k + 1 + 100 * a + 4 * b + c) by lia.
    rewrite <- (is_leap_in_cycle k a b c) by lia.
    destruct (month_day_spec (400 * k + 1 + 100 * a + 4 * b + c) r) as [Hv Ho]; [lia|].
    split; [done|]. unfold ymd_to_ord. rewrite month_day_year_field, <- Z.add_assoc, Ho.
    rewrite (days_before_year_in_cycle k a b c) by lia. unfold DI400Y, DI100Y, DI4Y. lia.
Qed.

(** Every ordinal [ord_to_ymd] receives is the ordinal of the date it
    returns, and that date is valid. *)
Lemma ord_to_ymd_spec o :
  1 <= o -> valid_ymd (ord_to_ymd o) = true /\ ymd_to_ord (ord_to_ymd o) = o.
Proof.
  intros Ho. unfold ord_to_ymd. cbv zeta.
  pose proof (Z_div_mod_eq_full (o - 1) DI400Y) as E.
  pose proof (Z.mod_pos_bound (o - 1) DI400Y ltac:(done)) as B.
  rewrite (Z.mul_comm _ 400). destruct (ord_in_cycle_spec ((o - 1) / DI400Y) ((o - 1) mod DI400Y))
    as [Hv Hord]; [lia|]. split; [done|]. lia.
Qed.

(** ** From a date to an ordinal and back *)

Definition leap_days (y : Z) : Z := if is_leap y then 1 else 0.

Definition year_length_check (y : Z) : bool :=
  days_before_year (y + 1) =? days_before_year y + 365 + leap_days y.

Lemma days_before_year_succ y : days_before_year (y + 1) = days_before_year y + 365 + leap_days y.
Proof.
  pose proof (Z_div_mod_eq_full (y - 1) 400) as E.
  pose proof (Z.mod_pos_bound (y - 1) 400 ltac:(done)) as B.
  remember ((y - 1) / 400) as k. remember (1 + (y - 1) mod 400) as y0.
  replace y with (y0 + 400 * k) by lia.
  replace (y0 + 400 * k + 1) with (y0 + 1 + 400 * k) by lia.
  unfold leap_days. rewrite !days_before_year_add_cycles, is_leap_add_cycles. fold (leap_days y0).
  enough (year_length_check y0 = true) as ?%Z.eqb_eq by lia.
  apply (check_range_spec year_length_check 1 400); [vm_compute; reflexivity|lia].
Qed.

Lemma days_before_year_mono y1 y2 : y1 <= y2 -> days_before_year y1 <= days_before_year y2.
Proof.
  intros Hle. replace y2 with (y1 + Z.of_nat (Z.to_nat (y2 - y1))) by lia.
  induction (Z.to_nat (y2 - y1)) as [|j IH]; [by rewrite Z.add_0_r|].
  rewrite Nat2Z.inj_succ, <- Z.add_1_r, Z.add_assoc, days_before_year_succ.
  unfold leap_days. destruct is_leap; lia.
Qed.

Definition ymd_eqb (a b : ymd) : bool :=
  (ymd_year a =? ymd_year b) && (ymd_month a =? ymd_month b) && (ymd_day a =? ymd_day b).

Definition date_check (l : bool) (m d : Z) : bool :=
  let y := leap_year_of l in
  (days_before_month y m + d <=? 365 + leap_days y) &&
  ymd_eqb (month_day y l (days_before_month y m + d - 1)) (mk_ymd y m d).

Lemma ymd_eqb_eq a b : ymd_eqb a b = true -> a = b.
Proof.
  destruct a, b; unfold ymd_eqb; simpl. rewrite !andb_true_iff, !Z.eqb_eq. by intros [[-> ->] ->].
Qed.

(** The day of a valid date within its year, and the month and day
    [ord_to_ymd] computes back from it, checked on a common and a leap
    year. *)
Lemma valid_ymd_day_of_year y m d :
  valid_ymd (mk_ymd y m d) = true ->
  1 <= days_before_month y m + d <= 365 + leap_days y /\
  month_day y (is_leap y) (days_before_month y m + d - 1) = mk_ymd y m d.
Proof.
  intros Hv. unfold days_before_month, leap_days.
  rewrite (month_day_year y (leap_year_of (is_leap y))) by by rewrite is_leap_year_of.
  rewrite (valid_ymd_year y (leap_year_of (is_leap y))) in Hv by by rewrite is_leap_year_of.
  generalize dependent (is_leap y). intros l Hv.
  unfold valid_ymd, days_in_month in Hv; simpl in Hv. rewrite is_leap_year_of in Hv.
  repeat rewrite andb_true_iff, ?Z.leb_le in Hv. destruct Hv as [[[Hm1 Hm2] Hd1] Hd2].
  assert (Hc : date_check l m d = true).
  { assert (0 <= days_in_month_leap l m)
      by (unfold days_in_month_leap, days_in_month_table; repeat case_match; lia).
    apply (check_range_spec (date_check l m) 1 (Z.to_nat (days_in_month_leap l m))); [|lia].
    apply (check_range_spec (fun m => check_range (date_check l m) 1
             (Z.to_nat (days_in_month_leap l m))) 1 12); [|lia].
    destruct l; vm_compute; reflexivity. }
  unfold date_check, days_before_month, leap_days in Hc. rewrite is_leap_year_of in Hc.
  apply andb_true_iff in Hc as [Hb%Z.leb_le He%ymd_eqb_eq]. rewrite He. split; [|done].
  split; [|done]. unfold days_before_month_leap, days_before_month_table. repeat case_match; lia.
Qed.

Lemma ymd_to_ord_bounds d :
  valid_ymd d = true ->
  days_before_year (ymd_year d) + 1 <= ymd_to_ord d <= days_before_year (ymd_year d + 1).
Proof.
  destruct d as [y m dd]. intros Hv. apply valid_ymd_day_of_year in Hv as [Hb _].
  unfold ymd_to_ord; simpl. rewrite days_before_year_succ. lia.
Qed.

(** Distinct valid dates have distinct ordinals. *)
Lemma ymd_to_ord_inj d1 d2 :
  valid_ymd d1 = true -> valid_ymd d2 = true -> ymd_to_ord d1 = ymd_to_ord d2 -> d1 = d2.
Proof.
  intros H1 H2 Heq.
  pose proof (ymd_to_ord_bounds d1 H1). pose proof (ymd_to_ord_bounds d2 H2).
  assert (ymd_year d1 = ymd_year d2) as Hy.
  { destruct (Z.lt_total (ymd_year d1) (ymd_year d2)) as [Hlt|[?|Hlt]]; [|done|].
    - pose proof (days_before_year_mono (ymd_year d1 + 1) (ymd_year d2) ltac:(lia)). lia.
    - pose proof (days_before_year_mono (ymd_year d2 + 1) (ymd_year d1) ltac:(lia)). lia. }
  destruct d1 as [y m1 e1], d2 as [y2 m2 e2]; simpl in *; subst y2.
  apply valid_ymd_day_of_year in H1 as [_ <-], H2 as [_ <-].
  unfold ymd_to_ord in Heq; simpl in Heq. do 2 f_equal. lia.
Qed.

(** The calendar round trip.  Every ordinal from 1 on converts with
    [ord_to_ymd] to a valid date whose [ymd_to_ord] is the ordinal, and
    every valid date from year 1 on converts to an ordinal that converts
    back to it: the dates [strftime] prints determine the days they
    denote. *)
Lemma calendar_roundtrip :
  (forall o, 1 <= o -> valid_ymd (ord_to_ymd o) = true /\ ymd_to_ord (ord_to_ymd o) = o) /\
  (forall d, 1 <= ymd_year d -> valid_ymd d = true -> ord_to_ymd (ymd_to_ord d) = d).
Proof.
  split; [exact ord_to_ymd_spec|]. intros d Hy Hv.
  pose proof (ymd_to_ord_bounds d Hv) as Hb.
  pose proof (days_before_year_mono 1 (ymd_year d) Hy) as Hm.
  assert (days_before_year 1 = 0) as H1 by reflexivity.
  destruct (ord_to_ymd_spec (ymd_to_ord d)) as [Hv' Ho]; [lia|].
  by apply ymd_to_ord_inj.
Qed.

