(* ===== verification/PyFloat.v ===== *)
(** * Python floats: IEEE binary64, [float()] and the [:.2f] format

    A Python [float] is an IEEE 754 binary64 number.  It is modelled by the
    Standard Library's [spec_float] at precision 53 and maximal exponent
    1024, whose operations are defined by computation (no axioms):
    [SFadd] is the correctly rounded addition Python performs for [+=].

    [float(s)] on a string is [py_float_of_str]: it strips the whitespace
    Python strips, reads an optional sign and then [inf], [infinity] or
    [nan] in any case, or a decimal literal with underscores allowed
    between digits; the value is the binary64 number nearest to the exact
    decimal, ties to even ([round_ratio], through the rounding of
    [spec_float]), [inf] when it overflows and zero when it underflows.
    Anything else raises [ValueError] with Python's message.  [float(v)]
    of the other values ([py_float]) converts integers with the same
    rounding ([OverflowError] beyond the binary64 range), booleans to 0.0
    and 1.0, and raises [TypeError] on [None], lists and dicts.

    [format(x, '.2f')] is [format_2f]: the exact binary value rounded half
    to even to hundredths, as CPython's correctly rounded [dtoa] does; a
    negative value keeps its sign, also when it rounds to zero.  The
    [int] [0] that starts an accumulator ([total_eks = 0]) is a
    [pynum]. *)

From Stdlib Require Import ZArith Lia Ascii.
From Stdlib Require Import Floats.SpecFloat.
From stdpp Require Import base list strings pretty.
From S2P Require Import Prelude PyJson.

#[local] Open Scope Z_scope.

(** ** binary64 *)

Definition pyfloat : Type := spec_float.

Definition prec : Z := 53.
Definition emax : Z := 1024.

(** [0.0]. *)
Definition float_zero : pyfloat := S754_zero false.

(** [x + y]. *)
Definition float_add (x y : pyfloat) : pyfloat := SFadd prec emax x y.

(** The binary64 number nearest to [num / den] (ties to even), negated
    when [neg], for [num] and [den] positive.  The quotient is taken at an
    exponent [e] that leaves at least 54 bits, and the remainder says where
    the value lies between two such quotients: this is the location the
    rounding of [spec_float] expects. *)
Definition round_ratio (neg : bool) (num den : Z) : pyfloat :=
  let e := Z.log2 num - Z.log2 den - 55 in
  let '(a, b) := if e <? 0 then (num * 2 ^ (- e), den) else (num, den * 2 ^ e) in
  let loc := if a mod b =? 0 then loc_Exact else loc_Inexact (Z.compare (2 * (a mod b)) b) in
  binary_round_aux prec emax neg (a / b) e loc.

(** The nearest binary64 number to [n * 10 ^ e], negated when [neg].  A
    value of at least [10 ^ 310] is beyond the largest binary64 number,
    and a value below [10 ^ -330] is below half the smallest one: the
    rounding of these is settled without computing the decimal power.
    [len] is the number of digits written, which bounds [n] by
    [10 ^ len]. *)
Definition decimal_to_float (neg : bool) (n : Z) (len : Z) (e : Z) : pyfloat :=
  if n =? 0 then S754_zero neg
  else if 310 <? e then S754_infinity neg
  else if len + e <? -330 then S754_zero neg
  else if 0 <=? e then round_ratio neg (n * 10 ^ e) 1
  else round_ratio neg n (10 ^ (- e)).

(** ** [float(s)] on a string *)

(** The characters [str.isspace] accepts among ASCII. *)
Definition is_py_space (c : ascii) : bool :=
  let n := nat_of_ascii c in
  (n =? 32)%nat || ((9 <=? n)%nat && (n <=? 13)%nat) || ((28 <=? n)%nat && (n <=? 31)%nat).

Fixpoint drop_space (l : list ascii) : list ascii :=
  match l with c :: l' => if is_py_space c then drop_space l' else l | [] => [] end.

Definition strip (l : list ascii) : list ascii := rev (drop_space (rev (drop_space l))).

Definition digit_val (c : ascii) : option Z :=
  let n := nat_of_ascii c in
  if (48 <=? n)%nat && (n <=? 57)%nat then Some (Z.of_nat n - 48) else None.

(** The digits that follow a first digit: more digits, each possibly
    preceded by one underscore. *)
Fixpoint digits_after (l : list ascii) : list Z * list ascii :=
  match l with
  | [] => ([], [])
  | c :: l' =>
      match digit_val c with
      | Some d => let '(ds, r) := digits_after l' in (d :: ds, r)
      | None =>
          if Ascii.eqb c "_" then
            match l' with
            | c2 :: l'' =>
                match digit_val c2 with
                | Some d => let '(ds, r) := digits_after l'' in (d :: ds, r)
                | None => ([], l)
                end
            | [] => ([], l)
            end
          else ([], l)
      end
  end.

(** The longest [digitpart] at the front of [l] (possibly empty). *)
Definition digitpart (l : list ascii) : list Z * list ascii :=
  match l with
  | c :: l' =>
      match digit_val c with
      | Some d => let '(ds, r) := digits_after l' in (d :: ds, r)
      | None => ([], l)
      end
  | [] => ([], [])
  end.

Definition digits_value (ds : list Z) : Z := foldl (fun acc d => acc * 10 + d) 0 ds.

Definition read_sign (l : list ascii) : bool * list ascii :=
  match l with
  | "-"%char :: l' => (true, l')
  | "+"%char :: l' => (false, l')
  | _ => (false, l)
  end.

Definition ascii_lower (c : ascii) : ascii :=
  let n := nat_of_ascii c in
  if (65 <=? n)%nat && (n <=? 90)%nat then ascii_of_nat (n + 32) else c.

Definition lower_is (l : list ascii) (word : string) : bool :=
  bool_decide (map ascii_lower l = String.list_ascii_of_string word).

(** The exponent part: nothing, or [e]/[E], a sign and a [digitpart]. *)
Definition read_exponent (l : list ascii) : option Z :=
  match l with
  | [] => Some 0
  | c :: l' =>
      if Ascii.eqb (ascii_lower c) "e" then
        let '(neg, l'') := read_sign l' in
        match digitpart l'' with
        | (d :: ds, []) => Some (if neg then - digits_value (d :: ds) else digits_value (d :: ds))
        | _ => None
        end
      else None
  end.

(** A float literal, after the whitespace is stripped. *)
Definition parse_float (l : list ascii) : option pyfloat :=
  let '(neg, l) := read_sign l in
  if lower_is l "inf" || lower_is l "infinity" then Some (S754_infinity neg)
  else if lower_is l "nan" then Some S754_nan
  else
    let '(ip, l1) := digitpart l in
    let '(fp, l2) := match l1 with "."%char :: l1' => digitpart l1' | _ => ([], l1) end in
    if bool_decide (ip = [] /\ fp = []) then None else
    match read_exponent l2 with
    | Some e =>
        Some (decimal_to_float neg (digits_value (ip ++ fp)) (Z.of_nat (length (ip ++ fp)))
                (e - Z.of_nat (length fp)))
    | None => None
    end.

(** [float(s)]. *)
Definition py_float_of_str (s : string) : Exc pyfloat :=
  match parse_float (strip (String.list_ascii_of_string s)) with
  | Some f => inr f
  | None => inl (ValueError ("could not convert string to float: " ++ py_repr_str s)%string)
  end.

(** [float(n)] of an [int]: correctly rounded, and refused beyond the
    binary64 range. *)
Definition int_to_float (z : Z) : Exc pyfloat :=
  if z =? 0 then inr float_zero else
  match round_ratio (z <? 0) (Z.abs z) 1 with
  | S754_infinity _ => inl (OverflowError "int too large to convert to float")
  | f => inr f
  end.

(** [float(v)] of a decoded value. *)
Definition py_float (v : pyval) : Exc pyfloat :=
  match v with
  | PStr s => py_float_of_str s
  | PInt z => int_to_float z
  | PBool b => int_to_float (Z.b2z b)
  | _ => inl (TypeError ("float() argument must be a string or a real number, not '" ++
                         py_type_name v ++ "'")%string)
  end.

(** ** [format(x, '.2f')] *)

(** [a / b] rounded half to even, for [a >= 0] and [b > 0]. *)
Definition div_round_half_even (a b : Z) : Z :=
  let q := a / b in
  match Z.compare (2 * (a mod b)) b with
  | Lt => q
  | Gt => q + 1
  | Eq => if Z.even q then q else q + 1
  end.

(** The number of hundredths nearest to [m * 2 ^ e]. *)
Definition hundredths (m : positive) (e : Z) : Z :=
  if 0 <=? e then Z.pos m * 2 ^ e * 100 else div_round_half_even (Z.pos m * 100) (2 ^ (- e)).

Definition format_2f (x : pyfloat) : string :=
  match x with
  | S754_nan => "nan"
  | S754_infinity s => if s then "-inf" else "inf"
  | S754_zero s => if s then "-0.00" else "0.00"
  | S754_finite s m e =>
      let c := hundredths m e in
      ((if s then "-" else "") ++ pretty (c / 100) ++ "." ++ zero_pad 2 (c mod 100))%string
  end.

(** ** Numbers that start as the [int] [0] *)

Inductive pynum := PyIntNum (z : Z) | PyFloatNum (f : pyfloat).

(** [acc += x] for a float [x]: an [int] is converted first. *)
Definition num_iadd_float (acc : pynum) (x : pyfloat) : Exc pynum :=
  match acc with
  | PyIntNum z => let? f := int_to_float z in inr (PyFloatNum (float_add f x))
  | PyFloatNum f => inr (PyFloatNum (float_add f x))
  end.

(** [format(acc, '.2f')]: an [int] is formatted as the float it converts to. *)
Definition format_2f_num (acc : pynum) : Exc string :=
  match acc with
  | PyIntNum z => let? f := int_to_float z in inr (format_2f f)
  | PyFloatNum f => inr (format_2f f)
  end.

(** ** The exceptions of the conversions *)

Lemma py_float_of_str_exc s : raises_only Exception (py_float_of_str s).
Proof. unfold py_float_of_str. case_match; by apply raises_only_inr || apply raises_only_inl. Qed.

Lemma int_to_float_exc z : raises_only Exception (int_to_float z).
Proof. unfold int_to_float. repeat case_match; by apply raises_only_inr || apply raises_only_inl. Qed.

Lemma py_float_exc v : raises_only Exception (py_float v).
Proof.
  destruct v; simpl; try apply int_to_float_exc; try apply py_float_of_str_exc; by apply raises_only_inl.
Qed.

Lemma num_iadd_float_exc acc x : raises_only Exception (num_iadd_float acc x).
Proof. destruct acc; simpl; [apply raises_only_bind; [apply int_to_float_exc|]|]; intros; apply raises_only_inr. Qed.

Lemma format_2f_num_exc acc : raises_only Exception (format_2f_num acc).
Proof. destruct acc; simpl; [apply raises_only_bind; [apply int_to_float_exc|]|]; intros; apply raises_only_inr. Qed.

#[export] Hint Resolve py_float_of_str_exc int_to_float_exc py_float_exc num_iadd_float_exc
  format_2f_num_exc : gitops.

(** ** The rounding of [:.2f] *)




