(* ===== verification/Kubectl.v ===== *)
(** * The kubectl collaborator of [health_check.py]

    [run_kubectl_command] (lines 12-27) and [check_cluster_connectivity]
    (lines 29-39) are the only functions of the health check that leave
    the process.  They are modelled against the interface [Host], which
    gives the result of [subprocess.run] for an argument vector and the
    value [json.loads] decodes from a string ([None] for a
    [JSONDecodeError]).  Every spawn is recorded as an [EvSpawn] event.

    The theorems give the outcome of both functions on every branch: a
    failed or undecodable query becomes the empty dict [{}], a failed
    [cluster-info] becomes [False], and a missing [kubectl] binary raises
    [FileNotFoundError] out of both, since neither catches it. *)

From Stdlib Require Import ZArith.
From stdpp Require Import base list strings.
From S2P Require Import Prelude PyJson.

(** What [subprocess.run(argv, capture_output=True)] produces: a completed
    process, or the [FileNotFoundError] of an executable that is not on the
    [PATH]. *)
Inductive proc_result :=
| Completed (returncode : Z) (stdout stderr : string)
| ExecNotFound.

(** The collaborators of the health check. *)
Class Host := {
  host_run : list string -> proc_result;
  host_json_loads : string -> option pyval
}.

Section Kubectl.
Context `{Host}.

(** [subprocess.run(argv, capture_output=True, check=True)]: a non-zero
    return code raises [CalledProcessError] carrying the captured standard
    error; the value is the captured standard output. *)
Definition subprocess_run_check (argv : list string) : PyM string :=
  emit (EvSpawn argv);;
  match host_run argv with
  | ExecNotFound => raise (FileNotFoundError (default EmptyString (head argv)))
  | Completed rc out err =>
      if Z.eqb rc 0 then ret out else raise (CalledProcessError rc err)
  end.

(** [json.loads(s)]. *)
Definition json_loads (s : string) : PyM pyval :=
  match host_json_loads s with
  | Some v => ret v
  | None => raise JSONDecodeError
  end.

(** The argument vector of [kubectl <command> -o json]. *)
Definition kubectl_argv (command : list string) : list string :=
  ["kubectl"] ++ command ++ ["-o"; "json"].

Definition run_kubectl_command (command : list string) : PyM pyval :=
  try_except
    (let* out := subprocess_run_check (kubectl_argv command) in
     json_loads out)
    (fun e =>
       match e with
       | CalledProcessError _ err =>
           Some (print ("Error running kubectl: " ++ err)%string;; ret (PDict []))
       | JSONDecodeError =>
           Some (print "Error parsing kubectl output";; ret (PDict []))
       | _ => None
       end).

Definition check_cluster_connectivity : PyM bool :=
  try_except
    (subprocess_run_check ["kubectl"; "cluster-info"];; ret true)
    (fun e => match e with CalledProcessError _ _ => Some (ret false) | _ => None end).

(** The value [run_kubectl_command] hands to its caller, as a function of
    what the process and the decoder return. *)
Definition kubectl_result (command : list string) : Exc pyval :=
  match host_run (kubectl_argv command) with
  | ExecNotFound => inl (FileNotFoundError "kubectl")
  | Completed rc out _ =>
      if Z.eqb rc 0 then
        match host_json_loads out with Some v => inr v | None => inr (PDict []) end
      else inr (PDict [])
  end.

(** A query is answered when [kubectl] exits with 0 and its output decodes. *)
Definition kubectl_answers (command : list string) (v : pyval) : Prop :=
  exists out err,
    host_run (kubectl_argv command) = Completed 0 out err /\
    host_json_loads out = Some v.

(** The truth value [check_cluster_connectivity] returns. *)
Definition connectivity_result : Exc bool :=
  match host_run ["kubectl"; "cluster-info"] with
  | ExecNotFound => inl (FileNotFoundError "kubectl")
  | Completed rc _ _ => inr (Z.eqb rc 0)
  end.

Lemma outcome_run_kubectl_command command :
  outcome (run_kubectl_command command) = kubectl_result command.
Proof.
  unfold run_kubectl_command, kubectl_result, subprocess_run_check, json_loads.
  destruct (host_run (kubectl_argv command)) as [rc out err|]; [|done].
  destruct (Z.eqb rc 0); simpl; [|done].
  by destruct (host_json_loads out).
Qed.

Lemma trace_spawned_run_kubectl_command command :
  spawned (trace (run_kubectl_command command)) = [kubectl_argv command].
Proof.
  unfold run_kubectl_command, subprocess_run_check, json_loads.
  destruct (host_run (kubectl_argv command)) as [rc out err|]; [|done].
  destruct (Z.eqb rc 0); simpl; [|done].
  by destruct (host_json_loads out).
Qed.

Lemma outcome_check_cluster_connectivity :
  outcome check_cluster_connectivity = connectivity_result.
Proof.
  unfold check_cluster_connectivity, connectivity_result, subprocess_run_check.
  destruct (host_run _) as [rc out err|]; [|done].
  by destruct (Z.eqb rc 0).
Qed.

Lemma trace_check_cluster_connectivity :
  trace check_cluster_connectivity = [EvSpawn ["kubectl"; "cluster-info"]].
Proof.
  unfold check_cluster_connectivity, subprocess_run_check.
  destruct (host_run _) as [rc out err|]; [|done].
  by destruct (Z.eqb rc 0).
Qed.

(** A query fails when [kubectl] exits with a non-zero code. *)
Definition kubectl_fails (command : list string) : Prop :=
  exists rc out err, host_run (kubectl_argv command) = Completed rc out err /\ rc <> 0%Z.

(** A failed query is indistinguishable from an empty answer: the caller
    receives the empty dict, exactly what a successful query answering
    [{}] gives. *)
Lemma kubectl_result_failed command :
  kubectl_fails command -> kubectl_result command = inr (PDict []).
Proof.
  intros (rc & out & err & Hrun & Hrc). unfold kubectl_result. rewrite Hrun.
  by destruct (Z.eqb_spec rc 0).
Qed.

Lemma kubectl_result_answer command v :
  kubectl_answers command v -> kubectl_result command = inr v.
Proof. intros (out & err & Hrun & Hdec). unfold kubectl_result. by rewrite Hrun, Hdec. Qed.

(** The exceptions a probe lets escape: a missing [kubectl], or a
    traversal of ill-typed JSON. *)
Definition probe_error (e : exc) : Prop := e = FileNotFoundError "kubectl" \/ json_error e.

Lemma kubectl_result_raises command : raises_only probe_error (kubectl_result command).
Proof.
  unfold kubectl_result. destruct (host_run _) as [rc out err|].
  - destruct (Z.eqb rc 0); [destruct (host_json_loads out)|]; apply raises_only_inr.
  - apply raises_only_inl. by left.
Qed.

Lemma connectivity_result_raises : raises_only probe_error connectivity_result.
Proof.
  unfold connectivity_result. destruct (host_run _); [apply raises_only_inr|].
  apply raises_only_inl. by left.
Qed.

End Kubectl.

(** A [kubectl] double for tests: every command succeeds and its output
    decodes to [v]. *)
Definition fixed_answer_host (v : pyval) : Host :=
  {| host_run := fun _ => Completed 0 "" ""; host_json_loads := fun _ => Some v |}.

Lemma fixed_answer_host_answers v command : @kubectl_answers (fixed_answer_host v) command v.
Proof. by do 2 eexists. Qed.

Lemma json_error_probe_error e : json_error e -> probe_error e.
Proof. by right. Qed.

Lemma exit_code_probe_error {A} e : probe_error e -> exit_code (A:=A) (inl e) = 1%Z.
Proof. by intros [->|He]; [|destruct e].
Qed.

#[export] Hint Resolve kubectl_result_raises connectivity_result_raises
  json_error_probe_error : gitops.

#[export] Hint Rewrite @outcome_run_kubectl_command
  @outcome_check_cluster_connectivity : py_simpl.

(** ** The query on every branch *)

(** C37: what [run_kubectl_command] does.  It spawns [kubectl <command> -o
    json] once, and then: a missing binary raises [FileNotFoundError]
    without printing; a zero exit code with decodable output returns the
    decoded value silently; a zero exit code with undecodable output
    prints "Error parsing kubectl output" and returns [{}]; a non-zero
    exit code prints "Error running kubectl: " and the captured standard
    error, and returns [{}]. *)
Theorem run_kubectl_command_branches `{Host} command :
  spawned (trace (run_kubectl_command command)) = [kubectl_argv command] /\
  match host_run (kubectl_argv command) with
  | ExecNotFound =>
      outcome (run_kubectl_command command) = inl (FileNotFoundError "kubectl") /\
      printed (trace (run_kubectl_command command)) = []
  | Completed rc out err =>
      if Z.eqb rc 0 then
        match host_json_loads out with
        | Some v =>
            outcome (run_kubectl_command command) = inr v /\
            printed (trace (run_kubectl_command command)) = []
        | None =>
            outcome (run_kubectl_command command) = inr (PDict []) /\
            printed (trace (run_kubectl_command command)) = ["Error parsing kubectl output"]
        end
      else
        outcome (run_kubectl_command command) = inr (PDict []) /\
        printed (trace (run_kubectl_command command)) = [("Error running kubectl: " ++ err)%string]
  end.
Proof.
  split; [apply trace_spawned_run_kubectl_command|].
  unfold run_kubectl_command, subprocess_run_check, json_loads.
  destruct (host_run (kubectl_argv command)) as [rc out err|]; [|done].
  destruct (Z.eqb rc 0); simpl; [|done].
  by destruct (host_json_loads out).
Qed.
