(* ===== verification/NodeProbe.v ===== *)
(** * Node probe: [check_node_status] ([health_check.py], lines 41-60)

    The implementation is the loop of the source over the JSON of
    [kubectl get nodes -o json]: [count_node] is the body of the outer
    [for node in nodes.get('items', [])] and [count_condition] the body of
    the inner [for condition in conditions].  The counters are Python
    integers, modelled as [nat].

    The abstract side is the data model of the spec: a [node] record with
    its [condition]s, encoded as the JSON kubectl prints ([node_to_py]),
    and the closed form [node_counts].  The theorems show that the loop
    computes [node_counts] on every encoded node list, so that
    [check_node_status] returns it on a [Host] whose [kubectl get nodes]
    answers the encoding, that it counts one
    [Ready] condition, not one node, into [ready] or [not_ready] (so that
    [total = ready + not_ready] holds exactly when every node carries one
    [Ready] condition), and that the only exceptions the loop can raise
    are the [AttributeError] and [TypeError] of ill-typed JSON. *)

From Stdlib Require Import ZArith Lia.
From stdpp Require Import base list strings sets.
From S2P Require Import Prelude PyJson Kubectl.

#[local] Set Warnings "-clear-no-such-hyp".

Record node_status := mk_node_status {
  ns_total : nat;
  ns_ready : nat;
  ns_not_ready : nat
}.

(** [{'total': 0, 'ready': 0, 'not_ready': 0}] *)
Definition node_status0 : node_status := mk_node_status 0 0 0.

(** Lines 54-58: the body of [for condition in conditions]. *)
Definition count_condition (st : node_status) (condition : pyval) : Exc node_status :=
  let? ty := py_get1 condition "type" in
  if py_eq_str ty "Ready" then
    let? status := py_get1 condition "status" in
    if py_eq_str status "True"
    then inr (mk_node_status (ns_total st) (S (ns_ready st)) (ns_not_ready st))
    else inr (mk_node_status (ns_total st) (ns_ready st) (S (ns_not_ready st)))
  else inr st.

(** Lines 51-58: the body of [for node in nodes.get('items', [])]. *)
Definition count_node (st : node_status) (node : pyval) : Exc node_status :=
  let st1 := mk_node_status (S (ns_total st)) (ns_ready st) (ns_not_ready st) in
  let? status := py_get node "status" (PDict []) in
  let? conditions := py_get status "conditions" (PList []) in
  let? cs := py_iter conditions in
  foldM count_condition st1 cs.

(** Lines 44-60, on the value [run_kubectl_command] returned. *)
Definition tally_nodes (nodes : pyval) : Exc node_status :=
  let? items := py_get nodes "items" (PList []) in
  let? items := py_iter items in
  foldM count_node node_status0 items.

Section WithHost.
Context `{Host}.

(** Lines 41-60. *)
Definition check_node_status : PyM node_status :=
  let* nodes := run_kubectl_command ["get"; "nodes"] in
  lift (tally_nodes nodes).

(** What the node probe returns to [run_health_check]. *)
Definition node_probe_result : Exc node_status :=
  let? nodes := kubectl_result ["get"; "nodes"] in tally_nodes nodes.

Lemma outcome_check_node_status : outcome check_node_status = node_probe_result.
Proof.
  unfold check_node_status, node_probe_result.
  rewrite outcome_bind, outcome_run_kubectl_command. done.
Qed.

End WithHost.

(** ** The typed data model and its JSON encoding *)

Record condition := mk_condition { cond_type : string; cond_status : string }.

Record node := mk_node { node_name : string; node_conditions : list condition }.

Definition condition_to_py (c : condition) : pyval :=
  PDict [("type", PStr (cond_type c)); ("status", PStr (cond_status c))].

Definition node_to_py (n : node) : pyval :=
  PDict [("metadata", PDict [("name", PStr (node_name n))]);
         ("status", PDict [("conditions", PList (map condition_to_py (node_conditions n)))])].

(** The document of [kubectl get nodes -o json]. *)
Definition node_list_to_py (ns : list node) : pyval :=
  PDict [("apiVersion", PStr "v1"); ("items", PList (map node_to_py ns));
         ("kind", PStr "List")].

Definition is_ready_condition (c : condition) : bool := String.eqb (cond_type c) "Ready".

Definition ready_true (c : condition) : bool :=
  is_ready_condition c && String.eqb (cond_status c) "True".

Definition ready_not_true (c : condition) : bool :=
  is_ready_condition c && negb (String.eqb (cond_status c) "True").

(** What the loop counts, in closed form. *)
Definition node_counts (ns : list node) : node_status :=
  mk_node_status (length ns)
    (sum_list_with (fun n => count_if ready_true (node_conditions n)) ns)
    (sum_list_with (fun n => count_if ready_not_true (node_conditions n)) ns).

(** The spec's readiness of a node: a condition named [Ready] with status
    true. *)
Definition node_is_ready (n : node) : bool := existsb ready_true (node_conditions n).

(** The shape kubectl guarantees: exactly one [Ready] condition per node. *)
Definition node_wf (n : node) : Prop := count_if is_ready_condition (node_conditions n) = 1.

(** ** The loop on encoded nodes *)

Definition ns_add (st : node_status) (t r nr : nat) : node_status :=
  mk_node_status (ns_total st + t) (ns_ready st + r) (ns_not_ready st + nr).

Lemma count_condition_encoded st c :
  count_condition st (condition_to_py c) =
  inr (ns_add st 0 (if ready_true c then 1 else 0) (if ready_not_true c then 1 else 0)).
Proof.
  destruct st as [t r nr]; unfold count_condition, ready_true, ready_not_true,
    is_ready_condition, ns_add; simpl.
  destruct (String.eqb (cond_type c) "Ready"); simpl; [|f_equal; f_equal; lia].
  destruct (String.eqb (cond_status c) "True"); simpl; f_equal; f_equal; lia.
Qed.

Lemma foldM_count_condition_encoded st cs :
  foldM count_condition st (map condition_to_py cs) =
  inr (ns_add st 0 (count_if ready_true cs) (count_if ready_not_true cs)).
Proof.
  revert st; induction cs as [|c cs IH]; intros st; simpl.
  - destruct st; unfold ns_add; simpl; f_equal; f_equal; lia.
  - rewrite count_condition_encoded. simpl. rewrite IH.
    destruct st; unfold ns_add; simpl; f_equal; f_equal; lia.
Qed.

Lemma count_node_encoded st n :
  count_node st (node_to_py n) =
  inr (ns_add st 1 (count_if ready_true (node_conditions n))
                   (count_if ready_not_true (node_conditions n))).
Proof.
  unfold count_node; simpl. rewrite foldM_count_condition_encoded.
  destruct st; unfold ns_add; simpl; f_equal; f_equal; lia.
Qed.

Lemma foldM_count_node_encoded st ns :
  foldM count_node st (map node_to_py ns) =
  inr (ns_add st (ns_total (node_counts ns)) (ns_ready (node_counts ns))
                 (ns_not_ready (node_counts ns))).
Proof.
  revert st; induction ns as [|n ns IH]; intros st; simpl.
  - destruct st; unfold ns_add; simpl; f_equal; f_equal; lia.
  - rewrite count_node_encoded. simpl. rewrite IH.
    destruct st; unfold ns_add; simpl; f_equal; f_equal; lia.
Qed.

(** ** Properties *)

(** On the JSON kubectl prints for any list of nodes, the loop raises
    nothing and computes the closed form. *)
Lemma tally_nodes_encoded (ns : list node) :
  tally_nodes (node_list_to_py ns) = inr (node_counts ns).
Proof.
  unfold tally_nodes; simpl. rewrite foldM_count_node_encoded.
  destruct (node_counts ns); unfold ns_add; simpl; done.
Qed.

(** The chain from the kubectl answer to the closed form. *)
Lemma check_node_status_encoded `{Host} (ns : list node) :
  kubectl_answers ["get"; "nodes"] (node_list_to_py ns) ->
  outcome check_node_status = inr (node_counts ns).
Proof.
  intros Ha. rewrite outcome_check_node_status. unfold node_probe_result.
  rewrite (kubectl_result_answer _ _ Ha). apply tally_nodes_encoded.
Qed.

(** C9: refinement.  When [kubectl get nodes] answers the JSON of a list
    of nodes, [check_node_status] raises nothing and returns the closed
    form [node_counts]: [total] is the number of nodes, [ready] the number
    of [Ready] conditions whose status is ["True"], [not_ready] the number
    of the other [Ready] conditions. *)
Theorem check_node_status_refines `{Host} (ns : list node) :
  kubectl_answers ["get"; "nodes"] (node_list_to_py ns) ->
  outcome check_node_status = inr (node_counts ns).
Proof. apply check_node_status_encoded. Qed.

Lemma ready_split c :
  (if ready_true c then 1 else 0) + (if ready_not_true c then 1 else 0) =
  (if is_ready_condition c then 1 else 0).
Proof.
  unfold ready_true, ready_not_true.
  by destruct (is_ready_condition c), (String.eqb (cond_status c) "True").
Qed.

Lemma count_if_ready_split cs :
  count_if ready_true cs + count_if ready_not_true cs = count_if is_ready_condition cs.
Proof.
  induction cs as [|c cs IH]; [done|]. cbn [count_if].
  pose proof (ready_split c). lia.
Qed.

(** On a node with one [Ready] condition, the loop counts the node as
    ready exactly when the spec calls it ready. *)
Lemma wf_node_counts n :
  node_wf n ->
  count_if ready_true (node_conditions n) = (if node_is_ready n then 1 else 0) /\
  count_if ready_not_true (node_conditions n) = (if node_is_ready n then 0 else 1).
Proof.
  unfold node_wf, node_is_ready. intros Hwf.
  pose proof (count_if_ready_split (node_conditions n)) as Hs.
  destruct (existsb ready_true _) eqn:E.
  - apply existsb_exists in E as [c [Hc%list_elem_of_In Hr]].
    pose proof (count_if_pos ready_true _ c Hc Hr). lia.
  - assert (count_if ready_true (node_conditions n) = 0).
    { apply count_if_false. intros c Hc. apply list_elem_of_In in Hc.
      destruct (ready_true c) eqn:Ec; [|done].
      assert (existsb ready_true (node_conditions n) = true) as Hex
        by (apply existsb_exists; eauto). congruence. }
    lia.
Qed.

(** The partition on the closed form. *)
Lemma node_counts_partition (ns : list node) :
  Forall node_wf ns ->
  ns_ready (node_counts ns) = count_if node_is_ready ns /\
  ns_not_ready (node_counts ns) = count_if (fun n => negb (node_is_ready n)) ns /\
  ns_total (node_counts ns) = ns_ready (node_counts ns) + ns_not_ready (node_counts ns).
Proof.
  induction 1 as [|n ns Hn Hns IH]; [done|]. simpl in *.
  destruct (wf_node_counts n Hn) as [-> ->]. destruct IH as (-> & -> & ->).
  destruct (node_is_ready n); simpl; lia.
Qed.

(** The Ready conditions on the closed form. *)
Lemma node_counts_ready_conditions (ns : list node) :
  ns_ready (node_counts ns) + ns_not_ready (node_counts ns) =
  sum_list_with (fun n => count_if is_ready_condition (node_conditions n)) ns.
Proof.
  induction ns as [|n ns IH]; [done|]. simpl in *.
  rewrite <- count_if_ready_split. lia.
Qed.

(** Whatever JSON [kubectl] returns, the loop of [check_node_status]
    either computes the counters or raises the [AttributeError] or
    [TypeError] of a value of the wrong type. *)
Lemma tally_nodes_raises (nodes : pyval) : raises_only json_error (tally_nodes nodes).
Proof. unfold tally_nodes, count_node, count_condition. solve_raises. Qed.

Lemma node_probe_result_raises `{Host} : raises_only probe_error node_probe_result.
Proof.
  unfold node_probe_result. apply raises_only_bind; [auto with gitops|].
  intros v. eapply raises_only_mono, tally_nodes_raises. auto with gitops.
Qed.

(** Three nodes as kubectl reports them: two ready, one whose kubelet
    stopped reporting. *)
Definition sample_nodes : list node :=
  [mk_node "a" [mk_condition "Ready" "True"];
   mk_node "b" [mk_condition "MemoryPressure" "False"; mk_condition "Ready" "True"];
   mk_node "c" [mk_condition "Ready" "Unknown"]].

(** Witness of C9. *)
Lemma check_node_status_refines_witness :
  outcome (@check_node_status (fixed_answer_host (node_list_to_py sample_nodes))) =
  inr (node_counts sample_nodes).
Proof. apply check_node_status_refines, fixed_answer_host_answers. Defined.

(** Under the shape kubectl guarantees, no node is counted not ready
    exactly when every node is Ready in the sense of the spec. *)
Lemma not_ready_zero_iff (ns : list node) :
  Forall node_wf ns ->
  ns_not_ready (node_counts ns) = 0 <-> forallb node_is_ready ns = true.
Proof.
  induction 1 as [|n ns Hn Hns IH]; [done|]. simpl in *.
  destruct (wf_node_counts n Hn) as [_ ->]. rewrite andb_true_iff, <- IH.
  destruct (node_is_ready n); naive_solver lia.
Qed.

(** C10: the spec's partition, under the shape kubectl guarantees.  When
    [kubectl get nodes] answers the JSON of nodes that each carry exactly
    one [Ready] condition, [check_node_status] returns counters where
    [ready] is the number of nodes the spec calls Ready, [not_ready] the
    number of the others, and [total = ready + not_ready]. *)
Theorem check_node_status_partition `{Host} (ns : list node) :
  kubectl_answers ["get"; "nodes"] (node_list_to_py ns) -> Forall node_wf ns ->
  exists st, outcome check_node_status = inr st /\
    ns_ready st = count_if node_is_ready ns /\
    ns_not_ready st = count_if (fun n => negb (node_is_ready n)) ns /\
    ns_total st = ns_ready st + ns_not_ready st.
Proof.
  intros Ha Hwf. exists (node_counts ns). split; [by apply check_node_status_encoded|].
  by apply node_counts_partition.
Qed.

(** C11: what the loop really counts.  Whatever nodes [kubectl get nodes]
    reports, the [ready] and [not_ready] that [check_node_status] returns
    add up to the number of [Ready] conditions over all nodes, not to the
    number of nodes: a node without a [Ready] condition is counted in
    neither counter, a node with two is counted twice. *)
Theorem check_node_status_ready_conditions `{Host} (ns : list node) :
  kubectl_answers ["get"; "nodes"] (node_list_to_py ns) ->
  exists st, outcome check_node_status = inr st /\ ns_total st = length ns /\
    ns_ready st + ns_not_ready st =
      sum_list_with (fun n => count_if is_ready_condition (node_conditions n)) ns.
Proof.
  intros Ha. exists (node_counts ns). split_and!; [by apply check_node_status_encoded|done|].
  apply node_counts_ready_conditions.
Qed.

(** Witness of C10. *)
Lemma check_node_status_partition_witness :
  exists st, outcome (@check_node_status (fixed_answer_host (node_list_to_py sample_nodes))) = inr st /\
    ns_ready st = 2 /\ ns_not_ready st = 1 /\ ns_total st = ns_ready st + ns_not_ready st.
Proof.
  destruct (@check_node_status_partition (fixed_answer_host (node_list_to_py sample_nodes)) sample_nodes
              (fixed_answer_host_answers _ _) ltac:(repeat constructor)) as (st & Hst & Hr & Hn & Ht).
  exists st. split_and!; [done|rewrite Hr; reflexivity|rewrite Hn; reflexivity|done].
Defined.

(** Witness of C11: a node with two [Ready] conditions and one with none. *)
Definition odd_nodes : list node :=
  [mk_node "a" [mk_condition "Ready" "True"; mk_condition "Ready" "False"];
   mk_node "b" [mk_condition "DiskPressure" "False"]].

Lemma check_node_status_ready_conditions_witness :
  exists st, outcome (@check_node_status (fixed_answer_host (node_list_to_py odd_nodes))) = inr st /\
    ns_total st = 2 /\ ns_ready st + ns_not_ready st = 2.
Proof.
  destruct (@check_node_status_ready_conditions (fixed_answer_host (node_list_to_py odd_nodes)) odd_nodes
              (fixed_answer_host_answers _ _)) as (st & Hst & Ht & Hs).
  exists st. split_and!; [done|done|rewrite Hs; reflexivity].
Defined.
