(* ===== verification/PodProbe.v ===== *)
(** * Workload probe: [check_pod_status] ([health_check.py], lines 62-91)

    The implementation is the loop of the source over the JSON of
    [kubectl get pods -n <namespace> -o json]: [count_pod] is the body of
    [for pod in pods.get('items', [])], with its [if]/[elif] chain on the
    phase, and [count_container] the body of the inner loop over the
    container statuses.

    The abstract side is a typed [pod] (phase, container statuses with an
    optional waiting reason), its JSON encoding [pod_to_py] and the closed
    form [pod_counts].  The theorems show that the loop computes
    [pod_counts], so that [check_pod_status] returns it on a [Host] whose
    [kubectl get pods] answers the encoding, that the three phase counters and the unrecognised
    phases partition [total], and that [crash_loop_backoff] counts
    crash-looping containers, not pods: one pod with two crash-looping
    containers is counted twice. *)

From Stdlib Require Import ZArith Lia.
From stdpp Require Import base list strings sets.
From S2P Require Import Prelude PyJson Kubectl.

#[local] Set Warnings "-clear-no-such-hyp".

Record pod_status := mk_pod_status {
  ps_total : nat;
  ps_running : nat;
  ps_pending : nat;
  ps_failed : nat;
  ps_crash_loop_backoff : nat
}.

(** Lines 65-71. *)
Definition pod_status0 : pod_status := mk_pod_status 0 0 0 0 0.

(** The [+= 1] of each counter. *)
Definition incr_total (st : pod_status) : pod_status :=
  mk_pod_status (S (ps_total st)) (ps_running st) (ps_pending st) (ps_failed st)
    (ps_crash_loop_backoff st).
Definition incr_running (st : pod_status) : pod_status :=
  mk_pod_status (ps_total st) (S (ps_running st)) (ps_pending st) (ps_failed st)
    (ps_crash_loop_backoff st).
Definition incr_pending (st : pod_status) : pod_status :=
  mk_pod_status (ps_total st) (ps_running st) (S (ps_pending st)) (ps_failed st)
    (ps_crash_loop_backoff st).
Definition incr_failed (st : pod_status) : pod_status :=
  mk_pod_status (ps_total st) (ps_running st) (ps_pending st) (S (ps_failed st))
    (ps_crash_loop_backoff st).
Definition incr_crash (st : pod_status) : pod_status :=
  mk_pod_status (ps_total st) (ps_running st) (ps_pending st) (ps_failed st)
    (S (ps_crash_loop_backoff st)).

(** Lines 86-89: the body of [for status in container_statuses]. *)
Definition count_container (st : pod_status) (status : pyval) : Exc pod_status :=
  let? state := py_get status "state" (PDict []) in
  let? waiting := py_get state "waiting" (PDict []) in
  let? reason := py_get1 waiting "reason" in
  if py_eq_str reason "CrashLoopBackOff" then inr (incr_crash st) else inr st.

(** Lines 77-82: the [if]/[elif] chain on the phase. *)
Definition count_phase (st : pod_status) (phase : pyval) : pod_status :=
  if py_eq_str phase "Running" then incr_running st
  else if py_eq_str phase "Pending" then incr_pending st
  else if py_eq_str phase "Failed" then incr_failed st
  else st.

(** Lines 74-89: the body of [for pod in pods.get('items', [])].  The
    source evaluates [pod.get('status', {})] twice, at lines 75 and 85. *)
Definition count_pod (st : pod_status) (pod : pyval) : Exc pod_status :=
  let st1 := incr_total st in
  let? status := py_get pod "status" (PDict []) in
  let? phase := py_get status "phase" (PStr "Unknown") in
  let st2 := count_phase st1 phase in
  let? status' := py_get pod "status" (PDict []) in
  let? container_statuses := py_get status' "containerStatuses" (PList []) in
  let? cs := py_iter container_statuses in
  foldM count_container st2 cs.

(** Lines 65-91, on the value [run_kubectl_command] returned. *)
Definition tally_pods (pods : pyval) : Exc pod_status :=
  let? items := py_get pods "items" (PList []) in
  let? items := py_iter items in
  foldM count_pod pod_status0 items.

Section WithHost.
Context `{Host}.

(** Lines 62-91. *)
Definition check_pod_status (namespace : string) : PyM pod_status :=
  let* pods := run_kubectl_command ["get"; "pods"; "-n"; namespace] in
  lift (tally_pods pods).

(** What the pod probe returns to [run_health_check]. *)
Definition pod_probe_result (namespace : string) : Exc pod_status :=
  let? pods := kubectl_result ["get"; "pods"; "-n"; namespace] in tally_pods pods.

Lemma outcome_check_pod_status namespace :
  outcome (check_pod_status namespace) = pod_probe_result namespace.
Proof.
  unfold check_pod_status, pod_probe_result.
  rewrite outcome_bind, outcome_run_kubectl_command. done.
Qed.

End WithHost.

(** ** The typed data model and its JSON encoding *)

Record container_status := mk_container_status {
  cs_name : string;
  cs_waiting_reason : option string
}.

Record pod := mk_pod {
  pod_name : string;
  pod_phase : option string;
  pod_containers : list container_status
}.

Definition container_to_py (c : container_status) : pyval :=
  PDict [("name", PStr (cs_name c));
         ("state", match cs_waiting_reason c with
                   | Some r => PDict [("waiting", PDict [("reason", PStr r)])]
                   | None => PDict [("running", PDict [])]
                   end)].

Definition pod_to_py (p : pod) : pyval :=
  PDict [("metadata", PDict [("name", PStr (pod_name p))]);
         ("status", PDict ((match pod_phase p with
                            | Some ph => [("phase", PStr ph)]
                            | None => []
                            end) ++
                           [("containerStatuses",
                             PList (map container_to_py (pod_containers p)))]))].

(** The document of [kubectl get pods -o json]. *)
Definition pod_list_to_py (ps : list pod) : pyval :=
  PDict [("apiVersion", PStr "v1"); ("items", PList (map pod_to_py ps));
         ("kind", PStr "List")].

(** The spec's phase buckets. *)
Inductive phase_bucket := BRunning | BPending | BFailed | BUnrecognized.

#[export] Instance phase_bucket_eq_dec : EqDecision phase_bucket.
Proof. solve_decision. Defined.

(** The bucket of a pod; a missing phase reads as ["Unknown"]. *)
Definition classify_phase (phase : option string) : phase_bucket :=
  let p := default "Unknown" phase in
  if String.eqb p "Running" then BRunning
  else if String.eqb p "Pending" then BPending
  else if String.eqb p "Failed" then BFailed
  else BUnrecognized.

Definition in_bucket (b : phase_bucket) (p : pod) : bool :=
  bool_decide (classify_phase (pod_phase p) = b).

Definition crash_looping (c : container_status) : bool :=
  match cs_waiting_reason c with
  | Some r => String.eqb r "CrashLoopBackOff"
  | None => false
  end.

(** The spec's restart-loop flag of a pod: one of its containers waits in
    [CrashLoopBackOff]. *)
Definition pod_restart_looping (p : pod) : bool := existsb crash_looping (pod_containers p).

(** What the loop counts, in closed form. *)
Definition pod_counts (ps : list pod) : pod_status :=
  mk_pod_status (length ps)
    (count_if (in_bucket BRunning) ps)
    (count_if (in_bucket BPending) ps)
    (count_if (in_bucket BFailed) ps)
    (sum_list_with (fun p => count_if crash_looping (pod_containers p)) ps).

(** ** The loop on encoded pods *)

Definition ps_add (st d : pod_status) : pod_status :=
  mk_pod_status (ps_total st + ps_total d) (ps_running st + ps_running d)
    (ps_pending st + ps_pending d) (ps_failed st + ps_failed d)
    (ps_crash_loop_backoff st + ps_crash_loop_backoff d).

(** Equalities of counter records, field by field. *)
Ltac ps_solve :=
  repeat match goal with st : pod_status |- _ => destruct st end;
  unfold ps_add, incr_total, incr_running, incr_pending, incr_failed, incr_crash;
  simpl; try (f_equal; []); f_equal; lia.

Lemma count_container_encoded st c :
  count_container st (container_to_py c) =
  inr (if crash_looping c then incr_crash st else st).
Proof.
  unfold count_container, crash_looping, container_to_py.
  destruct (cs_waiting_reason c) as [r|]; simpl; [|done].
  by destruct (String.eqb r "CrashLoopBackOff").
Qed.

Lemma foldM_count_container_encoded st cs :
  foldM count_container st (map container_to_py cs) =
  inr (ps_add st (mk_pod_status 0 0 0 0 (count_if crash_looping cs))).
Proof.
  revert st; induction cs as [|c cs IH]; intros st; simpl; [ps_solve|].
  rewrite count_container_encoded. simpl.
  destruct (crash_looping c); rewrite IH; ps_solve.
Qed.

Lemma count_phase_encoded st (phase : option string) :
  count_phase st (PStr (default "Unknown" phase)) =
  ps_add st (mk_pod_status 0
    (if bool_decide (classify_phase phase = BRunning) then 1 else 0)
    (if bool_decide (classify_phase phase = BPending) then 1 else 0)
    (if bool_decide (classify_phase phase = BFailed) then 1 else 0) 0).
Proof.
  unfold count_phase, classify_phase; simpl.
  destruct (String.eqb _ "Running"); [ps_solve|].
  destruct (String.eqb _ "Pending"); [ps_solve|].
  destruct (String.eqb _ "Failed"); ps_solve.
Qed.

Lemma pod_phase_lookup p :
  (match dict_lookup "phase"
     ((match pod_phase p with Some ph => [("phase", PStr ph)] | None => [] end) ++
      [("containerStatuses", PList (map container_to_py (pod_containers p)))])
   with Some v => v | None => PStr "Unknown" end) = PStr (default "Unknown" (pod_phase p)).
Proof. by destruct (pod_phase p). Qed.

Lemma pod_containers_lookup p :
  (match dict_lookup "containerStatuses"
     ((match pod_phase p with Some ph => [("phase", PStr ph)] | None => [] end) ++
      [("containerStatuses", PList (map container_to_py (pod_containers p)))])
   with Some v => v | None => PList [] end) = PList (map container_to_py (pod_containers p)).
Proof. by destruct (pod_phase p). Qed.

Lemma count_pod_encoded st p :
  count_pod st (pod_to_py p) = inr (ps_add st (pod_counts [p])).
Proof.
  unfold count_pod; simpl. rewrite pod_phase_lookup, pod_containers_lookup.
  simpl. rewrite count_phase_encoded, foldM_count_container_encoded.
  unfold pod_counts, in_bucket. simpl.
  destruct (classify_phase (pod_phase p)); simpl; ps_solve.
Qed.

Lemma pod_counts_cons p ps : pod_counts (p :: ps) = ps_add (pod_counts [p]) (pod_counts ps).
Proof. unfold pod_counts; simpl. ps_solve. Qed.

Lemma foldM_count_pod_encoded st ps :
  foldM count_pod st (map pod_to_py ps) = inr (ps_add st (pod_counts ps)).
Proof.
  revert st; induction ps as [|p ps IH]; intros st; simpl; [ps_solve|].
  rewrite count_pod_encoded. simpl. rewrite IH, (pod_counts_cons p ps). ps_solve.
Qed.

(** ** Properties *)

(** Scenario E of the spec: a Running pod whose container waits in
    [CrashLoopBackOff]. *)
Definition scenario_e_pod : pod :=
  mk_pod "web-0" (Some "Running") [mk_container_status "web" (Some "CrashLoopBackOff")].


(** On the JSON kubectl prints for any list of pods, the loop raises
    nothing and computes the closed form. *)
Lemma tally_pods_encoded (ps : list pod) :
  tally_pods (pod_list_to_py ps) = inr (pod_counts ps).
Proof.
  unfold tally_pods; simpl. rewrite foldM_count_pod_encoded.
  unfold pod_status0; ps_solve.
Qed.

(** The pod probe on any list of pods that [kubectl] reports. *)
Lemma check_pod_status_encoded `{Host} namespace (ps : list pod) :
  kubectl_answers ["get"; "pods"; "-n"; namespace] (pod_list_to_py ps) ->
  outcome (check_pod_status namespace) = inr (pod_counts ps).
Proof.
  intros Ha. rewrite outcome_check_pod_status. unfold pod_probe_result.
  rewrite (kubectl_result_answer _ _ Ha). apply tally_pods_encoded.
Qed.

Lemma bucket_exactly_one p :
  (if in_bucket BRunning p then 1 else 0) + (if in_bucket BPending p then 1 else 0) +
  (if in_bucket BFailed p then 1 else 0) + (if in_bucket BUnrecognized p then 1 else 0) = 1.
Proof. unfold in_bucket. by destruct (classify_phase (pod_phase p)). Qed.

(** The buckets partition the pods. *)
Lemma buckets_partition (ps : list pod) :
  count_if (in_bucket BRunning) ps + count_if (in_bucket BPending) ps +
  count_if (in_bucket BFailed) ps + count_if (in_bucket BUnrecognized) ps = length ps.
Proof.
  induction ps as [|p ps IH]; [done|]. simpl.
  pose proof (bucket_exactly_one p). lia.
Qed.

Lemma unrecognized_zero_iff (ps : list pod) :
  count_if (in_bucket BUnrecognized) ps = 0 <->
  Forall (fun p => in_bucket BUnrecognized p = false) ps.
Proof.
  rewrite Forall_forall. split.
  - intros Heq p Hp. destruct (in_bucket BUnrecognized p) eqn:E; [|done].
    pose proof (count_if_pos _ _ _ Hp E). lia.
  - intros Hall. apply count_if_false. intros p Hp. by apply Hall.
Qed.

Lemma restart_flag_le_crashes p :
  (if pod_restart_looping p then 1 else 0) <= count_if crash_looping (pod_containers p).
Proof.
  unfold pod_restart_looping. destruct (existsb _ _) eqn:E; [|lia].
  apply existsb_exists in E as [c [Hc%list_elem_of_In Hcl]].
  pose proof (count_if_pos _ _ _ Hc Hcl). lia.
Qed.

Lemma restart_flags_le_crashes (ps : list pod) :
  count_if pod_restart_looping ps <=
  sum_list_with (fun p => count_if crash_looping (pod_containers p)) ps.
Proof.
  induction ps as [|p ps IH]; simpl; [lia|].
  pose proof (restart_flag_le_crashes p). lia.
Qed.

(** C12: refinement.  When [kubectl get pods] answers the JSON of a list of
    pods, [check_pod_status] raises nothing and returns the closed form
    [pod_counts]: [total] is the number of pods, each phase counter the
    number of pods in that bucket, and [crash_loop_backoff] the number of
    containers waiting in [CrashLoopBackOff]. *)
Theorem check_pod_status_refines `{Host} namespace (ps : list pod) :
  kubectl_answers ["get"; "pods"; "-n"; namespace] (pod_list_to_py ps) ->
  outcome (check_pod_status namespace) = inr (pod_counts ps).
Proof. apply check_pod_status_encoded. Qed.

(** Witness of C12. *)
Lemma check_pod_status_refines_witness :
  outcome (@check_pod_status (fixed_answer_host (pod_list_to_py [scenario_e_pod])) "default") =
  inr (pod_counts [scenario_e_pod]).
Proof. apply check_pod_status_refines, fixed_answer_host_answers. Defined.

(** C13: the phase counters partition the pods.  When [kubectl get pods]
    answers the JSON of any list of pods, [check_pod_status] returns
    counters with [total] the number of pods, [running], [pending] and
    [failed] the number of pods whose phase is ["Running"], ["Pending"]
    and ["Failed"], and [running + pending + failed + unrecognised =
    total]; so [running + pending + failed = total] exactly when no pod
    has an unrecognised phase. *)
Theorem check_pod_status_partition `{Host} namespace (ps : list pod) :
  kubectl_answers ["get"; "pods"; "-n"; namespace] (pod_list_to_py ps) ->
  exists st, outcome (check_pod_status namespace) = inr st /\
    ps_total st = length ps /\
    ps_running st = count_if (in_bucket BRunning) ps /\
    ps_pending st = count_if (in_bucket BPending) ps /\
    ps_failed st = count_if (in_bucket BFailed) ps /\
    ps_running st + ps_pending st + ps_failed st
      + count_if (in_bucket BUnrecognized) ps = ps_total st /\
    (ps_running st + ps_pending st + ps_failed st = ps_total st <->
     Forall (fun p => in_bucket BUnrecognized p = false) ps).
Proof.
  intros Ha. exists (pod_counts ps). split; [by apply check_pod_status_encoded|].
  unfold pod_counts; simpl. pose proof (buckets_partition ps).
  rewrite <- unrecognized_zero_iff. split_and!; [done..|lia|lia].
Qed.

(** C14: the crash-loop counter counts containers.  When [kubectl get
    pods] answers the JSON of any list of pods, the [crash_loop_backoff]
    that [check_pod_status] returns is the number of containers waiting in
    [CrashLoopBackOff] over all pods; it is at least the number of pods the
    spec flags as restart-looping, and more than it as soon as one pod has
    two crash-looping containers. *)
Theorem check_pod_status_crash_containers `{Host} namespace (ps : list pod) :
  kubectl_answers ["get"; "pods"; "-n"; namespace] (pod_list_to_py ps) ->
  exists st, outcome (check_pod_status namespace) = inr st /\
    ps_crash_loop_backoff st =
      sum_list_with (fun p => count_if crash_looping (pod_containers p)) ps /\
    count_if pod_restart_looping ps <= ps_crash_loop_backoff st.
Proof.
  intros Ha. exists (pod_counts ps).
  split_and!; [by apply check_pod_status_encoded|done|apply restart_flags_le_crashes].
Qed.

(** A pod that runs one sidecar and two containers in [CrashLoopBackOff]. *)
Definition two_crash_pod : pod :=
  mk_pod "api-0" (Some "Running")
    [mk_container_status "app" (Some "CrashLoopBackOff");
     mk_container_status "worker" (Some "CrashLoopBackOff");
     mk_container_status "proxy" None].

(** Witness of C13: scenario E's pod and a pod in an unrecognised phase. *)
Definition mixed_pods : list pod :=
  [scenario_e_pod; mk_pod "job-0" (Some "Succeeded") []; mk_pod "db-0" (Some "Failed") []].

Lemma check_pod_status_partition_witness :
  exists st, outcome (@check_pod_status (fixed_answer_host (pod_list_to_py mixed_pods)) "default")
    = inr st /\ ps_total st = 3 /\ ps_running st = 1 /\ ps_failed st = 1 /\
    ps_running st + ps_pending st + ps_failed st = 2.
Proof.
  destruct (@check_pod_status_partition (fixed_answer_host (pod_list_to_py mixed_pods)) "default"
              mixed_pods (fixed_answer_host_answers _ _))
    as (st & Hst & Ht & Hr & Hp & Hf & _ & _).
  exists st. split_and!; [done|rewrite Ht; reflexivity|rewrite Hr; reflexivity
                         |rewrite Hf; reflexivity|rewrite Hr, Hp, Hf; reflexivity].
Defined.

(** Witness of C14: one pod with two crash-looping containers counts two
    crash loops against one restart-looping pod. *)
Lemma check_pod_status_crash_containers_witness :
  exists st, outcome (@check_pod_status (fixed_answer_host (pod_list_to_py [two_crash_pod])) "default")
    = inr st /\ ps_crash_loop_backoff st = 2 /\ count_if pod_restart_looping [two_crash_pod] = 1.
Proof.
  destruct (@check_pod_status_crash_containers (fixed_answer_host (pod_list_to_py [two_crash_pod]))
              "default" [two_crash_pod] (fixed_answer_host_answers _ _)) as (st & Hst & Hc & _).
  exists st. split_and!; [done|rewrite Hc; reflexivity|reflexivity].
Defined.

(** Counterexample to the spec's bound [restart_looping <= total].
    On the JSON of one Running pod with two crash-looping containers the
    loop reports one pod, one running pod and two crash loops. *)
Theorem two_crash_pod_counted_twice :
  tally_pods (pod_list_to_py [two_crash_pod]) = inr (mk_pod_status 1 1 0 0 2).
Proof. vm_compute. reflexivity. Qed.

(** Whatever JSON [kubectl] returns, the loop of [check_pod_status]
    either computes the counters or raises the [AttributeError] or
    [TypeError] of a value of the wrong type. *)
Lemma tally_pods_raises (pods : pyval) : raises_only json_error (tally_pods pods).
Proof. unfold tally_pods, count_pod, count_container. solve_raises. Qed.

Lemma pod_probe_result_raises `{Host} namespace :
  raises_only probe_error (pod_probe_result namespace).
Proof.
  unfold pod_probe_result. apply raises_only_bind; [auto with gitops|].
  intros v. eapply raises_only_mono, tally_pods_raises. auto with gitops.
Qed.

(** No pod is counted as failed exactly when no pod is in the Failed
    bucket. *)
Lemma failed_zero_iff (ps : list pod) :
  ps_failed (pod_counts ps) = 0 <->
  forallb (fun p => negb (in_bucket BFailed p)) ps = true.
Proof.
  unfold pod_counts; simpl. induction ps as [|p ps IH]; [done|]. simpl.
  rewrite andb_true_iff, <- IH. destruct (in_bucket BFailed p); naive_solver lia.
Qed.

(** No crash loop is counted exactly when no pod is restart-looping. *)
Lemma crash_zero_iff (ps : list pod) :
  ps_crash_loop_backoff (pod_counts ps) = 0 <->
  forallb (fun p => negb (pod_restart_looping p)) ps = true.
Proof.
  unfold pod_counts; simpl. induction ps as [|p ps IH]; [done|]. simpl.
  rewrite andb_true_iff, <- IH. pose proof (restart_flag_le_crashes p) as Hle.
  destruct (pod_restart_looping p) eqn:E; simpl; [naive_solver lia|].
  enough (count_if crash_looping (pod_containers p) = 0) by naive_solver lia.
  apply count_if_false. intros c Hc. destruct (crash_looping c) eqn:Ec; [|done].
  unfold pod_restart_looping in E. rewrite <- not_true_iff_false in E.
  destruct E. apply existsb_exists. exists c. split; [by apply list_elem_of_In|done].
Qed.
