(* ===== verification/EndpointProbe.v ===== *)
(** * Endpoint probe: [check_service_endpoints] ([health_check.py],
    lines 93-110)

    The implementation is the two loops of the source: [record_endpoint]
    fills [endpoint_map] (a Python dict, modelled as a [gmap] keyed by the
    hash class [pykey] of the endpoint's name) from the endpoints list, and
    [check_service] appends to [services_without_endpoints] the name of
    every service whose entry is missing or false.

    The abstract side is a typed [service] and [endpoints] object (a name
    and a number of subsets), their JSON encoding and the closed form
    [services_without_endpoints].  The theorems show that the loops compute
    the closed form, that a service is reported exactly when no endpoints
    object of its name has a subset (the last object of a name decides, as
    the dict store overwrites), that the report keeps the order of the
    services, and that the loops raise only the errors of ill-typed JSON. *)

From Stdlib Require Import ZArith Lia.
From stdpp Require Import base list strings sets gmap.
From S2P Require Import Prelude PyJson Kubectl.

#[local] Set Warnings "-clear-no-such-hyp".

(** Lines 99-102: the body of [for ep in endpoints.get('items', [])].  The
    right-hand side [len(subsets) > 0] is evaluated before the store
    hashes the key. *)
Definition record_endpoint (endpoint_map : gmap pykey bool) (ep : pyval)
    : Exc (gmap pykey bool) :=
  let? metadata := py_get ep "metadata" (PDict []) in
  let? name := py_get1 metadata "name" in
  let? subsets := py_get ep "subsets" (PList []) in
  let? n := py_len subsets in
  let? k := py_hash name in
  inr (<[k := bool_decide (0 < n)]> endpoint_map).

(** Lines 105-108: the body of [for svc in services.get('items', [])]. *)
Definition check_service (endpoint_map : gmap pykey bool) (acc : list pyval) (svc : pyval)
    : Exc (list pyval) :=
  let? metadata := py_get svc "metadata" (PDict []) in
  let? name := py_get1 metadata "name" in
  let? k := py_hash name in
  if negb (default false (endpoint_map !! k)) then inr (acc ++ [name]) else inr acc.

(** Lines 98-110, on the two values [run_kubectl_command] returned. *)
Definition find_services_without_endpoints (services endpoints : pyval) : Exc (list pyval) :=
  let? eps := py_get endpoints "items" (PList []) in
  let? eps := py_iter eps in
  let? endpoint_map := foldM record_endpoint ∅ eps in
  let? svcs := py_get services "items" (PList []) in
  let? svcs := py_iter svcs in
  foldM (check_service endpoint_map) [] svcs.

Section WithHost.
Context `{Host}.

(** Lines 93-110: services are fetched before endpoints. *)
Definition check_service_endpoints (namespace : string) : PyM (list pyval) :=
  let* services := run_kubectl_command ["get"; "services"; "-n"; namespace] in
  let* endpoints := run_kubectl_command ["get"; "endpoints"; "-n"; namespace] in
  lift (find_services_without_endpoints services endpoints).

(** What the endpoint probe returns to [run_health_check]. *)
Definition endpoint_probe_result (namespace : string) : Exc (list pyval) :=
  let? services := kubectl_result ["get"; "services"; "-n"; namespace] in
  let? endpoints := kubectl_result ["get"; "endpoints"; "-n"; namespace] in
  find_services_without_endpoints services endpoints.

Lemma outcome_check_service_endpoints namespace :
  outcome (check_service_endpoints namespace) = endpoint_probe_result namespace.
Proof.
  unfold check_service_endpoints, endpoint_probe_result.
  rewrite outcome_bind, outcome_run_kubectl_command.
  destruct (kubectl_result _) as [e|services]; [done|]. simpl.
  rewrite outcome_bind, outcome_run_kubectl_command. done.
Qed.

End WithHost.

(** ** The typed data model and its JSON encoding *)

Record service := mk_service { svc_name : string }.

Record endpoints := mk_endpoints { ep_name : string; ep_subsets : nat }.

Definition service_to_py (s : service) : pyval :=
  PDict [("metadata", PDict [("name", PStr (svc_name s))]); ("spec", PDict [])].

(** kubectl leaves [subsets] out of an endpoints object that has none. *)
Definition endpoints_to_py (e : endpoints) : pyval :=
  PDict (("metadata", PDict [("name", PStr (ep_name e))]) ::
         match ep_subsets e with
         | O => []
         | n => [("subsets", PList (replicate n (PDict [])))]
         end).

Definition service_list_to_py (ss : list service) : pyval :=
  PDict [("apiVersion", PStr "v1"); ("items", PList (map service_to_py ss));
         ("kind", PStr "List")].

Definition endpoints_list_to_py (es : list endpoints) : pyval :=
  PDict [("apiVersion", PStr "v1"); ("items", PList (map endpoints_to_py es));
         ("kind", PStr "List")].

(** Whether a name has endpoints: the last endpoints object of that name
    decides, since each store overwrites the previous one. *)
Definition endpoint_ready (es : list endpoints) (name : string) : bool :=
  match List.find (fun e => String.eqb (ep_name e) name) (rev es) with
  | Some e => bool_decide (0 < ep_subsets e)
  | None => false
  end.

(** The names the probe reports, in closed form. *)
Definition services_without_endpoints (ss : list service) (es : list endpoints) : list string :=
  map svc_name (List.filter (fun s => negb (endpoint_ready es (svc_name s))) ss).

(** ** The loops on encoded objects *)

Definition store_endpoint (m : gmap pykey bool) (e : endpoints) : gmap pykey bool :=
  <[KStr (ep_name e) := bool_decide (0 < ep_subsets e)]> m.

Lemma record_endpoint_encoded m e :
  record_endpoint m (endpoints_to_py e) = inr (store_endpoint m e).
Proof.
  unfold record_endpoint, endpoints_to_py, store_endpoint.
  by destruct (ep_subsets e).
Qed.

Lemma foldM_record_endpoint_encoded m es :
  foldM record_endpoint m (map endpoints_to_py es) = inr (fold_left store_endpoint es m).
Proof.
  revert m; induction es as [|e es IH]; intros m; simpl; [done|].
  rewrite record_endpoint_encoded. apply IH.
Qed.

(** The map after the first loop answers with the last object of a name,
    and falls back to the initial map for the names of no object. *)
Lemma lookup_fold_store_endpoint es m name :
  fold_left store_endpoint es m !! KStr name =
  match List.find (fun e => String.eqb (ep_name e) name) (rev es) with
  | Some e => Some (bool_decide (0 < ep_subsets e))
  | None => m !! KStr name
  end.
Proof.
  induction es as [|e es IH] using rev_ind; [done|].
  rewrite fold_left_app, rev_unit. simpl. unfold store_endpoint.
  destruct (String.eqb_spec (ep_name e) name) as [->|Hne].
  - by rewrite lookup_insert_eq.
  - rewrite lookup_insert_ne by congruence. apply IH.
Qed.

Lemma endpoint_map_lookup es name :
  default false (fold_left store_endpoint es ∅ !! KStr name) = endpoint_ready es name.
Proof.
  rewrite lookup_fold_store_endpoint. unfold endpoint_ready.
  by destruct (List.find _ _).
Qed.

Lemma services_without_endpoints_cons s ss es :
  services_without_endpoints (s :: ss) es =
  (if endpoint_ready es (svc_name s) then [] else [svc_name s]) ++
  services_without_endpoints ss es.
Proof. unfold services_without_endpoints; simpl. by destruct (endpoint_ready _ _). Qed.

Lemma foldM_check_service_encoded es acc ss :
  foldM (check_service (fold_left store_endpoint es ∅)) acc (map service_to_py ss) =
  inr (acc ++ map PStr (services_without_endpoints ss es)).
Proof.
  revert acc; induction ss as [|s ss IH]; intros acc; simpl.
  - by rewrite app_nil_r.
  - unfold check_service at 1. simpl.
    rewrite endpoint_map_lookup, services_without_endpoints_cons.
    destruct (endpoint_ready es (svc_name s)); simpl; rewrite IH; [done|].
    by rewrite <- app_assoc.
Qed.

(** ** Properties *)

(** On the JSON kubectl prints for any services and endpoints, the two
    loops raise nothing and return the names of the closed form. *)
Lemma find_services_without_endpoints_encoded (ss : list service) (es : list endpoints) :
  find_services_without_endpoints (service_list_to_py ss) (endpoints_list_to_py es) =
  inr (map PStr (services_without_endpoints ss es)).
Proof.
  unfold find_services_without_endpoints; simpl.
  rewrite foldM_record_endpoint_encoded. simpl.
  by rewrite foldM_check_service_encoded.
Qed.

(** The endpoint probe on any services and endpoints [kubectl] reports. *)
Lemma check_service_endpoints_encoded `{Host} namespace (ss : list service) (es : list endpoints) :
  kubectl_answers ["get"; "services"; "-n"; namespace] (service_list_to_py ss) ->
  kubectl_answers ["get"; "endpoints"; "-n"; namespace] (endpoints_list_to_py es) ->
  outcome (check_service_endpoints namespace) = inr (map PStr (services_without_endpoints ss es)).
Proof.
  intros Hs He. rewrite outcome_check_service_endpoints. unfold endpoint_probe_result.
  rewrite (kubectl_result_answer _ _ Hs), (kubectl_result_answer _ _ He).
  apply find_services_without_endpoints_encoded.
Qed.

(** C16: refinement.  When [kubectl get services] and [kubectl get
    endpoints] answer the JSON of typed objects, [check_service_endpoints]
    raises nothing and returns the names of the closed form
    [services_without_endpoints]. *)
Theorem check_service_endpoints_refines `{Host} namespace
    (ss : list service) (es : list endpoints) :
  kubectl_answers ["get"; "services"; "-n"; namespace] (service_list_to_py ss) ->
  kubectl_answers ["get"; "endpoints"; "-n"; namespace] (endpoints_list_to_py es) ->
  outcome (check_service_endpoints namespace) = inr (map PStr (services_without_endpoints ss es)).
Proof. apply check_service_endpoints_encoded. Qed.

(** A [kubectl] double answering [svcs] to the services query of the
    namespace ["default"] and [eps] to every other query. *)
Definition services_endpoints_host (svcs eps : pyval) : Host :=
  {| host_run := fun argv =>
       if bool_decide (argv = kubectl_argv ["get"; "services"; "-n"; "default"])
       then Completed 0 "services" "" else Completed 0 "endpoints" "";
     host_json_loads := fun s => if String.eqb s "services" then Some svcs else Some eps |}.

(** Witness of C16, on scenario D of the spec. *)
Lemma check_service_endpoints_refines_witness :
  outcome (@check_service_endpoints
             (services_endpoints_host (service_list_to_py [mk_service "s1"; mk_service "s2"])
                                      (endpoints_list_to_py [mk_endpoints "s1" 1]))
             "default") =
  inr (map PStr (services_without_endpoints [mk_service "s1"; mk_service "s2"]
                                            [mk_endpoints "s1" 1])).
Proof. apply check_service_endpoints_refines; by do 2 eexists. Defined.

(** Every service has endpoints exactly when nothing is reported. *)
Lemma services_without_endpoints_nil_iff (ss : list service) (es : list endpoints) :
  services_without_endpoints ss es = [] <->
  forallb (fun s => endpoint_ready es (svc_name s)) ss = true.
Proof.
  induction ss as [|s ss IH]; [done|]. rewrite services_without_endpoints_cons. simpl.
  rewrite andb_true_iff, <- IH. destruct (endpoint_ready es (svc_name s)); naive_solver.
Qed.

(** The closed form keeps the order of the services, and has a name
    exactly when some service has it and the endpoints give it no subset. *)
Lemma services_without_endpoints_members (ss : list service) (es : list endpoints) :
  services_without_endpoints ss es `sublist_of` map svc_name ss /\
  forall name, name ∈ services_without_endpoints ss es <->
    (exists s, s ∈ ss /\ svc_name s = name) /\ endpoint_ready es name = false.
Proof.
  unfold services_without_endpoints. split.
  - apply fmap_sublist, list_filter_sublist.
  - intros name. rewrite list_elem_of_fmap. split.
    + intros [s [-> Hs]]. apply list_elem_of_In, filter_In in Hs as [Hs Hr].
      split; [exists s; by rewrite list_elem_of_In|by apply negb_true_iff].
    + intros [[s [Hs <-]] Hr]. exists s. split; [done|].
      apply list_elem_of_In, filter_In. split; [by apply list_elem_of_In|].
      by rewrite Hr.
Qed.

(** When the endpoints objects have distinct names, a name has endpoints
    exactly when its object has at least one subset. *)
Lemma endpoint_ready_unique (es : list endpoints) (name : string) :
  NoDup (map ep_name es) ->
  endpoint_ready es name = true <-> exists e, e ∈ es /\ ep_name e = name /\ 0 < ep_subsets e.
Proof.
  intros Hnd. unfold endpoint_ready.
  destruct (List.find _ (rev es)) as [e|] eqn:Ef.
  - apply find_some in Ef as [Hin Hn%String.eqb_eq].
    apply in_rev, list_elem_of_In in Hin. rewrite bool_decide_eq_true. split.
    + intros Hs. by exists e.
    + intros (e' & Hin' & Hn' & Hs).
      assert (e = e') as -> by (apply (NoDup_map_same ep_name es); auto; congruence).
      done.
  - split; [done|]. intros (e & Hin & Hn & _).
    pose proof (find_none _ _ Ef e) as Hf.
    rewrite <- in_rev, <- list_elem_of_In in Hf. specialize (Hf Hin).
    apply String.eqb_neq in Hf. congruence.
Qed.

(** C17: what the probe reports.  When [kubectl get services] and
    [kubectl get endpoints] answer the JSON of any services and endpoints
    objects, [check_service_endpoints] returns a list of names that keeps
    the order of the services, and in which a name occurs exactly when
    some service has it and the endpoints map gives it no subset (no
    endpoints object of that name, or the last one has an empty
    [subsets]). *)
Theorem check_service_endpoints_reports `{Host} namespace
    (ss : list service) (es : list endpoints) :
  kubectl_answers ["get"; "services"; "-n"; namespace] (service_list_to_py ss) ->
  kubectl_answers ["get"; "endpoints"; "-n"; namespace] (endpoints_list_to_py es) ->
  exists names, outcome (check_service_endpoints namespace) = inr (map PStr names) /\
    names `sublist_of` map svc_name ss /\
    forall name, name ∈ names <->
      (exists s, s ∈ ss /\ svc_name s = name) /\ endpoint_ready es name = false.
Proof.
  intros Hs He. exists (services_without_endpoints ss es).
  split; [by apply check_service_endpoints_encoded|].
  apply services_without_endpoints_members.
Qed.

(** Scenario D of the spec: two services, and endpoints for the first
    only. *)
Definition scenario_d_services : list service := [mk_service "s1"; mk_service "s2"].
Definition scenario_d_endpoints : list endpoints := [mk_endpoints "s1" 1].

(** Witness of C17, on scenario D: ["s2"] is reported and ["s1"] is not. *)
Lemma check_service_endpoints_reports_witness :
  exists names, outcome (@check_service_endpoints
      (services_endpoints_host (service_list_to_py scenario_d_services)
                               (endpoints_list_to_py scenario_d_endpoints)) "default")
    = inr (map PStr names) /\ "s2" ∈ names /\ "s1" ∉ names.
Proof.
  destruct (@check_service_endpoints_reports
              (services_endpoints_host (service_list_to_py scenario_d_services)
                                       (endpoints_list_to_py scenario_d_endpoints))
              "default" scenario_d_services scenario_d_endpoints
              ltac:(by do 2 eexists) ltac:(by do 2 eexists)) as (names & Ho & _ & Hm).
  exists names. split_and!; [done| |].
  - apply Hm. split; [exists (mk_service "s2"); split; [set_solver|done]|reflexivity].
  - intros Hin. apply Hm in Hin as [_ Hr]. discriminate Hr.
Defined.

(** Whatever JSON [kubectl] returns for services and endpoints, the two
    loops either produce the report or raise the [AttributeError] or
    [TypeError] of a value of the wrong type. *)
Lemma find_services_without_endpoints_raises (services endpoints : pyval) :
  raises_only json_error (find_services_without_endpoints services endpoints).
Proof.
  unfold find_services_without_endpoints, record_endpoint, check_service. solve_raises.
Qed.

Lemma endpoint_probe_result_raises `{Host} namespace :
  raises_only probe_error (endpoint_probe_result namespace).
Proof.
  unfold endpoint_probe_result. apply raises_only_bind; [auto with gitops|].
  intros s. apply raises_only_bind; [auto with gitops|].
  intros e. eapply raises_only_mono, find_services_without_endpoints_raises.
  auto with gitops.
Qed.
