(* ===== verification/Cluster.v ===== *)
(** * A cluster snapshot and the hosts that serve it

    The spec describes what the health check sees as typed records: nodes,
    pods, services and endpoints (its section 3).  A [snapshot] gathers
    them with the reachability of the control plane.  The class [Serves]
    is the interface between the probes and their collaborator: a [Host]
    serves a snapshot for a namespace when [kubectl cluster-info] succeeds
    exactly when the snapshot is reachable and every [kubectl get] of the
    health check answers the JSON encoding of the matching records.
    Theorems about a whole run are proved against [Serves];
    [snapshot_host] is an implementation of it (a [kubectl] double whose
    answers are decoded by a table), used to run the script on the
    scenarios of the spec.

    [spec_healthy] is the verdict rule of the spec (its section 4.5) on a
    snapshot: the control plane is reachable, every node is Ready, no pod
    is Failed or restart-looping, and every service has endpoints. *)

From Stdlib Require Import ZArith.
From stdpp Require Import base list strings.
From S2P Require Import Prelude PyJson Kubectl NodeProbe PodProbe EndpointProbe.

#[local] Set Warnings "-clear-no-such-hyp".

Record snapshot := mk_snapshot {
  snap_reachable : bool;
  snap_nodes : list node;
  snap_pods : list pod;
  snap_services : list service;
  snap_endpoints : list endpoints
}.

Class Serves `{Host} (namespace : string) (snap : snapshot) : Prop := {
  serves_cluster_info : connectivity_result = inr (snap_reachable snap);
  serves_nodes : kubectl_answers ["get"; "nodes"] (node_list_to_py (snap_nodes snap));
  serves_pods :
    kubectl_answers ["get"; "pods"; "-n"; namespace] (pod_list_to_py (snap_pods snap));
  serves_services :
    kubectl_answers ["get"; "services"; "-n"; namespace]
      (service_list_to_py (snap_services snap));
  serves_endpoints :
    kubectl_answers ["get"; "endpoints"; "-n"; namespace]
      (endpoints_list_to_py (snap_endpoints snap))
}.

(** The verdict rule of the spec on a snapshot. *)
Definition spec_healthy (snap : snapshot) : bool :=
  snap_reachable snap &&
  forallb node_is_ready (snap_nodes snap) &&
  forallb (fun p => negb (in_bucket BFailed p)) (snap_pods snap) &&
  forallb (fun p => negb (pod_restart_looping p)) (snap_pods snap) &&
  forallb (fun s => endpoint_ready (snap_endpoints snap) (svc_name s)) (snap_services snap).

(** The snapshot with one more node. *)
Definition add_node (n : node) (snap : snapshot) : snapshot :=
  mk_snapshot (snap_reachable snap) (n :: snap_nodes snap) (snap_pods snap)
    (snap_services snap) (snap_endpoints snap).

(** ** A host serving a snapshot *)

Definition snapshot_run (namespace : string) (snap : snapshot) (argv : list string)
    : proc_result :=
  if bool_decide (argv = ["kubectl"; "cluster-info"]) then
    Completed (if snap_reachable snap then 0 else 1) "" ""
  else if bool_decide (argv = kubectl_argv ["get"; "nodes"]) then
    Completed 0 "nodes" ""
  else if bool_decide (argv = kubectl_argv ["get"; "pods"; "-n"; namespace]) then
    Completed 0 "pods" ""
  else if bool_decide (argv = kubectl_argv ["get"; "services"; "-n"; namespace]) then
    Completed 0 "services" ""
  else if bool_decide (argv = kubectl_argv ["get"; "endpoints"; "-n"; namespace]) then
    Completed 0 "endpoints" ""
  else Completed 1 "" "error: the server doesn't have a resource type".

Definition snapshot_loads (snap : snapshot) (s : string) : option pyval :=
  if String.eqb s "nodes" then Some (node_list_to_py (snap_nodes snap))
  else if String.eqb s "pods" then Some (pod_list_to_py (snap_pods snap))
  else if String.eqb s "services" then Some (service_list_to_py (snap_services snap))
  else if String.eqb s "endpoints" then Some (endpoints_list_to_py (snap_endpoints snap))
  else None.

Definition snapshot_host (namespace : string) (snap : snapshot) : Host :=
  {| host_run := snapshot_run namespace snap; host_json_loads := snapshot_loads snap |}.

Lemma snapshot_host_serves namespace snap :
  @Serves (snapshot_host namespace snap) namespace snap.
Proof.
  split; unfold kubectl_answers, connectivity_result; simpl; unfold snapshot_run;
    repeat case_bool_decide; unfold kubectl_argv in *; simplify_eq/=;
    try (by do 2 eexists); by destruct (snap_reachable snap).
Qed.
