(* ===== verification/HealthCheck.v ===== *)
(** * The aggregator: [run_health_check] ([health_check.py], lines 112-170)

    [run_health_check] is modelled statement by statement: every [print]
    of the report, the [sys.exit(1)] of an unreachable cluster, the
    warnings, the [', '.join] of the endpoint-less services, the verdict
    [is_healthy] and the final [sys.exit].  A run is a value of [PyM unit]
    whose trace holds the printed lines and the spawned [kubectl]
    processes, and whose outcome is the exception that ends the script.

    [health_verdict] is the aggregator of the spec as a pure function of
    the probe results; the first theorem shows that the printing program
    has exactly that outcome.  The others show the verdict rule of the
    exit code, the short circuit of an unreachable cluster, that every run
    ends in [SystemExit] or an uncaught exception, and what the script
    does when the data queries fail. *)

From Stdlib Require Import ZArith Lia.
From stdpp Require Import base list strings sets gmap pretty.
From S2P Require Import Prelude PyJson Kubectl NodeProbe PodProbe EndpointProbe Cluster.

(** ["=" * 60]. *)
Definition rule : string := str_repeat "=" 60.

(** The test [if services_without_endpoints:] of a Python list. *)
Definition list_truthy {A} (l : list A) : bool := match l with [] => false | _ => true end.

(** Lines 158-163. *)
Definition is_healthy (node_status : node_status) (pod_status : pod_status)
    (services_without_endpoints : list pyval) : bool :=
  Nat.eqb (ns_not_ready node_status) 0 &&
  Nat.eqb (ps_failed pod_status) 0 &&
  Nat.eqb (ps_crash_loop_backoff pod_status) 0 &&
  Nat.eqb (length services_without_endpoints) 0.

#[local] Set Warnings "-clear-no-such-hyp".

Section WithHost.
Context `{Host}.

(** Lines 112-170. *)
Definition run_health_check (namespace : string) : PyM unit :=
  print "GitOps Platform Health Check";;
  print rule;;
  print (newline ++ "1. Cluster Connectivity:")%string;;
  let* connected := check_cluster_connectivity in
  (if connected then print "   ✓ Cluster is accessible"
   else (print "   ✗ Cannot connect to cluster";; sys_exit 1));;
  print (newline ++ "2. Node Status:")%string;;
  let* node_status := check_node_status in
  print ("   Total nodes: " ++ pretty (ns_total node_status))%string;;
  print ("   Ready: " ++ pretty (ns_ready node_status))%string;;
  print ("   Not ready: " ++ pretty (ns_not_ready node_status))%string;;
  (if Nat.ltb 0 (ns_not_ready node_status)
   then print "   ⚠ Warning: Some nodes are not ready" else ret tt);;
  print (newline ++ "3. Pod Status (namespace: " ++ namespace ++ "):")%string;;
  let* pod_status := check_pod_status namespace in
  print ("   Total pods: " ++ pretty (ps_total pod_status))%string;;
  print ("   Running: " ++ pretty (ps_running pod_status))%string;;
  print ("   Pending: " ++ pretty (ps_pending pod_status))%string;;
  print ("   Failed: " ++ pretty (ps_failed pod_status))%string;;
  print ("   CrashLoopBackOff: " ++ pretty (ps_crash_loop_backoff pod_status))%string;;
  (if Nat.ltb 0 (ps_failed pod_status) || Nat.ltb 0 (ps_crash_loop_backoff pod_status)
   then print "   ⚠ Warning: Some pods are failing" else ret tt);;
  print (newline ++ "4. Service Endpoints (namespace: " ++ namespace ++ "):")%string;;
  let* services_without_endpoints := check_service_endpoints namespace in
  (if list_truthy services_without_endpoints
   then (let* joined := lift (py_join ", " services_without_endpoints) in
         print ("   ⚠ Warning: Services without endpoints: " ++ joined)%string)
   else print "   ✓ All services have endpoints");;
  print (newline ++ rule)%string;;
  if is_healthy node_status pod_status services_without_endpoints
  then (print "✓ Overall Status: HEALTHY";; sys_exit 0)
  else (print "✗ Overall Status: UNHEALTHY";; sys_exit 1).

(** The aggregator as a pure function of what the probes return: the
    exception that ends the run. *)
Definition health_verdict (namespace : string) : Exc unit :=
  let? connected := connectivity_result in
  if negb connected then inl (SystemExit 1) else
  let? node_status := node_probe_result in
  let? pod_status := pod_probe_result namespace in
  let? services_without_endpoints := endpoint_probe_result namespace in
  let? _ := if list_truthy services_without_endpoints
            then py_join ", " services_without_endpoints else inr EmptyString in
  inl (SystemExit (if is_healthy node_status pod_status services_without_endpoints
                   then 0 else 1)).

(** A branch that only prints leaves the outcome unchanged. *)
Lemma outcome_print_if (b : bool) (s1 s2 : string) :
  outcome (if b then print s1 else print s2) = inr tt.
Proof. by destruct b. Qed.

Lemma outcome_print_or_skip (b : bool) (s : string) :
  outcome (if b then print s else ret tt) = inr tt.
Proof. by destruct b. Qed.

(** Push [outcome] through the binds of a run. *)
Ltac outcome_run :=
  repeat (rewrite ?outcome_bind, ?outcome_print_or_skip, ?outcome_print_if;
          cbn [exc_bind outcome print emit ret raise lift sys_exit fst snd]).

Lemma outcome_run_health_check namespace :
  outcome (run_health_check namespace) = health_verdict namespace.
Proof.
  unfold run_health_check, health_verdict. outcome_run.
  rewrite outcome_check_cluster_connectivity.
  destruct connectivity_result as [e|[|]]; [done| |done]. outcome_run.
  rewrite outcome_check_node_status.
  destruct node_probe_result as [e|nst]; [done|]. outcome_run.
  rewrite outcome_check_pod_status.
  destruct (pod_probe_result namespace) as [e|pst]; [done|]. outcome_run.
  rewrite outcome_check_service_endpoints.
  destruct (endpoint_probe_result namespace) as [e|swe]; [done|]. outcome_run.
  destruct (list_truthy swe); outcome_run;
    [destruct (py_join ", " swe); outcome_run; [done|]|];
    by destruct (is_healthy nst pst swe).
Qed.


(** ** The verdict *)

Lemma is_healthy_true nst pst swe :
  is_healthy nst pst swe = true <->
  ns_not_ready nst = 0 /\ ps_failed pst = 0 /\ ps_crash_loop_backoff pst = 0 /\ swe = [].
Proof.
  unfold is_healthy. rewrite !andb_true_iff, !Nat.eqb_eq, length_zero_iff_nil. tauto.
Qed.

(** The join of the warning line can only fail with [TypeError], and
    then the script ends with status 1 as an [UNHEALTHY] verdict would. *)
Lemma exit_code_join_then_exit (swe : list pyval) (c : Z) :
  exit_code (A:=unit)
    (let? _ := if list_truthy swe then py_join ", " swe else inr EmptyString in
     inl (SystemExit c)) = c \/
  exit_code (A:=unit)
    (let? _ := if list_truthy swe then py_join ", " swe else inr EmptyString in
     inl (SystemExit c)) = 1%Z.
Proof.
  destruct (list_truthy swe); [|by left].
  pose proof (py_join_raises ", " swe) as Hj.
  destruct (py_join _ _) as [e|]; simpl; [|by left].
  right. by apply (exit_code_probe_error (A:=unit)), json_error_probe_error, Hj.
Qed.

(** Close the case of a probe that raised: its exception ends the run
    with status 1, and the right-hand side is false. *)
Ltac probe_error_case H :=
  rewrite exit_code_probe_error by (by apply H); naive_solver.

(** C1: the verdict rule.  The script exits with status 0 exactly when
    [kubectl cluster-info] succeeds, the three probes return without an
    exception, no node condition [Ready] is false or unknown, no pod is
    [Failed], no container waits in [CrashLoopBackOff], and every service
    has endpoints. *)
Theorem run_health_check_exit_zero namespace :
  exit_code (outcome (run_health_check namespace)) = 0%Z <->
  connectivity_result = inr true /\
  exists nst pst,
    node_probe_result = inr nst /\ pod_probe_result namespace = inr pst /\
    endpoint_probe_result namespace = inr [] /\
    ns_not_ready nst = 0 /\ ps_failed pst = 0 /\ ps_crash_loop_backoff pst = 0.
Proof.
  rewrite outcome_run_health_check. unfold health_verdict.
  pose proof connectivity_result_raises as Hc.
  destruct connectivity_result as [e|[|]]; cbn [exc_bind negb]; [probe_error_case Hc| |naive_solver].
  pose proof node_probe_result_raises as Hn.
  destruct node_probe_result as [e|nst]; cbn [exc_bind]; [probe_error_case Hn|].
  pose proof (pod_probe_result_raises namespace) as Hp.
  destruct (pod_probe_result namespace) as [e|pst]; cbn [exc_bind]; [probe_error_case Hp|].
  pose proof (endpoint_probe_result_raises namespace) as He.
  destruct (endpoint_probe_result namespace) as [e|swe]; cbn [exc_bind]; [probe_error_case He|].
  destruct (is_healthy nst pst swe) eqn:Eh.
  - apply is_healthy_true in Eh as (? & ? & ? & ->). simpl. naive_solver.
  - split.
    + intros Hx. exfalso. by destruct (exit_code_join_then_exit swe 1) as [Hy|Hy];
        rewrite Hy in Hx.
    + intros (_ & nst' & pst' & [= <-] & [= <-] & [= ->] & ? & ? & ?).
      assert (is_healthy nst pst [] = true) by (by apply is_healthy_true). congruence.
Qed.


(** ** Short circuit, failures and exceptions *)

(** C3: an unreachable cluster stops the run.  When [kubectl
    cluster-info] exits with a non-zero code, the script prints the header
    and the connectivity failure, spawns no other process (no node, pod or
    endpoint query runs) and exits with status 1. *)
Theorem unreachable_short_circuit namespace rc out err :
  host_run ["kubectl"; "cluster-info"] = Completed rc out err -> rc <> 0%Z ->
  outcome (run_health_check namespace) = inl (SystemExit 1) /\
  spawned (trace (run_health_check namespace)) = [["kubectl"; "cluster-info"]] /\
  printed (trace (run_health_check namespace)) =
    ["GitOps Platform Health Check"; rule; (newline ++ "1. Cluster Connectivity:")%string;
     "   ✗ Cannot connect to cluster"].
Proof.
  intros Hrun Hrc.
  unfold run_health_check, check_cluster_connectivity, subprocess_run_check.
  rewrite Hrun. destruct (Z.eqb_spec rc 0); [done|]. done.
Qed.

(** C4: failed queries pass the gate.  When the cluster answers
    [cluster-info] but every [kubectl get] of the probes exits with an
    error, each probe sees an empty list, and the script reports HEALTHY
    and exits with status 0: a check that could not look is taken for a
    check that found nothing wrong. *)
Theorem failed_queries_exit_healthy namespace :
  connectivity_result = inr true ->
  kubectl_fails ["get"; "nodes"] ->
  kubectl_fails ["get"; "pods"; "-n"; namespace] ->
  kubectl_fails ["get"; "services"; "-n"; namespace] ->
  kubectl_fails ["get"; "endpoints"; "-n"; namespace] ->
  outcome (run_health_check namespace) = inl (SystemExit 0).
Proof.
  intros Hc Hn Hp Hs He. rewrite outcome_run_health_check.
  unfold health_verdict, node_probe_result, pod_probe_result, endpoint_probe_result.
  rewrite Hc, !kubectl_result_failed by done. done.
Qed.

(** A run that ends in [sys.exit] with status 0 or 1. *)
Ltac exit_case := eexists; split; [reflexivity|]; cbn; split; auto.

(** C5: the ways a run ends.  [run_health_check] never returns: it ends
    with [sys.exit(0)], with [sys.exit(1)], or with an uncaught exception,
    which is either the [FileNotFoundError] of a missing [kubectl] or the
    [AttributeError] or [TypeError] of ill-typed JSON.  The exit status is
    0 or 1 in every case. *)
Theorem run_health_check_outcomes namespace :
  exists e, outcome (run_health_check namespace) = inl e /\
    (e = SystemExit 0 \/ e = SystemExit 1 \/ probe_error e) /\
    (exit_code (A:=unit) (inl e) = 0%Z \/ exit_code (A:=unit) (inl e) = 1%Z).
Proof.
  rewrite outcome_run_health_check. unfold health_verdict.
  assert (forall e, probe_error e -> exists e', @inl exc unit e = inl e' /\
    (e' = SystemExit 0 \/ e' = SystemExit 1 \/ probe_error e') /\
    (exit_code (A:=unit) (inl e') = 0%Z \/ exit_code (A:=unit) (inl e') = 1%Z)) as Herr.
  { intros e He. exists e. rewrite exit_code_probe_error by done. auto. }
  pose proof connectivity_result_raises as Hc.
  destruct connectivity_result as [e|[|]]; cbn [exc_bind negb]; [by apply Herr, Hc| |exit_case].
  pose proof node_probe_result_raises as Hn.
  destruct node_probe_result as [e|nst]; cbn [exc_bind]; [by apply Herr, Hn|].
  pose proof (pod_probe_result_raises namespace) as Hp.
  destruct (pod_probe_result namespace) as [e|pst]; cbn [exc_bind]; [by apply Herr, Hp|].
  pose proof (endpoint_probe_result_raises namespace) as He.
  destruct (endpoint_probe_result namespace) as [e|swe]; cbn [exc_bind]; [by apply Herr, He|].
  destruct (list_truthy swe); [|destruct (is_healthy _ _ _); exit_case].
  pose proof (py_join_raises ", " swe) as Hj.
  destruct (py_join _ _) as [e|]; cbn [exc_bind];
    [apply Herr; right; by apply Hj|destruct (is_healthy _ _ _); exit_case].
Qed.

(** C8: a missing [kubectl] is not a failed connectivity check.  The
    connectivity check catches [CalledProcessError] only; when the
    [kubectl] binary is not on the [PATH], [subprocess.run] raises
    [FileNotFoundError], which escapes [run_health_check]: the script ends
    with a traceback after the header, without the connectivity verdict. *)
Theorem missing_kubectl_traceback namespace :
  host_run ["kubectl"; "cluster-info"] = ExecNotFound ->
  outcome (run_health_check namespace) = inl (FileNotFoundError "kubectl") /\
  printed (trace (run_health_check namespace)) =
    ["GitOps Platform Health Check"; rule; (newline ++ "1. Cluster Connectivity:")%string].
Proof.
  intros Hrun. unfold run_health_check, check_cluster_connectivity, subprocess_run_check.
  by rewrite Hrun.
Qed.

(** C7: a service without a name crashes the report.  When the endpoint
    probe reports a value that is not a string (the [None] of a service
    whose metadata has no [name]), the [', '.join] of the warning raises
    the [TypeError] of its first non-string item ("sequence item i:
    expected str instance, NoneType found"): the script ends with a
    traceback instead of a verdict. *)
Theorem nameless_service_type_error namespace nst pst swe :
  connectivity_result = inr true ->
  node_probe_result = inr nst -> pod_probe_result namespace = inr pst ->
  endpoint_probe_result namespace = inr swe -> PNone ∈ swe ->
  exists i v, outcome (run_health_check namespace) = inl (join_item_error i v) /\
    forall s, v <> PStr s.
Proof.
  intros Hc Hn Hp He Hin. rewrite outcome_run_health_check.
  unfold health_verdict. rewrite Hc, Hn, Hp, He. cbn [exc_bind negb].
  destruct swe as [|v swe]; [set_solver|]. cbn [list_truthy].
  destruct (py_join_non_string ", " (v :: swe) PNone) as (j & w & -> & Hw); [done..|].
  by exists j, w.
Qed.

End WithHost.

(** ** The run on a served snapshot: refinement of the spec's verdict *)

Lemma is_healthy_snapshot (snap : snapshot) :
  Forall node_wf (snap_nodes snap) ->
  is_healthy (node_counts (snap_nodes snap)) (pod_counts (snap_pods snap))
    (map PStr (services_without_endpoints (snap_services snap) (snap_endpoints snap))) =
  forallb node_is_ready (snap_nodes snap) &&
  forallb (fun p => negb (in_bucket BFailed p)) (snap_pods snap) &&
  forallb (fun p => negb (pod_restart_looping p)) (snap_pods snap) &&
  forallb (fun s => endpoint_ready (snap_endpoints snap) (svc_name s)) (snap_services snap).
Proof.
  intros Hwf. apply Bool.eq_iff_eq_true.
  rewrite is_healthy_true, !andb_true_iff, <- not_ready_zero_iff by done.
  rewrite <- failed_zero_iff, <- crash_zero_iff, <- services_without_endpoints_nil_iff.
  assert (forall l : list string, map PStr l = [] <-> l = []) as Hmap
    by (intros []; naive_solver).
  rewrite Hmap. tauto.
Qed.

(** The run on a served snapshot raises nothing but [SystemExit]: every
    service has a name, so the warning line is printed. *)
Lemma health_verdict_snapshot `{Host} namespace snap `{HS : !Serves namespace snap} :
  health_verdict namespace =
  inl (SystemExit
    (if snap_reachable snap &&
        is_healthy (node_counts (snap_nodes snap)) (pod_counts (snap_pods snap))
          (map PStr (services_without_endpoints (snap_services snap) (snap_endpoints snap)))
     then 0 else 1)).
Proof.
  unfold health_verdict, node_probe_result, pod_probe_result, endpoint_probe_result.
  destruct HS as [Hc Hn Hp Hs He].
  rewrite Hc, (kubectl_result_answer _ _ Hn), (kubectl_result_answer _ _ Hp),
    (kubectl_result_answer _ _ Hs), (kubectl_result_answer _ _ He).
  destruct (snap_reachable snap); cbn [exc_bind negb andb]; [|done].
  rewrite tally_nodes_encoded, tally_pods_encoded, find_services_without_endpoints_encoded.
  cbn [exc_bind].
  destruct (py_join_strings ", "
    (services_without_endpoints (snap_services snap) (snap_endpoints snap))) as [j Hj].
  destruct (list_truthy _); [rewrite Hj|]; done.
Qed.

(** The exit status of a run on a served snapshot: the verdict of
    [is_healthy] on the closed forms of the three probes. *)
Lemma exit_code_snapshot `{Host} namespace snap `{!Serves namespace snap} :
  exit_code (outcome (run_health_check namespace)) =
  (if snap_reachable snap &&
      is_healthy (node_counts (snap_nodes snap)) (pod_counts (snap_pods snap))
        (map PStr (services_without_endpoints (snap_services snap) (snap_endpoints snap)))
   then 0%Z else 1%Z).
Proof.
  rewrite outcome_run_health_check, (health_verdict_snapshot namespace snap).
  by destruct (_ && _).
Qed.

(** [is_healthy] reads the node counters through [not_ready] only. *)
Lemma is_healthy_not_ready nst nst' pst swe :
  ns_not_ready nst = ns_not_ready nst' -> is_healthy nst pst swe = is_healthy nst' pst swe.
Proof. unfold is_healthy. by intros ->. Qed.

(** C2: refinement of the spec's verdict.  Against any host that serves a
    snapshot of the cluster, and when every node carries one [Ready]
    condition, the script exits with status 0 exactly when the spec calls
    the snapshot healthy: the control plane is reachable, every node is
    Ready, no pod is Failed or restart-looping, and every service has
    endpoints; otherwise it exits with status 1. *)
Theorem run_health_check_refines_spec `{Host} namespace snap `{!Serves namespace snap} :
  Forall node_wf (snap_nodes snap) ->
  exit_code (outcome (run_health_check namespace)) =
  (if spec_healthy snap then 0%Z else 1%Z).
Proof.
  intros Hwf. rewrite (exit_code_snapshot namespace snap).
  unfold spec_healthy. rewrite is_healthy_snapshot by done.
  by destruct (snap_reachable snap), (forallb _ _), (forallb _ _), (forallb _ _), (forallb _ _).
Qed.

(** Scenario A of the spec: three Ready nodes, five Running pods, one
    service with two endpoint subsets. *)
Definition scenario_a : snapshot :=
  mk_snapshot true
    [mk_node "n1" [mk_condition "Ready" "True"]; mk_node "n2" [mk_condition "Ready" "True"];
     mk_node "n3" [mk_condition "Ready" "True"]]
    [mk_pod "p1" (Some "Running") []; mk_pod "p2" (Some "Running") [];
     mk_pod "p3" (Some "Running") []; mk_pod "p4" (Some "Running") [];
     mk_pod "p5" (Some "Running") []]
    [mk_service "s1"] [mk_endpoints "s1" 2].

(** Witness of C2. *)
Lemma run_health_check_refines_spec_witness :
  exit_code (outcome (@run_health_check (snapshot_host "default" scenario_a) "default")) = 0%Z.
Proof.
  rewrite (@run_health_check_refines_spec (snapshot_host "default" scenario_a) "default"
             scenario_a (snapshot_host_serves _ _)); [reflexivity|].
  repeat constructor.
Defined.

(** Scenario C: the control plane cannot be reached. *)
Definition scenario_c : snapshot := mk_snapshot false [] [] [] [].

(** Run the script on a snapshot: its trace and outcome. *)
Definition run_on (snap : snapshot) : PyM unit :=
  @run_health_check (snapshot_host "default" snap) "default".

(** C6: the spec's fail-closed rule is not the code's.  The spec counts
    a node without a [Ready] condition as NotReady, so a cluster holding
    one is unhealthy; the loop counts such a node in neither counter, so,
    against any host that serves the snapshot with that node added, the
    script exits exactly as it would without the node, with status 0 when
    the rest of the snapshot is healthy. *)
Theorem node_without_ready_condition_passes `{Host} namespace snap n
    `{!Serves namespace (add_node n snap)} :
  count_if is_ready_condition (node_conditions n) = 0 ->
  Forall node_wf (snap_nodes snap) ->
  spec_healthy (add_node n snap) = false /\
  exit_code (outcome (run_health_check namespace)) = (if spec_healthy snap then 0%Z else 1%Z).
Proof.
  intros Hn Hwf. pose proof (count_if_ready_split (node_conditions n)) as Hsplit.
  assert (node_is_ready n = false) as Hnr.
  { unfold node_is_ready. apply not_true_iff_false. intros [c [Hc%list_elem_of_In Hr]]%existsb_exists.
    pose proof (count_if_pos ready_true _ c Hc Hr). lia. }
  split; [unfold spec_healthy; simpl; rewrite Hnr; by destruct (snap_reachable snap)|].
  rewrite (exit_code_snapshot namespace (add_node n snap)).
  cbn [snap_reachable snap_nodes snap_pods snap_services snap_endpoints add_node].
  rewrite (is_healthy_not_ready _ (node_counts (snap_nodes snap))); [|simpl; lia].
  unfold spec_healthy. rewrite is_healthy_snapshot by done.
  by destruct (snap_reachable snap), (forallb _ _), (forallb _ _), (forallb _ _), (forallb _ _).
Qed.

(** Witness of C3, on the unreachable scenario C. *)
Lemma unreachable_short_circuit_witness :
  outcome (run_on scenario_c) = inl (SystemExit 1) /\
  spawned (trace (run_on scenario_c)) = [["kubectl"; "cluster-info"]] /\
  printed (trace (run_on scenario_c)) =
    ["GitOps Platform Health Check"; rule; (newline ++ "1. Cluster Connectivity:")%string;
     "   ✗ Cannot connect to cluster"].
Proof.
  apply (@unreachable_short_circuit (snapshot_host "default" scenario_c) "default" 1 "" "");
    [reflexivity|lia].
Defined.

(** A cluster that answers [cluster-info] but refuses every query of the
    probes (expired credentials, missing RBAC permissions). *)
Definition forbidden_host : Host :=
  {| host_run := fun argv =>
       if bool_decide (argv = ["kubectl"; "cluster-info"]) then Completed 0 "" ""
       else Completed 1 "" "Error from server (Forbidden)";
     host_json_loads := fun _ => None |}.

(** Witness of C4. *)
Lemma failed_queries_exit_healthy_witness :
  outcome (@run_health_check forbidden_host "default") = inl (SystemExit 0).
Proof.
  apply (@failed_queries_exit_healthy forbidden_host "default"); [reflexivity|..];
    (do 3 eexists; split; [reflexivity|lia]).
Defined.

(** Every query answers one item without [metadata.name]. *)
Definition nameless_host : Host :=
  fixed_answer_host (PDict [("items", PList [PDict [("metadata", PDict [])]])]).

(** Witness of C7. *)
Lemma nameless_service_type_error_witness :
  (exists i v, outcome (@run_health_check nameless_host "default") = inl (join_item_error i v) /\
     forall s, v <> PStr s) /\
  outcome (@run_health_check nameless_host "default") =
    inl (TypeError "sequence item 0: expected str instance, NoneType found").
Proof.
  split; [|vm_compute; reflexivity].
  apply (@nameless_service_type_error nameless_host "default"
           (mk_node_status 1 0 0) (mk_pod_status 1 0 0 0 0) [PNone]);
    [reflexivity..|set_solver].
Defined.

(** A host without the [kubectl] binary. *)
Definition no_kubectl_host : Host :=
  {| host_run := fun _ => ExecNotFound; host_json_loads := fun _ => None |}.

(** Witness of C8. *)
Lemma missing_kubectl_traceback_witness :
  outcome (@run_health_check no_kubectl_host "default") = inl (FileNotFoundError "kubectl") /\
  printed (trace (@run_health_check no_kubectl_host "default")) =
    ["GitOps Platform Health Check"; rule; (newline ++ "1. Cluster Connectivity:")%string].
Proof. by apply (@missing_kubectl_traceback no_kubectl_host). Defined.

(** A node whose kubelet never posted a [Ready] condition. *)
Definition edge_node : node := mk_node "edge-1" [mk_condition "MemoryPressure" "False"].

(** Witness of C6: a cluster whose only node is [edge_node]. *)
Lemma node_without_ready_condition_passes_witness :
  spec_healthy (add_node edge_node (mk_snapshot true [] [] [] [])) = false /\
  exit_code (outcome (@run_health_check
    (snapshot_host "default" (add_node edge_node (mk_snapshot true [] [] [] []))) "default")) = 0%Z.
Proof.
  apply (@node_without_ready_condition_passes
           (snapshot_host "default" (add_node edge_node (mk_snapshot true [] [] [] []))) "default"
           (mk_snapshot true [] [] [] []) edge_node (snapshot_host_serves _ _));
    [reflexivity|constructor].
Defined.
