(* ===== verification/EcrCleanup.v ===== *)
(** * ECR retention: [cleanup_old_images] ([cleanup_ecr.py], lines 12-110)

    The boto3 client is the interface [EcrClient]: the creation of the
    client for a region ([get_ecr_client]), the pages of [list_images],
    the image objects of [batch_get_image], the result of
    [batch_delete_image], and the clock read by [datetime.now] with the
    UTC offset of the local time zone.  Each call is recorded as an
    [EvApi] event.  The cutoff [datetime.now() - timedelta(days=...)]
    raises [OverflowError] when the days exceed [timedelta]'s range or
    the result leaves years 1..9999 ([dt_sub_days]).  Image objects are typed records with
    the two optional fields the script reads, [imageId] and
    [imagePushedAt]; a [datetime] carries its instant and whether it is
    timezone-aware, since Python refuses to order a naive datetime against
    an aware one.

    The selection is the pipeline of the source: the sort by push date
    ([sort_newest_first], the stable descending sort of [list.sort] with
    [reverse=True], which raises [TypeError] on mixed datetimes), the two
    slices at [keep_latest] with Python's negative indices
    ([py_slice_upto], [py_slice_from]), the cutoff test of the loop
    ([select_for_deletion]) and the digests of the comprehension
    ([digests_to_delete]). *)

From Stdlib Require Import ZArith Lia.
From stdpp Require Import base list strings sets pretty sorting.
From S2P Require Import Prelude PyJson PyDate.

#[local] Set Warnings "-clear-no-such-hyp".

(** ** Datetimes *)

(** A [datetime]: seconds since the epoch (the UTC instant of an aware
    datetime, the wall-clock reading of a naive one) and whether it carries
    a timezone. *)
Record datetime := mk_datetime { dt_seconds : Z; dt_aware : bool }.

(** [datetime.min], 0001-01-01 00:00, naive. *)
Definition datetime_min : datetime := mk_datetime (-62135596800) false.

(** What Python raises when it orders a naive against an aware datetime. *)
Definition naive_aware_error : exc :=
  TypeError "can't compare offset-naive and offset-aware datetimes".

(** [a < b]: naive and aware datetimes cannot be ordered. *)
Definition dt_lt (a b : datetime) : Exc bool :=
  if Bool.eqb (dt_aware a) (dt_aware b) then inr (Z.ltb (dt_seconds a) (dt_seconds b))
  else inl naive_aware_error.

(** The first and the last second [datetime] represents, 0001-01-01
    00:00:00 and 9999-12-31 23:59:59, as wall-clock readings. *)
Definition min_seconds : Z := -62135596800.
Definition max_seconds : Z := 253402300799.

(** Line 77: [now - timedelta(days=days)], for [now] read in a zone
    [offset] seconds ahead of UTC.  The difference keeps the zone, and
    its wall-clock reading must stay within years 1 to 9999. *)
Definition dt_sub_days (offset : Z) (now : datetime) (days : Z) : Exc datetime :=
  let? days := timedelta_days days in
  let s := (dt_seconds now - days * 86400)%Z in
  let wall := if dt_aware now then (s + offset)%Z else s in
  if (min_seconds <=? wall)%Z && (wall <=? max_seconds)%Z then inr (mk_datetime s (dt_aware now))
  else inl date_out_of_range.

(** ** Images and the client *)

Record image_id := mk_image_id { image_digest : option string; image_tag : option string }.

Record image := mk_image {
  image_image_id : option image_id;
  image_pushed_at : option datetime
}.

Class EcrClient := {
  ecr_client : string -> Exc unit;
  ecr_list_images : string -> Exc (list (list image_id));
  ecr_batch_get_image : string -> list image_id -> Exc (list image);
  ecr_batch_delete_image : string -> list string -> Exc unit;
  ecr_now : datetime;
  ecr_utc_offset : Z
}.

(** ** The selection *)

(** Line 71: the sort key, [datetime.min] for an image without a push date. *)
Definition push_key (img : image) : datetime := default datetime_min (image_pushed_at img).

(** Insertion of [x] before the first element that is not newer. *)
Fixpoint insert_newest_first (x : image) (l : list image) : list image :=
  match l with
  | [] => [x]
  | y :: l' =>
      if Z.ltb (dt_seconds (push_key x)) (dt_seconds (push_key y))
      then y :: insert_newest_first x l' else x :: l
  end.

Fixpoint sort_desc (l : list image) : list image :=
  match l with [] => [] | x :: l' => insert_newest_first x (sort_desc l') end.

(** Whether two keys of the list cannot be compared. *)
Definition mixed_keys (l : list image) : bool :=
  existsb (fun x => negb (Bool.eqb (dt_aware (push_key x)) (dt_aware (push_key (hd x l))))) l.

(** Line 71: [image_details.sort(key=..., reverse=True)].  Python's sort is
    stable, also with [reverse=True]; it compares keys with [<], and any
    sort of a list holding both a naive and an aware key compares two of
    them, which raises [TypeError]. *)
Definition sort_newest_first (l : list image) : Exc (list image) :=
  if mixed_keys l then inl naive_aware_error else inr (sort_desc l).

(** The bound [k] of a slice [l[:k]] or [l[k:]] of a list of length [n]:
    a negative bound counts from the end, and bounds are clamped. *)
Definition slice_bound (n : nat) (k : Z) : nat :=
  if Z.ltb k 0 then Z.to_nat (Z.of_nat n + k) else Z.to_nat k.

(** Line 74: [l[:k]]. *)
Definition py_slice_upto {A} (l : list A) (k : Z) : list A := take (slice_bound (length l) k) l.

(** Line 75: [l[k:]]. *)
Definition py_slice_from {A} (l : list A) (k : Z) : list A := drop (slice_bound (length l) k) l.

(** Lines 80-83: the body of [for image in images_to_check]; [None] is
    falsy and a datetime is truthy. *)
Definition select_for_deletion (cutoff : datetime) (acc : list image) (img : image)
    : Exc (list image) :=
  match image_pushed_at img with
  | None => inr acc
  | Some pushed_at =>
      let? older := dt_lt pushed_at cutoff in
      if older then inr (acc ++ [img]) else inr acc
  end.

(** Lines 89-93: the digests of the images that have one. *)
Definition digests_to_delete (imgs : list image) : list string :=
  omap (fun img => image_image_id img ≫= image_digest) imgs.

(** Line 98: [img.get('imageId', {}).get('imageTag', 'untagged')]. *)
Definition image_tag_or_untagged (img : image) : string :=
  match image_image_id img with
  | Some id => default "untagged" (image_tag id)
  | None => "untagged"
  end.

Section WithClient.
Context `{EcrClient}.

(** Lines 12-14: [boto3.client('ecr', region_name=region)]. *)
Definition get_ecr_client (region : string) : PyM unit :=
  emit (EvApi "client" ["ecr"; region]);; lift (ecr_client region).

(** Lines 16-26. *)
Definition list_images (repository_name : string) : PyM (list image_id) :=
  try_except
    (emit (EvApi "list_images" [repository_name]);;
     let* pages := lift (ecr_list_images repository_name) in
     ret (concat pages))
    (fun e => if is_Exception e
              then Some (print ("Error listing images: " ++ exc_str e)%string;; sys_exit 1)
              else None).

(** Lines 28-38. *)
Definition get_image_details (repository_name : string) (image_ids : list image_id)
    : PyM (list image) :=
  try_except
    (emit (EvApi "batch_get_image" [repository_name]);;
     lift (ecr_batch_get_image repository_name image_ids))
    (fun e => if is_Exception e
              then Some (print ("Error getting image details: " ++ exc_str e)%string;; ret [])
              else None).

(** Lines 40-110. *)
Definition cleanup_old_images (repository_name : string) (days_to_keep keep_latest : Z)
    (region : string) (dry_run : bool) : PyM unit :=
  get_ecr_client region;;
  print ("Scanning repository: " ++ repository_name)%string;;
  let* image_ids := list_images repository_name in
  print ("Found " ++ pretty (length image_ids) ++ " images")%string;;
  match image_ids with
  | [] => print "No images to process"
  | _ =>
    let* image_details := get_image_details repository_name image_ids in
    let* image_details := lift (sort_newest_first image_details) in
    let images_to_keep := py_slice_upto image_details keep_latest in
    let images_to_check := py_slice_from image_details keep_latest in
    let* cutoff_date := lift (dt_sub_days ecr_utc_offset ecr_now days_to_keep) in
    let* images_to_delete := lift (foldM (select_for_deletion cutoff_date) [] images_to_check) in
    print (newline ++ "Images to keep (latest " ++ pretty keep_latest ++ "): " ++
           pretty (length images_to_keep))%string;;
    print ("Images to delete (older than " ++ pretty days_to_keep ++ " days): " ++
           pretty (length images_to_delete))%string;;
    match images_to_delete with
    | [] => ret tt
    | _ =>
      let image_ids_to_delete := digests_to_delete images_to_delete in
      if dry_run then
        print (newline ++ "[DRY RUN] Would delete:")%string;;
        for_ (take 5 images_to_delete)
          (fun img => print ("  - " ++ image_tag_or_untagged img)%string);;
        (if Nat.ltb 5 (length images_to_delete)
         then print ("  ... and " ++ pretty (length images_to_delete - 5) ++ " more")%string
         else ret tt)
      else
        try_except
          (emit (EvApi "batch_delete_image" (repository_name :: image_ids_to_delete));;
           lift (ecr_batch_delete_image repository_name image_ids_to_delete);;
           print (newline ++ "Successfully deleted " ++ pretty (length images_to_delete) ++
                  " images")%string)
          (fun e => if is_Exception e
                    then Some (print ("Error deleting images: " ++ exc_str e)%string;; sys_exit 1)
                    else None)
    end
  end.

End WithClient.

(** ** The sort *)

Definition newer_or_same (a b : image) : Prop :=
  (dt_seconds (push_key b) <= dt_seconds (push_key a))%Z.

Lemma insert_newest_first_perm x l : insert_newest_first x l ≡ₚ x :: l.
Proof.
  induction l as [|y l IH]; simpl; [done|].
  destruct (Z.ltb _ _); [|done]. rewrite IH. apply Permutation_swap.
Qed.

Lemma insert_newest_first_hd y x l :
  HdRel newer_or_same y l -> newer_or_same y x -> HdRel newer_or_same y (insert_newest_first x l).
Proof.
  destruct l as [|z l]; simpl; intros Hl Hyx; [by constructor|].
  destruct (Z.ltb _ _); constructor; [by inversion Hl|done].
Qed.

Lemma insert_newest_first_sorted x l :
  Sorted newer_or_same l -> Sorted newer_or_same (insert_newest_first x l).
Proof.
  induction 1 as [|y l Hl IH Hhd]; simpl; [by repeat constructor|].
  destruct (Z.ltb_spec (dt_seconds (push_key x)) (dt_seconds (push_key y))).
  - constructor; [done|]. apply insert_newest_first_hd; [done|]. unfold newer_or_same; lia.
  - constructor; [by constructor|]. constructor. unfold newer_or_same; lia.
Qed.

(** Inserting [x] puts it before every element of its own key: the
    elements it passes are strictly newer. *)
Lemma insert_newest_first_same_key x l (t : Z) :
  List.filter (fun y => Z.eqb (dt_seconds (push_key y)) t) (insert_newest_first x l) =
  List.filter (fun y => Z.eqb (dt_seconds (push_key y)) t) (x :: l).
Proof.
  induction l as [|y l IH]; simpl; [done|].
  destruct (Z.ltb_spec (dt_seconds (push_key x)) (dt_seconds (push_key y))); simpl; [|done].
  rewrite IH. simpl.
  destruct (Z.eqb_spec (dt_seconds (push_key x)) t),
           (Z.eqb_spec (dt_seconds (push_key y)) t); try done; lia.
Qed.

Lemma sort_desc_perm l : sort_desc l ≡ₚ l.
Proof. induction l as [|x l IH]; simpl; [done|]. by rewrite insert_newest_first_perm, IH. Qed.

Lemma sort_desc_sorted l : Sorted newer_or_same (sort_desc l).
Proof. induction l as [|x l IH]; simpl; [constructor|]. by apply insert_newest_first_sorted. Qed.

Lemma sort_desc_stable l (t : Z) :
  List.filter (fun y => Z.eqb (dt_seconds (push_key y)) t) (sort_desc l) =
  List.filter (fun y => Z.eqb (dt_seconds (push_key y)) t) l.
Proof.
  induction l as [|x l IH]; simpl; [done|].
  rewrite insert_newest_first_same_key. simpl. by rewrite IH.
Qed.

(** C20: the sort of [cleanup_old_images].  When all push dates are
    comparable, [image_details.sort(key=..., reverse=True)] returns a
    permutation of the images, newest first, in which images with the
    same push date keep their original order (Python's sort is stable);
    otherwise it raises [TypeError]. *)
Theorem sort_newest_first_correct (l : list image) :
  (mixed_keys l = true -> sort_newest_first l = inl naive_aware_error) /\
  (mixed_keys l = false ->
   exists s, sort_newest_first l = inr s /\ s ≡ₚ l /\ Sorted newer_or_same s /\
   forall t, List.filter (fun y => Z.eqb (dt_seconds (push_key y)) t) s =
             List.filter (fun y => Z.eqb (dt_seconds (push_key y)) t) l).
Proof.
  unfold sort_newest_first. split; intros ->; [done|].
  exists (sort_desc l). split_and!; [done|apply sort_desc_perm|apply sort_desc_sorted|].
  apply sort_desc_stable.
Qed.

(** Witness of C20, on three aware push dates. *)
Lemma sort_newest_first_correct_witness :
  exists s, sort_newest_first
    [mk_image None (Some (mk_datetime 1700000000 true));
     mk_image None (Some (mk_datetime 1766188800 true))] = inr s /\
  s ≡ₚ [mk_image None (Some (mk_datetime 1700000000 true));
        mk_image None (Some (mk_datetime 1766188800 true))] /\
  Sorted newer_or_same s /\
  forall t, List.filter (fun y => Z.eqb (dt_seconds (push_key y)) t) s =
    List.filter (fun y => Z.eqb (dt_seconds (push_key y)) t)
      [mk_image None (Some (mk_datetime 1700000000 true));
       mk_image None (Some (mk_datetime 1766188800 true))].
Proof. apply (proj2 (sort_newest_first_correct _)). reflexivity. Defined.

(** ** The slices and the selection *)

(** The slices at [keep_latest] split the sorted images without loss or
    overlap; for [k >= 0] the kept part has [min k (len l)] images, and for
    a negative [k] all but the last [-k]. *)
Lemma py_slices_split {A} (l : list A) (k : Z) :
  py_slice_upto l k ++ py_slice_from l k = l /\
  ((0 <= k)%Z -> length (py_slice_upto l k) = Nat.min (Z.to_nat k) (length l)) /\
  ((k < 0)%Z -> length (py_slice_upto l k) = length l - Z.to_nat (- k)).
Proof.
  unfold py_slice_upto, py_slice_from, slice_bound. split; [apply take_drop|].
  rewrite length_take. split; intros Hk.
  - destruct (Z.ltb_spec k 0); [lia|]. lia.
  - destruct (Z.ltb_spec k 0); [|lia]. lia.
Qed.

(** Whether an image's push date is before the cutoff. *)
Definition older_than (cutoff : datetime) (img : image) : bool :=
  match image_pushed_at img with
  | Some p => Z.ltb (dt_seconds p) (dt_seconds cutoff)
  | None => false
  end.

(** The push date of an image can be compared with the cutoff. *)
Definition comparable_with (cutoff : datetime) (img : image) : Prop :=
  forall p, image_pushed_at img = Some p -> dt_aware p = dt_aware cutoff.

Lemma foldM_select_for_deletion cutoff acc imgs :
  Forall (comparable_with cutoff) imgs ->
  foldM (select_for_deletion cutoff) acc imgs = inr (acc ++ List.filter (older_than cutoff) imgs).
Proof.
  revert acc; induction imgs as [|img imgs IH]; intros acc Hc; simpl; [by rewrite app_nil_r|].
  apply Forall_cons in Hc as [Hi Hc].
  unfold select_for_deletion, older_than.
  destruct (image_pushed_at img) as [p|] eqn:Ep; simpl; [|by apply IH].
  unfold dt_lt. rewrite (Hi p Ep), Bool.eqb_reflx. simpl.
  destruct (Z.ltb _ _); simpl; rewrite IH by done; [by rewrite <- app_assoc|done].
Qed.

(** A property of every image survives the sort and the slice. *)
Lemma Forall_sorted_slice (P : image -> Prop) imgs k :
  Forall P imgs -> Forall P (py_slice_from (sort_desc imgs) k).
Proof.
  intros HP. unfold py_slice_from. apply Forall_drop.
  apply Forall_forall. intros x Hx. rewrite Forall_forall in HP. apply HP.
  apply list_elem_of_In. apply list_elem_of_In in Hx.
  eapply Permutation_in; [apply sort_desc_perm|done].
Qed.

(** What [cleanup_old_images] decides to delete, from the images
    [batch_get_image] returned (lines 71-83). *)
Definition deletion_plan (imgs : list image) (keep_latest : Z) (cutoff : datetime)
    : Exc (list image) :=
  let? sorted := sort_newest_first imgs in
  foldM (select_for_deletion cutoff) [] (py_slice_from sorted keep_latest).

(** C21: what the plan deletes.  When the push dates are comparable with
    the cutoff, the plan is the images past the first [keep_latest] of the
    newest-first order whose push date is before the cutoff, in that
    order; an image without a push date is never selected. *)
Theorem deletion_plan_spec (imgs : list image) (keep_latest : Z) (cutoff : datetime) :
  mixed_keys imgs = false -> Forall (comparable_with cutoff) imgs ->
  deletion_plan imgs keep_latest cutoff =
    inr (List.filter (older_than cutoff) (py_slice_from (sort_desc imgs) keep_latest)) /\
  Forall (fun img => exists p, image_pushed_at img = Some p /\
                       (dt_seconds p < dt_seconds cutoff)%Z)
    (List.filter (older_than cutoff) (py_slice_from (sort_desc imgs) keep_latest)).
Proof.
  intros Hm Hc. unfold deletion_plan, sort_newest_first. rewrite Hm. cbn [exc_bind].
  split.
  - apply foldM_select_for_deletion.
    by apply Forall_sorted_slice.
  - apply Forall_forall. intros img Hin.
    apply list_elem_of_In, filter_In in Hin as [_ Ho]. unfold older_than in Ho.
    destruct (image_pushed_at img) as [p|]; [|done]. exists p. split; [done|lia].
Qed.

(** Two images of which one has an aware push date and the other none
    make the sort keys incomparable. *)
Lemma mixed_keys_naive_aware (imgs : list image) a b p :
  a ∈ imgs -> image_pushed_at a = Some p -> dt_aware p = true ->
  b ∈ imgs -> image_pushed_at b = None -> mixed_keys imgs = true.
Proof.
  intros Ha Hp Hap Hb Hn. unfold mixed_keys. apply existsb_exists.
  destruct imgs as [|y imgs]; [set_solver|]. cbn [hd].
  destruct (dt_aware (push_key y)) eqn:Ey.
  - exists b. split; [by apply list_elem_of_In|]. unfold push_key. by rewrite Hn.
  - exists a. split; [by apply list_elem_of_In|]. unfold push_key. rewrite Hp; simpl. by rewrite Hap.
Qed.

(** Each selected image either has a digest in the delete request or
    has none. *)
Lemma digests_to_delete_length (imgs : list image) :
  length (digests_to_delete imgs) +
  count_if (fun img => bool_decide (image_image_id img ≫= image_digest = None)) imgs =
  length imgs.
Proof.
  induction imgs as [|img imgs IH]; [done|].
  change (digests_to_delete (img :: imgs)) with
    (match image_image_id img ≫= image_digest with
     | Some d => d :: digests_to_delete imgs | None => digests_to_delete imgs end).
  rewrite count_if_cons. destruct (image_image_id img ≫= image_digest);
    [rewrite bool_decide_false by done|rewrite bool_decide_true by done]; simpl; lia.
Qed.

(** A loop that prints one line per element. *)
Lemma for_print {A} (l : list A) (f : A -> string) :
  for_ l (fun x => print (f x)) = (map (fun x => EvPrint (f x)) l, inr tt).
Proof. induction l as [|x l IH]; [done|]. cbn [for_ map]. by rewrite IH. Qed.

(** Evaluation of a run whose client answers are known. *)
Ltac cleanup_eval :=
  cbn [bind emit lift ret print try_except fst snd app outcome trace exc_bind].

(** Evaluation of the first calls of a run, up to [batch_get_image]. *)
Ltac cleanup_prefix Hc Hl Hg :=
  unfold trace_only, cleanup_old_images, get_ecr_client, list_images, get_image_details;
  rewrite Hc, Hl; cleanup_eval;
  match goal with |- context [match concat ?pages with _ => _ end] =>
    destruct (concat pages) as [|?id ?ids]; [done|] end;
  rewrite Hg; cleanup_eval.

(** A prefix of calls and prints deletes nothing. *)
Ltac no_delete_calls :=
  repeat constructor; intros [? [=]].

(** ** The calls a run makes *)

Section Calls.
Context `{EcrClient}.

Lemma outcome_get_image_details repository_name image_ids :
  outcome (get_image_details repository_name image_ids) =
  match ecr_batch_get_image repository_name image_ids with
  | inr imgs => inr imgs
  | inl e => if is_Exception e then inr [] else inl e
  end.
Proof.
  unfold get_image_details. rewrite outcome_try_except, outcome_bind.
  cbn [outcome emit exc_bind lift snd].
  destruct (ecr_batch_get_image _ _) as [e|imgs]; [|done].
  by destruct (is_Exception e).
Qed.

(** A call of [batch_delete_image]. *)
Definition is_delete_call (ev : event) : Prop :=
  exists args, ev = EvApi "batch_delete_image" args.

(** A deletion call that deletes the digests of a non-empty deletion plan
    computed from what [batch_get_image] returned. *)
Definition planned_delete (repository_name : string) (days_to_keep keep_latest : Z)
    (ev : event) : Prop :=
  forall args, ev = EvApi "batch_delete_image" args ->
    exists image_ids imgs cutoff dels,
      ecr_batch_get_image repository_name image_ids = inr imgs /\
      dt_sub_days ecr_utc_offset ecr_now days_to_keep = inr cutoff /\
      deletion_plan imgs keep_latest cutoff = inr dels /\
      dels <> [] /\ args = repository_name :: digests_to_delete dels.

(** The events of a run of [cleanup_old_images] satisfy [P] when prints
    and the other API calls do, and the one deletion call does whenever the
    run reaches it: not in a dry run, with a non-empty deletion plan of the
    images [batch_get_image] returned. *)
Lemma cleanup_trace_only (P : event -> Prop) repository_name days_to_keep keep_latest
    region dry_run :
  (forall s, P (EvPrint s)) ->
  (forall op args, op <> "batch_delete_image" -> P (EvApi op args)) ->
  (forall image_ids imgs cutoff dels,
     ecr_batch_get_image repository_name image_ids = inr imgs ->
     dt_sub_days ecr_utc_offset ecr_now days_to_keep = inr cutoff ->
     deletion_plan imgs keep_latest cutoff = inr dels ->
     dels <> [] -> dry_run = false ->
     P (EvApi "batch_delete_image" (repository_name :: digests_to_delete dels))) ->
  trace_only P (cleanup_old_images repository_name days_to_keep keep_latest region dry_run).
Proof.
  intros Hprint Hapi Hdel.
  assert (forall op args, op <> "batch_delete_image" -> trace_only P (emit (EvApi op args)))
    as Hother by (intros; by apply trace_only_emit, Hapi).
  unfold cleanup_old_images, list_images, get_image_details.
  apply trace_only_bind; [unfold get_ecr_client; solve_trace ltac:(apply Hapi; discriminate)|intros _].
  apply trace_only_bind; [by apply trace_only_emit|intros _].
  apply trace_only_bind_dep; [solve_trace ltac:(first [apply Hprint|apply Hapi; discriminate])|].
  intros image_ids _.
  apply trace_only_bind; [by apply trace_only_emit|intros _].
  destruct image_ids as [|id ids]; [by apply trace_only_emit|].
  apply trace_only_bind_dep; [solve_trace ltac:(first [apply Hprint|apply Hapi; discriminate])|].
  intros imgs Himgs. fold (get_image_details repository_name (id :: ids)) in Himgs.
  rewrite outcome_get_image_details in Himgs.
  apply trace_only_bind_dep; [apply trace_only_lift|intros sorted Hs].
  apply trace_only_bind_dep; [apply trace_only_lift|intros cutoff Hcut].
  apply trace_only_bind_dep; [apply trace_only_lift|intros dels Hd].
  cbn [outcome lift snd] in Hs, Hcut, Hd.
  assert (deletion_plan imgs keep_latest cutoff = inr dels)
    as Hplan by (unfold deletion_plan; by rewrite Hs).
  do 2 (apply trace_only_bind; [by apply trace_only_emit|intros _]).
  destruct dels as [|d dels']; [apply trace_only_ret|].
  destruct dry_run; [solve_trace ltac:(apply Hprint)|].
  apply trace_only_try_except_Exception; [|solve_trace ltac:(apply Hprint)].
  apply trace_only_bind; [apply trace_only_emit|solve_trace ltac:(apply Hprint)].
  destruct (ecr_batch_get_image repository_name (id :: ids)) as [e|imgs'] eqn:Eg.
  - destruct (is_Exception e); [|done]. injection Himgs as <-.
    unfold deletion_plan in Hplan. cbn in Hplan. unfold py_slice_from in Hplan.
    rewrite drop_nil in Hplan. discriminate.
  - simplify_eq. by eapply (Hdel (id :: ids)).
Qed.

(** C18: deletion safety.  Every [batch_delete_image] call of a run of
    [cleanup_old_images] deletes exactly the digests of the deletion plan
    of the images [batch_get_image] returned: the images past the newest
    [keep_latest] whose push date is before [now - days_to_keep]. *)
Theorem cleanup_deletes_only_plan repository_name days_to_keep keep_latest region dry_run :
  trace_only (planned_delete repository_name days_to_keep keep_latest)
    (cleanup_old_images repository_name days_to_keep keep_latest region dry_run).
Proof.
  apply cleanup_trace_only; [by intros ? ? [=]|by intros ? ? ? ? [= -> _]|].
  intros image_ids imgs cutoff dels Hg Hc Hp Hne _ args [= <-]. by exists image_ids, imgs, cutoff, dels.
Qed.

(** C19: a dry run deletes nothing.  With [dry_run] (the default of the
    command line, without [--execute]) a run of [cleanup_old_images] never
    calls [batch_delete_image]. *)
Theorem dry_run_never_deletes repository_name days_to_keep keep_latest region :
  trace_only (fun ev => ~ is_delete_call ev)
    (cleanup_old_images repository_name days_to_keep keep_latest region true).
Proof.
  apply cleanup_trace_only; [by intros ? [? [=]]|by intros ? ? ? [? [= -> _]]|done].
Qed.

(** C22: images without a push date are never deleted.  The images of
    [batch_get_image] have no [imagePushedAt] field (boto3 returns it from
    [describe_images] only); whenever every image [batch_get_image] returns
    lacks a push date, no run of [cleanup_old_images] calls
    [batch_delete_image], whatever the options. *)
Theorem no_push_dates_nothing_deleted repository_name days_to_keep keep_latest region dry_run :
  (forall image_ids imgs, ecr_batch_get_image repository_name image_ids = inr imgs ->
     Forall (fun img => image_pushed_at img = None) imgs) ->
  trace_only (fun ev => ~ is_delete_call ev)
    (cleanup_old_images repository_name days_to_keep keep_latest region dry_run).
Proof.
  intros Hnone.
  apply cleanup_trace_only; [by intros ? [? [=]]|by intros ? ? ? [? [= -> _]]|].
  intros image_ids imgs cutoff dels Hg Hc Hp Hne _. exfalso. apply Hne.
  specialize (Hnone _ _ Hg). unfold deletion_plan, sort_newest_first in Hp.
  assert (mixed_keys imgs = false) as Hm.
  { unfold mixed_keys. apply not_true_iff_false. intros [x [Hx Hxm]]%existsb_exists.
    destruct imgs as [|y imgs]; [done|]. rewrite Forall_forall in Hnone.
    cbn [hd] in Hxm. unfold push_key in Hxm.
    rewrite (Hnone x), (Hnone y) in Hxm by (apply list_elem_of_In in Hx; set_solver).
    done. }
  rewrite Hm in Hp. cbn [exc_bind] in Hp.
  pose proof (Forall_sorted_slice _ imgs keep_latest Hnone) as Hs.
  rewrite foldM_select_for_deletion in Hp.
  - injection Hp as <-. simpl. apply list_filter_nil.
    eapply Forall_impl; [exact Hs|]. intros img Hi. by unfold older_than; rewrite Hi.
  - eapply Forall_impl; [exact Hs|]. intros img Hi p. by rewrite Hi.
Qed.


(** C23: a missing push date crashes the sort.  When the run reaches the
    sort and the images [batch_get_image] returns include one with an
    aware push date and one with none, the sort key of the second is the
    naive [datetime.min]; ordering the two raises [TypeError], and the run
    ends with that traceback before any [batch_delete_image] call. *)
Theorem mixed_push_dates_type_error repository_name days_to_keep keep_latest region dry_run
    pages imgs a b p :
  ecr_client region = inr tt ->
  ecr_list_images repository_name = inr pages -> concat pages <> [] ->
  ecr_batch_get_image repository_name (concat pages) = inr imgs ->
  a ∈ imgs -> image_pushed_at a = Some p -> dt_aware p = true ->
  b ∈ imgs -> image_pushed_at b = None ->
  outcome (cleanup_old_images repository_name days_to_keep keep_latest region dry_run) =
    inl naive_aware_error /\
  trace_only (fun ev => ~ is_delete_call ev)
    (cleanup_old_images repository_name days_to_keep keep_latest region dry_run).
Proof.
  intros Hc Hl Hne Hg Ha Hp Hap Hb Hn. cleanup_prefix Hc Hl Hg.
  unfold sort_newest_first. rewrite (mixed_keys_naive_aware imgs a b p) by done.
  split; [done|no_delete_calls].
Qed.

(** C24: the reported count is not the deleted count.  On a run with
    [--execute] that reaches a non-empty deletion plan and whose
    [batch_delete_image] succeeds, the run ends normally, the request
    holds the digests of the plan, and the line printed is
    "Successfully deleted <n> images" with [n] the length of the plan:
    the digests sent fall short of [n] by the planned images without a
    digest, which the comprehension drops. *)
Theorem deleted_count_overstated repository_name days_to_keep keep_latest region
    pages imgs cutoff dels :
  ecr_client region = inr tt ->
  ecr_list_images repository_name = inr pages -> concat pages <> [] ->
  ecr_batch_get_image repository_name (concat pages) = inr imgs ->
  dt_sub_days ecr_utc_offset ecr_now days_to_keep = inr cutoff ->
  deletion_plan imgs keep_latest cutoff = inr dels -> dels <> [] ->
  ecr_batch_delete_image repository_name (digests_to_delete dels) = inr tt ->
  let run := cleanup_old_images repository_name days_to_keep keep_latest region false in
  outcome run = inr tt /\
  EvApi "batch_delete_image" (repository_name :: digests_to_delete dels) ∈ trace run /\
  (newline ++ "Successfully deleted " ++ pretty (length dels) ++ " images")%string
    ∈ printed (trace run) /\
  length (digests_to_delete dels) +
    count_if (fun img => bool_decide (image_image_id img ≫= image_digest = None)) dels =
  length dels.
Proof.
  intros Hc Hl Hne Hg Hd Hp Hdne Hdel run. subst run. cleanup_prefix Hc Hl Hg.
  unfold deletion_plan in Hp.
  destruct (sort_newest_first imgs) as [|sorted]; [done|]. cleanup_eval.
  rewrite Hd. cleanup_eval. cbn [exc_bind] in Hp. rewrite Hp. cleanup_eval.
  destruct dels as [|d dels']; [done|]. rewrite Hdel. cleanup_eval.
  split_and!; [done|set_solver| |apply digests_to_delete_length].
  unfold printed. cbn [omap]. set_solver.
Qed.

(** C36: what a dry run prints.  On a run without [--execute] that
    reaches a non-empty deletion plan, the run ends normally after the
    three read calls, and prints the repository, the number of images,
    the kept and the planned counts, then "[DRY RUN] Would delete:", the
    tag (or "untagged") of the first five planned images, and, when more
    than five are planned, how many more. *)
Theorem dry_run_listing repository_name days_to_keep keep_latest region
    pages imgs cutoff dels :
  ecr_client region = inr tt ->
  ecr_list_images repository_name = inr pages -> concat pages <> [] ->
  ecr_batch_get_image repository_name (concat pages) = inr imgs ->
  dt_sub_days ecr_utc_offset ecr_now days_to_keep = inr cutoff ->
  deletion_plan imgs keep_latest cutoff = inr dels -> dels <> [] ->
  let run := cleanup_old_images repository_name days_to_keep keep_latest region true in
  outcome run = inr tt /\
  api_calls (trace run) =
    [("client", ["ecr"; region]); ("list_images", [repository_name]);
     ("batch_get_image", [repository_name])] /\
  printed (trace run) =
    [("Scanning repository: " ++ repository_name)%string;
     ("Found " ++ pretty (length (concat pages)) ++ " images")%string;
     (newline ++ "Images to keep (latest " ++ pretty keep_latest ++ "): " ++
        pretty (length (py_slice_upto (sort_desc imgs) keep_latest)))%string;
     ("Images to delete (older than " ++ pretty days_to_keep ++ " days): " ++
        pretty (length dels))%string;
     (newline ++ "[DRY RUN] Would delete:")%string] ++
    map (fun img => "  - " ++ image_tag_or_untagged img)%string (take 5 dels) ++
    (if Nat.ltb 5 (length dels)
     then [("  ... and " ++ pretty (length dels - 5) ++ " more")%string] else []).
Proof.
  intros Hc Hl Hne Hg Hd Hp Hdne run. subst run. cleanup_prefix Hc Hl Hg.
  unfold deletion_plan in Hp. unfold sort_newest_first in *.
  destruct (mixed_keys imgs); [done|]. cleanup_eval.
  rewrite Hd. cleanup_eval. cbn [exc_bind] in Hp. rewrite Hp. cleanup_eval.
  destruct dels as [|d dels']; [done|]. rewrite for_print. cleanup_eval.
  rewrite (map_print_events (fun x => "  - " ++ image_tag_or_untagged x)%string).
  split; [by destruct (Nat.ltb 5 _)|].
  destruct (Nat.ltb 5 _); cleanup_eval; trace_eval; (split; [done|]);
    rewrite ?app_nil_r; reflexivity.
Qed.
End Calls.

(** ** Runs on a test client *)

(** A client that lists the given images on one page, returns them from
    [batch_get_image], accepts every deletion, and reads the clock at
    2026-01-01 00:00 UTC. *)
Definition test_client (imgs : list image) : EcrClient :=
  {| ecr_client := fun _ => inr tt;
     ecr_list_images := fun _ =>
       inr [map (fun img => default (mk_image_id None None) (image_image_id img)) imgs];
     ecr_batch_get_image := fun _ _ => inr imgs;
     ecr_batch_delete_image := fun _ _ => inr tt;
     ecr_now := mk_datetime 1767225600 true;
     ecr_utc_offset := 0 |}.

Definition pushed (digest tag : string) (seconds : Z) : image :=
  mk_image (Some (mk_image_id (Some digest) (Some tag))) (Some (mk_datetime seconds true)).

(** Images as [batch_get_image] returns them: no [imagePushedAt]. *)
Definition fetched (digest tag : string) : image :=
  mk_image (Some (mk_image_id (Some digest) (Some tag))) None.

Definition fetched_images : list image :=
  [fetched "sha256:01" "v1"; fetched "sha256:02" "v2"; fetched "sha256:03" "v3"].

(** Witness of C22: on what [batch_get_image] really returns, even with
    [--execute] and [--keep-latest 0], nothing is deleted. *)
Lemma no_push_dates_nothing_deleted_witness :
  trace_only (fun ev => ~ is_delete_call ev)
    (@cleanup_old_images (test_client fetched_images) "web" 30 0 "us-east-1" false).
Proof.
  apply (@no_push_dates_nothing_deleted (test_client fetched_images)).
  intros ids imgs [= <-]. repeat constructor.
Defined.

(** Three images pushed in 2023, 2025-12-20 and 2023 again. *)
Definition dated_images : list image :=
  [pushed "sha256:a1" "v1" 1700000000; pushed "sha256:b2" "v2" 1766188800;
   pushed "sha256:c3" "v3" 1700000000].

(** Witness of C21: keep the newest image, cut at 30 days before
    2026-01-01. *)
Lemma deletion_plan_spec_witness :
  deletion_plan dated_images 1 (mk_datetime 1764633600 true) =
    inr (List.filter (older_than (mk_datetime 1764633600 true))
           (py_slice_from (sort_desc dated_images) 1)) /\
  Forall (fun img => exists p, image_pushed_at img = Some p /\
                       (dt_seconds p < dt_seconds (mk_datetime 1764633600 true))%Z)
    (List.filter (older_than (mk_datetime 1764633600 true))
       (py_slice_from (sort_desc dated_images) 1)).
Proof.
  apply deletion_plan_spec; [reflexivity|].
  repeat constructor; by intros p [= <-].
Defined.

(** Witness of C23: an image from [describe_images] next to one from
    [batch_get_image]. *)
Lemma mixed_push_dates_type_error_witness :
  let client := test_client [pushed "sha256:a1" "v1" 1700000000; fetched "sha256:02" "v2"] in
  outcome (@cleanup_old_images client "web" 30 10 "us-east-1" false) = inl naive_aware_error /\
  trace_only (fun ev => ~ is_delete_call ev) (@cleanup_old_images client "web" 30 10 "us-east-1" false).
Proof.
  eapply (@mixed_push_dates_type_error
           (test_client [pushed "sha256:a1" "v1" 1700000000; fetched "sha256:02" "v2"])
           "web" 30 10 "us-east-1" false _
           [pushed "sha256:a1" "v1" 1700000000; fetched "sha256:02" "v2"]
           (pushed "sha256:a1" "v1" 1700000000) (fetched "sha256:02" "v2")
           (mk_datetime 1700000000 true)); try reflexivity; try discriminate; set_solver.
Defined.

(** Two old images, the second without a digest. *)
Definition digestless_images : list image :=
  [pushed "sha256:a1" "v1" 1700000000;
   mk_image (Some (mk_image_id None (Some "v0"))) (Some (mk_datetime 1600000000 true))].

(** Witness of C24: the run deletes one digest and reports two images. *)
Lemma deleted_count_overstated_witness :
  let run := @cleanup_old_images (test_client digestless_images) "web" 30 0 "us-east-1" false in
  outcome run = inr tt /\
  EvApi "batch_delete_image" ("web" :: digests_to_delete digestless_images) ∈ trace run /\
  (newline ++ "Successfully deleted " ++ pretty (length digestless_images) ++ " images")%string
    ∈ printed (trace run) /\
  length (digests_to_delete digestless_images) +
    count_if (fun img => bool_decide (image_image_id img ≫= image_digest = None))
      digestless_images =
  length digestless_images.
Proof.
  eapply (@deleted_count_overstated (test_client digestless_images) "web" 30 0 "us-east-1"
           _ digestless_images (mk_datetime 1764633600 true) digestless_images);
    try reflexivity; discriminate.
Defined.

(** The plan on [dated_images] for 30 days and [--keep-latest 0]: the two
    images of 2023, in the order of the stable sort. *)
Definition dated_plan : list image :=
  [pushed "sha256:a1" "v1" 1700000000; pushed "sha256:c3" "v3" 1700000000].

(** Witness of C36: the dry run on [dated_images]. *)
Lemma dry_run_listing_witness :
  let run := @cleanup_old_images (test_client dated_images) "web" 30 0 "us-east-1" true in
  outcome run = inr tt /\
  api_calls (trace run) =
    [("client", ["ecr"; "us-east-1"]); ("list_images", ["web"]); ("batch_get_image", ["web"])] /\
  printed (trace run) =
    [("Scanning repository: " ++ "web")%string;
     ("Found " ++ pretty (length (concat [map (fun img => default (mk_image_id None None)
                                                 (image_image_id img)) dated_images])) ++
      " images")%string;
     (newline ++ "Images to keep (latest " ++ pretty 0%Z ++ "): " ++
        pretty (length (py_slice_upto (sort_desc dated_images) 0)))%string;
     ("Images to delete (older than " ++ pretty 30%Z ++ " days): " ++
        pretty (length dated_plan))%string;
     (newline ++ "[DRY RUN] Would delete:")%string] ++
    map (fun img => "  - " ++ image_tag_or_untagged img)%string (take 5 dated_plan) ++
    (if Nat.ltb 5 (length dated_plan)
     then [("  ... and " ++ pretty (length dated_plan - 5) ++ " more")%string] else []).
Proof.
  eapply (@dry_run_listing (test_client dated_images) "web" 30 0 "us-east-1"
            _ dated_images (mk_datetime 1764633600 true) dated_plan); try reflexivity; discriminate.
Defined.

