(* ===== verification/CostReport.v ===== *)
(** * The cost report: [generate_cost_report] ([cost_report.py], lines 10-126)

    The boto3 Cost Explorer client is the interface [CostExplorer]: the
    creation of the client ([boto3.client('ce')]), the answer of
    [get_cost_and_usage] to a request (the keyword arguments, as the dict
    they form), and the clock.  The script calls [datetime.now()] twice
    (lines 80 and 81); [ce_now k] is the date the [k]-th call reads, as a
    proleptic ordinal ([PyDate]).  Each API call is recorded as an [EvApi]
    event carrying the [repr] of its request.

    [generate_cost_report] is modelled statement by statement: the two
    dates, the header, and the three sections, each in its own
    [try]/[except Exception] that prints the error and lets the report go
    on.  The EC2 section prints one line per group of every day; the EKS
    and ECR sections add the daily totals as Python floats ([PyFloat])
    starting from the [int] [0] and print the sum with [:.2f]. *)

From Stdlib Require Import ZArith Lia.
From stdpp Require Import base list strings pretty.
From S2P Require Import Prelude PyJson PyDate PyFloat.

#[local] Set Warnings "-clear-no-such-hyp".
#[local] Open Scope Z_scope.

Class CostExplorer := {
  ce_client : Exc unit;
  ce_get_cost_and_usage : pyval -> Exc pyval;
  ce_now : nat -> Z
}.

(** ** The requests (lines 14-69) *)

Definition time_period (start_date end_date : string) : pyval :=
  PDict [("Start", PStr start_date); ("End", PStr end_date)].

Definition service_filter (service : string) : pyval :=
  PDict [("Dimensions", PDict [("Key", PStr "SERVICE"); ("Values", PList [PStr service])])].

(** The keyword arguments of [get_ec2_costs], lines 16-32. *)
Definition ec2_request (start_date end_date : string) : pyval :=
  PDict [("TimePeriod", time_period start_date end_date);
         ("Granularity", PStr "DAILY");
         ("Metrics", PList [PStr "BlendedCost"]);
         ("Filter", service_filter "Amazon Elastic Compute Cloud - Compute");
         ("GroupBy", PList [PDict [("Type", PStr "DIMENSION"); ("Key", PStr "INSTANCE_TYPE")]])].

(** Lines 37-50. *)
Definition eks_request (start_date end_date : string) : pyval :=
  PDict [("TimePeriod", time_period start_date end_date);
         ("Granularity", PStr "DAILY");
         ("Metrics", PList [PStr "BlendedCost"]);
         ("Filter", service_filter "Amazon Elastic Container Service for Kubernetes")].

(** Lines 55-68. *)
Definition ecr_request (start_date end_date : string) : pyval :=
  PDict [("TimePeriod", time_period start_date end_date);
         ("Granularity", PStr "DAILY");
         ("Metrics", PList [PStr "BlendedCost"]);
         ("Filter", service_filter "Amazon EC2 Container Registry (ECR)")].

Section WithClient.
Context `{CostExplorer}.

(** The call [ce_client.get_cost_and_usage] with the keyword arguments [request]. *)
Definition get_cost_and_usage (request : pyval) : PyM pyval :=
  emit (EvApi "get_cost_and_usage" [py_repr request]);;
  lift (ce_get_cost_and_usage request).

Definition get_ec2_costs (start_date end_date : string) : PyM pyval :=
  get_cost_and_usage (ec2_request start_date end_date).

Definition get_eks_costs (start_date end_date : string) : PyM pyval :=
  get_cost_and_usage (eks_request start_date end_date).

Definition get_ecr_costs (start_date end_date : string) : PyM pyval :=
  get_cost_and_usage (ecr_request start_date end_date).

(** [get_cost_explorer_client()], line 12. *)
Definition get_cost_explorer_client : PyM unit :=
  emit (EvApi "client" ["ce"]);; lift ce_client.

End WithClient.

(** ** The sections (lines 86-123) *)

(** [x.get('ResultsByTime', [])], iterated. *)
Definition results_by_time (response : pyval) : Exc (list pyval) :=
  let? r := py_get response "ResultsByTime" (PList []) in py_iter r.

(** Lines 93-95: the instance type and the amount of one group. *)
Definition group_line (group : pyval) : Exc string :=
  let? keys := py_get group "Keys" (PList [PStr "Unknown"]) in
  let? instance_type := py_index keys 0 in
  let? metrics := py_get group "Metrics" (PDict []) in
  let? blended := py_get metrics "BlendedCost" (PDict []) in
  let? cost := py_get blended "Amount" (PStr "0") in
  let? amount := py_float cost in
  inr ("  " ++ py_str instance_type ++ ": $" ++ format_2f amount)%string.

(** Lines 91-95: the loops of the EC2 section. *)
Definition ec2_lines (response : pyval) : PyM unit :=
  let* results := lift (results_by_time response) in
  for_ results (fun result =>
    let* groups := lift (let? g := py_get result "Groups" (PList []) in py_iter g) in
    for_ groups (fun group => let* line := lift (group_line group) in print line)).

(** Lines 106-107 (and 119-120): the body of the loop over the days. *)
Definition add_day_total (total : pynum) (result : pyval) : Exc pynum :=
  let? t := py_get result "Total" (PDict []) in
  let? blended := py_get t "BlendedCost" (PDict []) in
  let? amount := py_get blended "Amount" (PStr "0") in
  let? cost := py_float amount in
  num_iadd_float total cost.

(** Lines 104-107 (and 117-120): [total = 0], then [total += cost] over
    the days. *)
Definition total_blended_cost (results : list pyval) : Exc pynum :=
  foldM add_day_total (PyIntNum 0) results.

(** Lines 105-108: the loop and the total line of the EKS and ECR
    sections, labelled [what]. *)
Definition total_line (what : string) (response : pyval) : Exc string :=
  let? results := results_by_time response in
  let? total := total_blended_cost results in
  let? s := format_2f_num total in
  inr ("  Total " ++ what ++ ": $" ++ s)%string.

(** The handler [except Exception as e: print(f"  Error retrieving ...")]. *)
Definition report_error (what : string) (e : exc) : option (PyM unit) :=
  if is_Exception e
  then Some (print ("  Error retrieving " ++ what ++ " costs: " ++ exc_str e)%string)
  else None.

Definition dashes : string := str_repeat "-" 60.
Definition equals_rule : string := str_repeat "=" 60.

Section Report.
Context `{CostExplorer}.

(** Lines 89-97. *)
Definition ec2_section (start_date end_date : string) : PyM unit :=
  try_except
    (let* ec2_costs := get_ec2_costs start_date end_date in ec2_lines ec2_costs)
    (report_error "EC2").

(** Lines 102-110. *)
Definition eks_section (start_date end_date : string) : PyM unit :=
  try_except
    (let* eks_costs := get_eks_costs start_date end_date in
     let* line := lift (total_line "EKS" eks_costs) in print line)
    (report_error "EKS").

(** Lines 115-123. *)
Definition ecr_section (start_date end_date : string) : PyM unit :=
  try_except
    (let* ecr_costs := get_ecr_costs start_date end_date in
     let* line := lift (total_line "ECR" ecr_costs) in print line)
    (report_error "ECR").

(** Lines 71-126, [generate_cost_report(days)]. *)
Definition generate_cost_report (days : Z) : PyM unit :=
  get_cost_explorer_client;;
  let end_date := strftime_ymd (ord_to_ymd (ce_now 0)) in
  let* start := lift (sub_days (ce_now 1) days) in
  let start_date := strftime_ymd (ord_to_ymd start) in
  print ("Cost Report: " ++ start_date ++ " to " ++ end_date ++ newline)%string;;
  print equals_rule;;
  print (newline ++ "EC2 Instance Costs:")%string;;
  print dashes;;
  ec2_section start_date end_date;;
  print (newline ++ "EKS Cluster Costs:")%string;;
  print dashes;;
  eks_section start_date end_date;;
  print (newline ++ "ECR Storage Costs:")%string;;
  print dashes;;
  ecr_section start_date end_date;;
  print (newline ++ equals_rule)%string;;
  print "Note: Cost data may take up to 24 hours to appear".

End Report.

(** ** The sections, one at a time *)

(** What the line of an EKS or ECR section says, given what its call and
    its loop return. *)
Definition section_line (what : string) (r : Exc string) : string :=
  match r with
  | inr line => line
  | inl e => ("  Error retrieving " ++ what ++ " costs: " ++ exc_str e)%string
  end.

Definition is_print (ev : event) : Prop := match ev with EvPrint _ => True | _ => False end.

Lemma api_calls_only_prints {A} (m : PyM A) : trace_only is_print m -> api_calls (trace m) = [].
Proof. unfold trace_only. induction 1 as [|ev w Hev _ IH]; [done|]. by destruct ev. Qed.

Lemma results_by_time_exc r : raises_only Exception (results_by_time r).
Proof. unfold results_by_time. solve_raises. Qed.

Lemma group_line_exc g : raises_only Exception (group_line g).
Proof. unfold group_line. solve_raises. Qed.

Lemma total_line_exc what r : raises_only Exception (total_line what r).
Proof. unfold total_line, total_blended_cost, add_day_total. solve_raises; apply results_by_time_exc. Qed.

Lemma ec2_lines_exc r : raises_only Exception (outcome (ec2_lines r)).
Proof. unfold ec2_lines. solve_raises_outcome; apply results_by_time_exc || apply group_line_exc. Qed.

Lemma ec2_lines_prints r : trace_only is_print (ec2_lines r).
Proof. unfold ec2_lines, print. solve_trace idtac. Qed.

(** A [try] block that raises only what [except Exception] catches ends
    normally, after the lines of the block and the error line. *)
Lemma try_report_spec (m : PyM unit) what :
  raises_only Exception (outcome m) ->
  outcome (try_except m (report_error what)) = inr tt /\
  printed (trace (try_except m (report_error what))) =
    printed (trace m) ++ match outcome m with
                         | inr _ => [] | inl e => [section_line what (inl e)] end.
Proof.
  destruct m as [w [e|[]]]; intros Hm; simpl; [|by rewrite app_nil_r].
  unfold report_error. rewrite (Hm e eq_refl). simpl. by rewrite printed_app.
Qed.

Section Sections.
Context `{CostExplorer}.
Hypothesis client_raises : forall request, raises_only Exception (ce_get_cost_and_usage request).

Lemma get_cost_and_usage_exc request : raises_only Exception (outcome (get_cost_and_usage request)).
Proof. apply client_raises. Qed.

Definition total_section_result (what : string) (request : pyval) : Exc string :=
  let? response := ce_get_cost_and_usage request in total_line what response.

(** An EKS or ECR section prints one line: its total or its error. *)
Lemma total_section_spec what request :
  let m := try_except (let* costs := get_cost_and_usage request in
                       let* line := lift (total_line what costs) in print line)
                      (report_error what) in
  outcome m = inr tt /\ printed (trace m) = [section_line what (total_section_result what request)].
Proof.
  cbv zeta. unfold get_cost_and_usage, total_section_result, report_error.
  pose proof (client_raises request) as Hc.
  destruct (ce_get_cost_and_usage request) as [e|resp]; simpl.
  - by rewrite (Hc e eq_refl).
  - pose proof (total_line_exc what resp) as Ht.
    destruct (total_line what resp) as [e|line]; simpl; [by rewrite (Ht e eq_refl)|done].
Qed.

Lemma ec2_section_outcome start_date end_date : outcome (ec2_section start_date end_date) = inr tt.
Proof.
  apply try_report_spec. apply raises_only_outcome_bind; [apply get_cost_and_usage_exc|].
  apply ec2_lines_exc.
Qed.

(** Each section issues its one request, whatever it receives. *)
Lemma api_calls_section request (k : pyval -> PyM unit) what :
  (forall v, trace_only is_print (k v)) ->
  api_calls (trace (try_except (let* c := get_cost_and_usage request in k c) (report_error what))) =
    [("get_cost_and_usage", [py_repr request])].
Proof.
  intros Hk. unfold get_cost_and_usage, report_error.
  destruct (ce_get_cost_and_usage request) as [e|v]; simpl.
  - by destruct (is_Exception e).
  - pose proof (api_calls_only_prints (k v) (Hk v)) as Ha.
    destruct (k v) as [w [e|[]]]; simpl in *; [destruct (is_Exception e); simpl|];
      rewrite ?api_calls_app, Ha; done.
Qed.

Lemma eks_section_spec start_date end_date :
  outcome (eks_section start_date end_date) = inr tt /\
  printed (trace (eks_section start_date end_date)) =
    [section_line "EKS" (total_section_result "EKS" (eks_request start_date end_date))].
Proof. exact (total_section_spec "EKS" (eks_request start_date end_date)). Qed.

Lemma ecr_section_spec start_date end_date :
  outcome (ecr_section start_date end_date) = inr tt /\
  printed (trace (ecr_section start_date end_date)) =
    [section_line "ECR" (total_section_result "ECR" (ecr_request start_date end_date))].
Proof. exact (total_section_spec "ECR" (ecr_request start_date end_date)). Qed.

Definition report_header (start_date end_date : string) : string :=
  ("Cost Report: " ++ start_date ++ " to " ++ end_date ++ newline)%string.

(** A run whose client and dates are obtained: its events are those of the
    three sections between the fixed lines of the report. *)
Lemma generate_cost_report_run days start :
  ce_client = inr tt -> sub_days (ce_now 1) days = inr start ->
  let sd := strftime_ymd (ord_to_ymd start) in
  let ed := strftime_ymd (ord_to_ymd (ce_now 0)) in
  generate_cost_report days =
    (EvApi "client" ["ce"] ::
     map EvPrint [report_header sd ed; equals_rule; (newline ++ "EC2 Instance Costs:")%string; dashes] ++
     trace (ec2_section sd ed) ++
     map EvPrint [(newline ++ "EKS Cluster Costs:")%string; dashes] ++ trace (eks_section sd ed) ++
     map EvPrint [(newline ++ "ECR Storage Costs:")%string; dashes] ++ trace (ecr_section sd ed) ++
     map EvPrint [(newline ++ equals_rule)%string; "Note: Cost data may take up to 24 hours to appear"],
     inr tt).
Proof.
  intros Hc Hs. cbv zeta. unfold generate_cost_report, get_cost_explorer_client.
  rewrite Hc, Hs. cbn [bind lift emit print]. cbv zeta.
  set (sd := strftime_ymd (ord_to_ymd start)). set (ed := strftime_ymd (ord_to_ymd (ce_now 0))).
  pose proof (ec2_section_outcome sd ed) as H1. destruct (ec2_section sd ed) as [w1 r1]; simpl in H1; subst r1.
  pose proof (eks_section_spec sd ed) as [H2 _]. destruct (eks_section sd ed) as [w2 r2]; simpl in H2; subst r2.
  pose proof (ecr_section_spec sd ed) as [H3 _]. destruct (ecr_section sd ed) as [w3 r3]; simpl in H3; subst r3.
  simpl. done.
Qed.

End Sections.

(** ** A whole report *)

Lemma sub_days_inr o days start :
  sub_days o days = inr start -> start = o - days /\ 1 <= start <= max_ordinal.
Proof.
  unfold sub_days, timedelta_days. destruct (max_delta_days <? Z.abs days); [done|]. cbn [exc_bind].
  destruct (1 <=? o - days) eqn:E1, (o - days <=? max_ordinal) eqn:E2; intros; simplify_eq/=; lia.
Qed.

Lemma total_section_prints what request :
  trace_only is_print (let* line := lift (total_line what request) in print line).
Proof. unfold print. solve_trace idtac. Qed.

Section SectionCalls.
Context `{CostExplorer}.

Lemma api_calls_ec2_section sd ed :
  api_calls (trace (ec2_section sd ed)) = [("get_cost_and_usage", [py_repr (ec2_request sd ed)])].
Proof. exact (api_calls_section (ec2_request sd ed) ec2_lines "EC2" ec2_lines_prints). Qed.

Lemma api_calls_eks_section sd ed :
  api_calls (trace (eks_section sd ed)) = [("get_cost_and_usage", [py_repr (eks_request sd ed)])].
Proof. exact (api_calls_section (eks_request sd ed) _ "EKS" (total_section_prints "EKS")). Qed.

Lemma api_calls_ecr_section sd ed :
  api_calls (trace (ecr_section sd ed)) = [("get_cost_and_usage", [py_repr (ecr_request sd ed)])].
Proof. exact (api_calls_section (ecr_request sd ed) _ "ECR" (total_section_prints "ECR")). Qed.

End SectionCalls.

Section Claims.
Context `{CostExplorer}.
Hypothesis client_raises : forall request, raises_only Exception (ce_get_cost_and_usage request).

(** C25: the three sections are isolated.  Once the client is created and
    the start date computed, [generate_cost_report] always ends normally:
    it prints the header, the EC2 lines, one line for EKS and one for ECR
    (the total, or the error that stopped the section) and the closing
    note, whatever the Cost Explorer answers or raises. *)
Theorem cost_report_sections days start :
  ce_client = inr tt -> sub_days (ce_now 1) days = inr start ->
  let sd := strftime_ymd (ord_to_ymd start) in
  let ed := strftime_ymd (ord_to_ymd (ce_now 0)) in
  outcome (generate_cost_report days) = inr tt /\
  printed (trace (generate_cost_report days)) =
    [report_header sd ed; equals_rule; (newline ++ "EC2 Instance Costs:")%string; dashes] ++
    printed (trace (ec2_section sd ed)) ++
    [(newline ++ "EKS Cluster Costs:")%string; dashes;
     section_line "EKS" (total_section_result "EKS" (eks_request sd ed));
     (newline ++ "ECR Storage Costs:")%string; dashes;
     section_line "ECR" (total_section_result "ECR" (ecr_request sd ed));
     (newline ++ equals_rule)%string; "Note: Cost data may take up to 24 hours to appear"].
Proof.
  intros Hc Hs. cbv zeta. rewrite (generate_cost_report_run client_raises days start Hc Hs).
  set (sd := strftime_ymd (ord_to_ymd start)). set (ed := strftime_ymd (ord_to_ymd (ce_now 0))).
  split; [done|].
  pose proof (proj2 (eks_section_spec client_raises sd ed)) as E2.
  pose proof (proj2 (ecr_section_spec client_raises sd ed)) as E3.
  cbn [trace fst]. rewrite printed_api_cons, !printed_app, !printed_map_print, E2, E3. done.
Qed.

(** C26: the requests.  A report issues exactly three [get_cost_and_usage]
    calls after creating the client, for EC2 (grouped by instance type),
    EKS and ECR in this order, each for the same daily [TimePeriod] and
    the blended cost, also when an earlier call failed. *)
Theorem cost_report_requests days start :
  ce_client = inr tt -> sub_days (ce_now 1) days = inr start ->
  let sd := strftime_ymd (ord_to_ymd start) in
  let ed := strftime_ymd (ord_to_ymd (ce_now 0)) in
  api_calls (trace (generate_cost_report days)) =
    [("client", ["ce"]);
     ("get_cost_and_usage", [py_repr (ec2_request sd ed)]);
     ("get_cost_and_usage", [py_repr (eks_request sd ed)]);
     ("get_cost_and_usage", [py_repr (ecr_request sd ed)])].
Proof.
  intros Hc Hs. cbv zeta. rewrite (generate_cost_report_run client_raises days start Hc Hs).
  cbn [trace fst]. rewrite api_calls_api_cons, !api_calls_app, !api_calls_map_print.
  rewrite api_calls_ec2_section, api_calls_eks_section, api_calls_ecr_section. done.
Qed.

(** C27: the reporting window.  The header names two valid dates: the
    date of the second clock reading minus [days], and the date of the
    first reading.  Read back as ordinals they are
    [days + (first - second)] days apart: exactly [days] when both
    readings fall on the same day, one day less when midnight passes
    between lines 80 and 81, and a window that ends before it starts when
    [days] is negative. *)
Theorem report_window days start :
  ce_client = inr tt -> sub_days (ce_now 1) days = inr start ->
  1 <= ce_now 0 ->
  head (printed (trace (generate_cost_report days))) =
    Some (report_header (strftime_ymd (ord_to_ymd start)) (strftime_ymd (ord_to_ymd (ce_now 0)))) /\
  valid_ymd (ord_to_ymd start) = true /\ valid_ymd (ord_to_ymd (ce_now 0)) = true /\
  ymd_to_ord (ord_to_ymd (ce_now 0)) - ymd_to_ord (ord_to_ymd start) = days + (ce_now 0 - ce_now 1).
Proof.
  intros Hc Hs Hnow. rewrite (generate_cost_report_run client_raises days start Hc Hs).
  destruct (sub_days_inr _ _ _ Hs) as [-> Hb].
  destruct (ord_to_ymd_spec (ce_now 1 - days)) as [Hv1 Ho1]; [lia|].
  destruct (ord_to_ymd_spec (ce_now 0)) as [Hv0 Ho0]; [lia|].
  split_and!; [done..|lia].
Qed.

End Claims.

(** C28: a [--days] the calendar cannot subtract ends the script.  When
    [timedelta(days=days)] exceeds [MAX_DELTA_DAYS] or the start date
    falls outside years 1 to 9999, line 81 raises [OverflowError] outside
    every [try]: nothing is printed and the script ends with a
    traceback. *)
Theorem report_date_overflow `{CostExplorer} days :
  ce_client = inr tt ->
  max_delta_days < Z.abs days \/ ce_now 1 - days < 1 \/ max_ordinal < ce_now 1 - days ->
  (exists msg, outcome (generate_cost_report days) = inl (OverflowError msg)) /\
  printed (trace (generate_cost_report days)) = [].
Proof.
  intros Hc Hd. unfold generate_cost_report, get_cost_explorer_client. rewrite Hc.
  unfold sub_days, timedelta_days. destruct (max_delta_days <? Z.abs days) eqn:E1; [simpl; by split; [eexists|]|].
  cbn [exc_bind].
  destruct ((1 <=? ce_now 1 - days) && (ce_now 1 - days <=? max_ordinal)) eqn:E2;
    [apply andb_true_iff in E2 as [?%Z.leb_le ?%Z.leb_le]; apply Z.ltb_ge in E1; lia|].
  simpl. by split; [eexists|].
Qed.

(** ** The answers of Cost Explorer, typed *)

(** A [BlendedCost] metric, a group of the EC2 answer (its [Keys] and
    metrics) and one day of [ResultsByTime]; without [GroupBy] a day has
    a [Total] and no groups, with it the reverse. *)
Record metric := mk_metric { metric_amount : string; metric_unit : string }.

Record cost_group := mk_cost_group { group_keys : list string; group_cost : metric }.

Record cost_day := mk_cost_day {
  day_start : string;
  day_end : string;
  day_total : option metric;
  day_groups : list cost_group;
  day_estimated : bool
}.

Definition metric_to_py (m : metric) : pyval :=
  PDict [("BlendedCost", PDict [("Amount", PStr (metric_amount m)); ("Unit", PStr (metric_unit m))])].

Definition group_to_py (g : cost_group) : pyval :=
  PDict [("Keys", PList (map PStr (group_keys g))); ("Metrics", metric_to_py (group_cost g))].

Definition day_to_py (d : cost_day) : pyval :=
  PDict [("TimePeriod", time_period (day_start d) (day_end d));
         ("Total", match day_total d with Some m => metric_to_py m | None => PDict [] end);
         ("Groups", PList (map group_to_py (day_groups d)));
         ("Estimated", PBool (day_estimated d))].

(** The answer of [get_cost_and_usage]. *)
Definition response_to_py (days : list cost_day) : pyval :=
  PDict [("ResultsByTime", PList (map day_to_py days)); ("DimensionValueAttributes", PList [])].

(** The amount the EKS and ECR loops read of a day: ['0'] without a total. *)
Definition day_amount (d : cost_day) : string :=
  match day_total d with Some m => metric_amount m | None => "0" end.

(** The line of an EC2 group: its first key and its amount, or the
    [IndexError] of an empty [Keys] list, or the [ValueError] of an amount
    [float()] refuses. *)
Definition group_result (g : cost_group) : Exc string :=
  match group_keys g with
  | [] => inl (IndexError "list index out of range")
  | k :: _ =>
      let? x := py_float_of_str (metric_amount (group_cost g)) in
      inr ("  " ++ k ++ ": $" ++ format_2f x)%string
  end.

(** The lines of a section that prints one line per item and stops at the
    first error, followed by the error line of its handler. *)
Fixpoint lines_until_error (what : string) (rs : list (Exc string)) : list string :=
  match rs with
  | [] => []
  | inr line :: rs' => line :: lines_until_error what rs'
  | inl e :: _ => [section_line what (inl e)]
  end.

(** ** The loops on typed answers *)

Lemma results_by_time_encoded days : results_by_time (response_to_py days) = inr (map day_to_py days).
Proof. done. Qed.

Lemma add_day_total_encoded acc d :
  add_day_total acc (day_to_py d) = let? x := py_float_of_str (day_amount d) in num_iadd_float acc x.
Proof. destruct d as [? ? [[]|] ? ?]; reflexivity. Qed.

Lemma foldM_add_day_total_float f days :
  foldM add_day_total (PyFloatNum f) (map day_to_py days) =
  let? xs := mapM (fun d => py_float_of_str (day_amount d)) days in
  inr (PyFloatNum (foldl float_add f xs)).
Proof.
  revert f. induction days as [|d days IH]; intros f; [done|].
  cbn [map foldM mapM]. rewrite add_day_total_encoded.
  destruct (py_float_of_str (day_amount d)) as [e|x]; [done|]. simpl. rewrite IH.
  by destruct (mapM _ days).
Qed.

Lemma group_line_encoded g : group_line (group_to_py g) = group_result g.
Proof. destruct g as [[|k ks] [a u]]; reflexivity. Qed.

Fixpoint print_lines (rs : list (Exc string)) : PyM unit :=
  match rs with
  | [] => ret tt
  | inr line :: rs' => print line;; print_lines rs'
  | inl e :: _ => raise e
  end.

Lemma for_print_lines {A} (f : A -> Exc string) l :
  for_ l (fun x => let* line := lift (f x) in print line) = print_lines (map f l).
Proof. induction l as [|x l IH]; [done|]. cbn [for_ map print_lines]. rewrite IH. by destruct (f x). Qed.

Lemma print_lines_app rs1 rs2 : print_lines (rs1 ++ rs2) = (print_lines rs1;; print_lines rs2).
Proof.
  induction rs1 as [|[e|line] rs1 IH]; simpl.
  - by destruct (print_lines rs2).
  - done.
  - rewrite IH. unfold print, emit. simpl. destruct (print_lines rs1) as [w [e|[]]]; simpl; [done|].
    by destruct (print_lines rs2).
Qed.

Lemma for_print_lines_concat {A} (g : A -> list (Exc string)) l :
  for_ l (fun x => print_lines (g x)) = print_lines (concat (map g l)).
Proof.
  induction l as [|x l IH]; [done|]. cbn [for_ map concat]. by rewrite print_lines_app, IH.
Qed.

Lemma ec2_lines_encoded days :
  ec2_lines (response_to_py days) =
  print_lines (concat (map (fun d => map group_result (day_groups d)) days)).
Proof.
  unfold ec2_lines. rewrite results_by_time_encoded, bind_lift_inr, <- for_print_lines_concat.
  rewrite for_map. apply for_ext. intros d.
  change (py_get (day_to_py d) "Groups" (PList [])) with (inr (PList (map group_to_py (day_groups d))) : Exc pyval).
  cbn [exc_bind py_iter]. rewrite bind_lift_inr, for_print_lines, map_map. f_equal. apply map_ext, group_line_encoded.
Qed.

Lemma print_lines_exc rs :
  Forall (fun r => raises_only Exception r) rs -> raises_only Exception (outcome (print_lines rs)).
Proof.
  induction 1 as [|[e|line] rs Hr _ IH]; cbn [print_lines];
    [apply raises_only_inr|by apply raises_only_inl, Hr|].
  apply raises_only_outcome_bind; [apply raises_only_outcome_emit|done].
Qed.

Lemma printed_report_print_lines what rs :
  Forall (fun r => raises_only Exception r) rs ->
  printed (trace (try_except (print_lines rs) (report_error what))) = lines_until_error what rs.
Proof.
  intros Hrs. rewrite (proj2 (try_report_spec _ what (print_lines_exc rs Hrs))).
  induction rs as [|[e|line] rs IH]; simpl; [done|done|]. inversion Hrs; subst.
  destruct (print_lines rs) as [w r] eqn:E; simpl in *. rewrite <- IH by done. by destruct r.
Qed.

Lemma group_result_exc g : raises_only Exception (group_result g).
Proof. unfold group_result. case_match; [by apply raises_only_inl|]. solve_raises. Qed.

Lemma get_cost_and_usage_inr `{CostExplorer} request v (k : pyval -> PyM unit) :
  ce_get_cost_and_usage request = inr v ->
  (let* c := get_cost_and_usage request in k c) = (emit (EvApi "get_cost_and_usage" [py_repr request]);; k v).
Proof. intros Hr. unfold get_cost_and_usage. rewrite Hr. simpl. by destruct (k v). Qed.

Lemma printed_try_except_api op args (m : PyM unit) h :
  printed (trace (try_except (emit (EvApi op args);; m) h)) = printed (trace (try_except m h)).
Proof.
  destruct m as [w [e|a]]; simpl; [|done]. destruct (h e) as [[w' r']|]; done.
Qed.

(** C29: the EKS and ECR totals.  On a typed answer of Cost Explorer, the
    total line of lines 104-108 (and 117-121) is the left-to-right
    binary64 sum, from [0.0], of the daily amounts as [float()] reads
    them, formatted with [:.2f]; the first amount [float()] refuses
    raises its [ValueError] instead. *)
Theorem total_line_refines what (days : list cost_day) :
  total_line what (response_to_py days) =
    let? xs := mapM (fun d => py_float_of_str (day_amount d)) days in
    inr ("  Total " ++ what ++ ": $" ++ format_2f (foldl float_add float_zero xs))%string.
Proof.
  unfold total_line, total_blended_cost. rewrite results_by_time_encoded. cbn [exc_bind].
  destruct days as [|d days]; [reflexivity|]. cbn [map foldM mapM].
  rewrite add_day_total_encoded. destruct (py_float_of_str (day_amount d)) as [e|x]; [done|].
  cbn [exc_bind num_iadd_float int_to_float Z.eqb]. rewrite foldM_add_day_total_float.
  by destruct mapM.
Qed.

(** C30: the EC2 lines.  When Cost Explorer answers the EC2 request with
    a typed answer, the EC2 section prints one line per group of every day
    in order, and stops at the first group without a key ([IndexError])
    or with an amount [float()] refuses ([ValueError]), printing the error
    line instead of the remaining groups. *)
Theorem ec2_section_refines `{CostExplorer} start_date end_date (days : list cost_day) :
  ce_get_cost_and_usage (ec2_request start_date end_date) = inr (response_to_py days) ->
  printed (trace (ec2_section start_date end_date)) =
    lines_until_error "EC2" (map group_result (concat (map day_groups days))).
Proof.
  intros Hr. unfold ec2_section, get_ec2_costs.
  rewrite (get_cost_and_usage_inr _ _ ec2_lines Hr), printed_try_except_api, ec2_lines_encoded.
  rewrite concat_map, map_map. apply printed_report_print_lines.
  apply Forall_forall. intros r Hin. apply list_elem_of_In, in_concat in Hin as (rs & Hrs & Hin).
  apply in_map_iff in Hrs as (d & <- & _). apply in_map_iff in Hin as (g & <- & _).
  apply group_result_exc.
Qed.

(** ** A sample Cost Explorer *)

(** The service a request filters on. *)
Definition request_service (request : pyval) : string :=
  match request with
  | PDict kvs =>
      match dict_lookup "Filter" kvs with
      | Some (PDict [("Dimensions", PDict [_; ("Values", PList [PStr s])])]) => s
      | _ => EmptyString
      end
  | _ => EmptyString
  end.

Definition usd (amount : string) : metric := mk_metric amount "USD".

(** Two days of EC2 costs grouped by instance type; the second day has a
    group without a key. *)
Definition sample_ec2_days : list cost_day :=
  [mk_cost_day "2026-10-10" "2026-10-11" None
     [mk_cost_group ["t3.medium"] (usd "1.2345"); mk_cost_group ["m5.large"] (usd "2.675")] true;
   mk_cost_day "2026-10-11" "2026-10-12" None
     [mk_cost_group ["t3.medium"] (usd "1.2"); mk_cost_group [] (usd "0.5");
      mk_cost_group ["m5.large"] (usd "2.675")] true].

(** Three days of EKS totals, the last one without a total. *)
Definition sample_eks_days : list cost_day :=
  [mk_cost_day "2026-10-10" "2026-10-11" (Some (usd "0.1")) [] true;
   mk_cost_day "2026-10-11" "2026-10-12" (Some (usd "0.2")) [] true;
   mk_cost_day "2026-10-12" "2026-10-13" None [] true].

Definition sample_answer (request : pyval) : Exc pyval :=
  if String.eqb (request_service request) "Amazon Elastic Compute Cloud - Compute"
  then inr (response_to_py sample_ec2_days)
  else if String.eqb (request_service request) "Amazon Elastic Container Service for Kubernetes"
  then inr (response_to_py sample_eks_days)
  else inl (ClientError ("An error occurred (AccessDeniedException) when calling the " ++
                         "GetCostAndUsage operation: not authorized")%string).

(** Today is 2026-11-09, day 739929. *)
Definition sample_ce : CostExplorer :=
  {| ce_client := inr tt; ce_get_cost_and_usage := sample_answer; ce_now := fun _ => 739929 |}.

Lemma sample_answer_raises request : raises_only Exception (sample_answer request).
Proof. unfold sample_answer. repeat case_match; by apply raises_only_inr || apply raises_only_inl. Qed.

(** Witness of C25: the report of the sample for 30 days. *)
Lemma cost_report_sections_witness :
  (let sd := strftime_ymd (ord_to_ymd 739899) in
   let ed := strftime_ymd (ord_to_ymd (@ce_now sample_ce 0)) in
   outcome (@generate_cost_report sample_ce 30) = inr tt /\
   printed (trace (@generate_cost_report sample_ce 30)) =
     [report_header sd ed; equals_rule; (newline ++ "EC2 Instance Costs:")%string; dashes] ++
     printed (trace (@ec2_section sample_ce sd ed)) ++
     [(newline ++ "EKS Cluster Costs:")%string; dashes;
      section_line "EKS" (@total_section_result sample_ce "EKS" (eks_request sd ed));
      (newline ++ "ECR Storage Costs:")%string; dashes;
      section_line "ECR" (@total_section_result sample_ce "ECR" (ecr_request sd ed));
      (newline ++ equals_rule)%string; "Note: Cost data may take up to 24 hours to appear"]) /\
  printed (trace (@generate_cost_report sample_ce 30)) =
    [("Cost Report: 2026-10-10 to 2026-11-09" ++ newline)%string; equals_rule;
     (newline ++ "EC2 Instance Costs:")%string; dashes;
     "  t3.medium: $1.23"; "  m5.large: $2.67"; "  t3.medium: $1.20";
     "  Error retrieving EC2 costs: list index out of range";
     (newline ++ "EKS Cluster Costs:")%string; dashes; "  Total EKS: $0.30";
     (newline ++ "ECR Storage Costs:")%string; dashes;
     ("  Error retrieving ECR costs: An error occurred (AccessDeniedException) when " ++
      "calling the GetCostAndUsage operation: not authorized")%string;
     (newline ++ equals_rule)%string; "Note: Cost data may take up to 24 hours to appear"].
Proof.
  split; [|vm_compute; reflexivity].
  apply (@cost_report_sections sample_ce sample_answer_raises 30 739899);
    [reflexivity|vm_compute; reflexivity].
Defined.

(** Witness of C26, on the sample. *)
Lemma cost_report_requests_witness :
  api_calls (trace (@generate_cost_report sample_ce 30)) =
    [("client", ["ce"]);
     ("get_cost_and_usage", [py_repr (ec2_request "2026-10-10" "2026-11-09")]);
     ("get_cost_and_usage", [py_repr (eks_request "2026-10-10" "2026-11-09")]);
     ("get_cost_and_usage", [py_repr (ecr_request "2026-10-10" "2026-11-09")])].
Proof.
  apply (@cost_report_requests sample_ce sample_answer_raises 30 739899);
    [reflexivity|vm_compute; reflexivity].
Defined.

(** A clock that passes midnight between its two readings. *)
Definition midnight_ce : CostExplorer :=
  {| ce_client := inr tt; ce_get_cost_and_usage := sample_answer;
     ce_now := fun k => match k with O => 739929 | _ => 739930 end |}.

(** Witness of C27: across midnight, a 30-day report spans 29 days. *)
Lemma report_window_witness :
  head (printed (trace (@generate_cost_report midnight_ce 30))) =
    Some (report_header (strftime_ymd (ord_to_ymd 739900))
            (strftime_ymd (ord_to_ymd (@ce_now midnight_ce 0)))) /\
  valid_ymd (ord_to_ymd 739900) = true /\ valid_ymd (ord_to_ymd (@ce_now midnight_ce 0)) = true /\
  ymd_to_ord (ord_to_ymd (@ce_now midnight_ce 0)) - ymd_to_ord (ord_to_ymd 739900) =
    30 + (@ce_now midnight_ce 0 - @ce_now midnight_ce 1).
Proof.
  apply (@report_window midnight_ce sample_answer_raises 30 739900);
    [reflexivity|vm_compute; reflexivity|simpl; lia].
Defined.

(** Witness of C28: [--days 1000000000]. *)
Lemma report_date_overflow_witness :
  ((exists msg, outcome (@generate_cost_report sample_ce 1000000000) = inl (OverflowError msg)) /\
   printed (trace (@generate_cost_report sample_ce 1000000000)) = []) /\
  outcome (@generate_cost_report sample_ce 1000000000) =
    inl (OverflowError "days=1000000000; must have magnitude <= 999999999").
Proof.
  split; [|vm_compute; reflexivity].
  apply (@report_date_overflow sample_ce 1000000000); [reflexivity|left; vm_compute; reflexivity].
Defined.

(** Witness of C30: the EC2 section of the sample. *)
Lemma ec2_section_refines_witness :
  printed (trace (@ec2_section sample_ce "2026-10-10" "2026-11-09")) =
    lines_until_error "EC2" (map group_result (concat (map day_groups sample_ec2_days))).
Proof. by apply (@ec2_section_refines sample_ce). Defined.
