(* ===== verification/ArgParse.v ===== *)
(** * [argparse] and [int()]: the command lines of the three scripts

    Each script ends in an [if __name__ == '__main__':] block that builds an
    [argparse.ArgumentParser], declares its options with [add_argument] and
    calls [parse_args()] on [sys.argv[1:]].  This file models the part of
    CPython 3.12's [Lib/argparse.py] these parsers exercise, from the
    library's code: the classification of each argument string
    ([_parse_optional], [_get_option_tuples], the negative-number test),
    the consumption of optionals with their explicit [=] arguments and
    clusters of one-letter flags ([consume_optional]), the [store],
    [store_true] and [help] actions with [type=int] conversion
    ([_get_value]), defaults, the required-option check, the
    unrecognized-argument check, and the exit through [parser.error]
    (status 2) or [print_help] (status 0).  A [--] on the command line,
    or as the argument of an option, is stripped by [_get_values] in a
    way that differs between Python versions: [parse_args] returns
    [None] on such a command line.  The theorems show that every
    namespace [parse_args] returns gives each option a value of its
    type, or its default when the option is optional and not given
    ([parse_args_typed]), and which argument strings set a flag
    ([store_true_selected]).  [int()] of a string is the
    base-10 path of [PyLong_FromString] in [Objects/longobject.c],
    whitespace, sign, underscores and the 4300-digit limit included. *)

From Stdlib Require Import ssreflect ZArith Ascii Lia.
From stdpp Require Import base list strings numbers sets gmap pretty.
From S2P Require Import Prelude PyJson.

#[local] Set Warnings "-register-all -rewrite-rw".

(** ** [int(s)] for a string [s] *)

(** The characters [int()] strips: [Py_ISSPACE] (tab, newline, vertical
    tab, form feed, carriage return and space) and the separators
    [\x1c]-[\x1f], which [_PyUnicode_TransformDecimalAndSpaceToASCII]
    turns into spaces first. *)
Definition is_py_space (c : ascii) : bool :=
  let n := nat_of_ascii c in ((9 <=? n) && (n <=? 13)) || ((28 <=? n) && (n <=? 32)).

Definition digit_of (c : ascii) : option Z :=
  let n := nat_of_ascii c in
  if (48 <=? n) && (n <=? 57) then Some (Z.of_nat n - 48)%Z else None.

Definition is_digit (c : ascii) : bool := bool_decide (is_Some (digit_of c)).

Definition underscore : ascii := "_"%char.

Fixpoint lstrip_space (s : string) : string :=
  match s with
  | String c s' => if is_py_space c then lstrip_space s' else s
  | EmptyString => s
  end.

(** The longest prefix of digits and underscores, and the rest: the scan of
    [long_from_non_binary_base]. *)
Fixpoint span_digits (s : string) : string * string :=
  match s with
  | String c s' =>
      if is_digit c || Ascii.eqb c underscore then
        let '(run, rest) := span_digits s' in (String c run, rest)
      else (EmptyString, s)
  | EmptyString => (EmptyString, EmptyString)
  end.

(** An underscore must follow a digit and be followed by one: no leading,
    trailing or doubled underscore. *)
Fixpoint underscores_ok (prev_digit : bool) (s : string) : bool :=
  match s with
  | EmptyString => prev_digit
  | String c s' =>
      if Ascii.eqb c underscore then prev_digit && underscores_ok false s'
      else underscores_ok true s'
  end.

Fixpoint digits_value (acc : Z) (s : string) : Z :=
  match s with
  | EmptyString => acc
  | String c s' => digits_value (acc * 10 + default 0 (digit_of c))%Z s'
  end.

Fixpoint count_digits (s : string) : nat :=
  match s with
  | EmptyString => 0
  | String c s' => (if is_digit c then 1 else 0) + count_digits s'
  end.

(** [sys.get_int_max_str_digits()]: the default limit of Python 3.11 and
    later. *)
Definition max_str_digits : nat := 4300.

Definition int_literal_error (s : string) : exc :=
  ValueError ("invalid literal for int() with base 10: " ++ String.substring 0 200 (py_repr_str s)).

Definition int_limit_error (digits : nat) : exc :=
  ValueError ("Exceeds the limit (4300 digits) for integer string conversion: value has "
              ++ pretty digits ++ " digits; use sys.set_int_max_str_digits() to increase the limit").

(** What follows the sign: digits with single underscores between them,
    then optional whitespace.  The limit on the number of digits is checked
    once the digits are scanned, before what follows them. *)
Definition int_body (s : string) (neg : bool) (s2 : string) : Exc Z :=
  let '(run, rest) := span_digits s2 in
  if negb (underscores_ok false run) then inl (int_literal_error s)
  else if max_str_digits <? count_digits run then inl (int_limit_error (count_digits run))
  else if bool_decide (lstrip_space rest <> EmptyString) then inl (int_literal_error s)
  else let v := digits_value 0 run in inr (if neg then - v else v)%Z.

(** [int(s)]: optional whitespace, an optional sign, the body. *)
Definition py_int (s : string) : Exc Z :=
  let s1 := lstrip_space s in
  match s1 with
  | String "-" s2 => int_body s true s2
  | String "+" s2 => int_body s false s2
  | _ => int_body s false s1
  end.

(** *** [int(str(n))]: the decimal digits [str] prints *)

(** Case analysis on a decimal digit [d < 10], each case by computation. *)
Ltac digit_cases d :=
  assert (d = 0 ∨ d = 1 ∨ d = 2 ∨ d = 3 ∨ d = 4 ∨ d = 5 ∨ d = 6
          ∨ d = 7 ∨ d = 8 ∨ d = 9)%N as Hcases by lia;
  destruct_or! Hcases; subst; repeat split.

Lemma digit_of_pretty_N_char d : (d < 10)%N -> digit_of (pretty_N_char d) = Some (Z.of_N d).
Proof.
  intros Hd. digit_cases d.
Qed.

Lemma is_digit_pretty_N_char d : (d < 10)%N -> is_digit (pretty_N_char d) = true.
Proof. intros Hd. unfold is_digit. rewrite digit_of_pretty_N_char //. Qed.

(** What holds of a string and survives putting a digit in front of it
    holds of the decimal digits of any [x] written in front of it. *)
Lemma pretty_N_go_ind (P : string -> Prop) :
  (forall d s, (d < 10)%N -> P s -> P (String (pretty_N_char d) s)) ->
  forall x s, P s -> P (pretty_N_go x s).
Proof.
  intros Hstep x. induction (N.lt_wf_0 x) as [x _ IH]; intros s Hs.
  destruct (decide (x = 0%N)) as [->|Hx]; [done|].
  rewrite pretty_N_go_step; [lia|]. apply IH; [apply N.div_lt; lia|].
  apply Hstep; [apply N.mod_lt; lia|done].
Qed.

Lemma span_digits_pretty_N_go x : span_digits (pretty_N_go x "") = (pretty_N_go x "", "").
Proof.
  apply (pretty_N_go_ind (fun s => span_digits s = (s, ""))); [|done].
  intros d s Hd Hs. by rewrite /= is_digit_pretty_N_char // Hs.
Qed.

Lemma pretty_N_char_not_underscore d : (d < 10)%N -> Ascii.eqb (pretty_N_char d) underscore = false.
Proof.
  intros Hd. digit_cases d.
Qed.

Lemma pretty_N_go_nonempty x : x <> 0%N -> pretty_N_go x "" <> "".
Proof.
  intros Hx. rewrite pretty_N_go_step; [lia|].
  by apply (pretty_N_go_ind (fun t => t <> "")).
Qed.

Lemma underscores_ok_pretty_N_go x b : x <> 0%N -> underscores_ok b (pretty_N_go x "") = true.
Proof.
  intros Hx. revert b. rewrite pretty_N_go_step; [lia|].
  apply (pretty_N_go_ind (fun t => forall b, underscores_ok b t = true)).
  - intros d t Hd Ht b. by rewrite /= pretty_N_char_not_underscore.
  - intros b. rewrite /= pretty_N_char_not_underscore //. apply N.mod_lt; lia.
Qed.

Lemma count_digits_pretty_N_go x : count_digits (pretty_N_go x "") = String.length (pretty_N_go x "").
Proof.
  apply (pretty_N_go_ind (fun t => count_digits t = String.length t)); [|done].
  intros d t Hd Ht. by rewrite /= is_digit_pretty_N_char // Ht.
Qed.

Lemma digits_value_acc acc s : digits_value acc s = (acc * 10 ^ Z.of_nat (String.length s) + digits_value 0 s)%Z.
Proof.
  revert acc. induction s as [|c s IH]; intros acc; simpl; [lia|].
  rewrite IH (IH (0 * 10 + _)%Z) Nat2Z.inj_succ Z.pow_succ_r; lia.
Qed.

Lemma digits_value_pretty_N_go x s :
  digits_value 0 (pretty_N_go x s) = (Z.of_N x * 10 ^ Z.of_nat (String.length s) + digits_value 0 s)%Z.
Proof.
  revert s. induction (N.lt_wf_0 x) as [x _ IH]; intros s.
  destruct (decide (x = 0%N)) as [->|Hx]; [done|].
  rewrite pretty_N_go_step; [lia|]. rewrite IH; [apply N.div_lt; lia|].
  rewrite /= digit_of_pretty_N_char; [apply N.mod_lt; lia|].
  rewrite (digits_value_acc (_ + _)%Z) Nat2Z.inj_succ Z.pow_succ_r; [lia|].
  assert (Z.of_N x = 10 * Z.of_N (x `div` 10) + Z.of_N (x `mod` 10))%Z as Hx10.
  { rewrite N2Z.inj_div N2Z.inj_mod. apply Z.div_mod. lia. }
  rewrite [in RHS]Hx10 /=. ring.
Qed.

(** The number of digits of [x]: at most [k] exactly when [x < 10 ^ k]. *)
Lemma length_pretty_N_go_le x k :
  (Z.of_N x < 10 ^ Z.of_nat k)%Z -> String.length (pretty_N_go x "") <= k.
Proof.
  cut (forall s, (Z.of_N x < 10 ^ Z.of_nat k)%Z -> String.length (pretty_N_go x s) <= k + String.length s);
    [intros H Hx; pose proof (H "" Hx); simpl in *; lia|].
  revert k. induction (N.lt_wf_0 x) as [x _ IH]; intros k s Hk.
  destruct (decide (x = 0%N)) as [->|Hx]; [rewrite pretty_N_go_0; lia|].
  destruct k as [|k]; [simpl in Hk; lia|].
  rewrite pretty_N_go_step; [lia|].
  assert (Z.of_N (x `div` 10) < 10 ^ Z.of_nat k)%Z as Hk'.
  { rewrite N2Z.inj_div. apply Z.div_lt_upper_bound; [lia|].
    rewrite Nat2Z.inj_succ Z.pow_succ_r in Hk; lia. }
  pose proof (IH (x `div` 10)%N ltac:(apply N.div_lt; lia) k (String (pretty_N_char (x `mod` 10)%N) s) Hk').
  simpl in *; lia.
Qed.

Lemma length_pretty_N_go_gt x k :
  (10 ^ Z.of_nat k <= Z.of_N x)%Z -> k < String.length (pretty_N_go x "").
Proof.
  assert (forall y s, String.length s <= String.length (pretty_N_go y s)) as Hmono.
  { intros y s. apply (pretty_N_go_ind (fun t => String.length s <= String.length t)); [simpl; lia|done]. }
  cut (forall s, (10 ^ Z.of_nat k <= Z.of_N x)%Z -> k + String.length s < String.length (pretty_N_go x s));
    [intros H Hx; pose proof (H "" Hx); simpl in *; lia|].
  revert k. induction (N.lt_wf_0 x) as [x _ IH]; intros k s Hk.
  destruct (decide (x = 0%N)) as [->|Hx]; [pose proof (Z.pow_pos_nonneg 10 (Z.of_nat k)); simpl in *; lia|].
  rewrite pretty_N_go_step; [lia|].
  destruct k as [|k].
  - eapply Nat.lt_le_trans; [|apply Hmono]. simpl; lia.
  - assert (10 ^ Z.of_nat k <= Z.of_N (x `div` 10))%Z as Hk'.
    { rewrite N2Z.inj_div. apply Z.div_le_lower_bound; [lia|].
      rewrite Nat2Z.inj_succ Z.pow_succ_r in Hk; lia. }
    pose proof (IH (x `div` 10)%N ltac:(apply N.div_lt; lia) k (String (pretty_N_char (x `mod` 10)%N) s) Hk').
    simpl in *; lia.
Qed.

Lemma digit_cases_ascii c : is_digit c = true ->
  exists d, (d < 10)%N /\ c = pretty_N_char d.
Proof.
  unfold is_digit, digit_of. intros Hc.
  destruct ((48 <=? nat_of_ascii c) && (nat_of_ascii c <=? 57)) eqn:Hr; [|by apply bool_decide_eq_true_1 in Hc; destruct Hc].
  apply andb_true_iff in Hr as [H1 H2]. apply Nat.leb_le in H1, H2.
  rewrite -(ascii_nat_embedding c).
  exists (N.of_nat (nat_of_ascii c - 48)). split; [lia|].
  assert (nat_of_ascii c = 48 \/ nat_of_ascii c = 49 \/ nat_of_ascii c = 50 \/ nat_of_ascii c = 51
          \/ nat_of_ascii c = 52 \/ nat_of_ascii c = 53 \/ nat_of_ascii c = 54
          \/ nat_of_ascii c = 55 \/ nat_of_ascii c = 56 \/ nat_of_ascii c = 57) as Hcases by lia.
  destruct_or! Hcases; rewrite Hcases; reflexivity.
Qed.

(** A string that starts with a digit has no whitespace or sign to strip. *)
Lemma py_int_digit_head c s : is_digit c = true -> py_int (String c s) = int_body (String c s) false (String c s).
Proof. intros (d & Hd & ->)%digit_cases_ascii. unfold py_int. digit_cases d. Qed.

Lemma pretty_N_go_head x : x <> 0%N -> exists c s, pretty_N_go x "" = String c s /\ is_digit c = true.
Proof.
  intros Hx. rewrite pretty_N_go_step; [lia|].
  apply (pretty_N_go_ind (fun t => exists c s, t = String c s /\ is_digit c = true)).
  - intros d t Hd _. exists (pretty_N_char d), t. split; [done|]. by apply is_digit_pretty_N_char.
  - eexists _, _. split; [done|]. apply is_digit_pretty_N_char, N.mod_lt; lia.
Qed.

(** The body of [int()] on the decimal digits of [x]. *)
Lemma int_body_pretty_N_go s neg x : x <> 0%N ->
  int_body s neg (pretty_N_go x "") =
    if max_str_digits <? String.length (pretty_N_go x "")
    then inl (int_limit_error (String.length (pretty_N_go x "")))
    else inr (if neg then - Z.of_N x else Z.of_N x)%Z.
Proof.
  intros Hx. unfold int_body.
  rewrite span_digits_pretty_N_go underscores_ok_pretty_N_go // count_digits_pretty_N_go.
  rewrite digits_value_pretty_N_go /=. by rewrite Z.mul_1_r Z.add_0_r.
Qed.

Lemma py_int_pretty_cases z : z <> 0%Z ->
  py_int (pretty z) =
    let t := pretty_N_go (Z.to_N (Z.abs z)) "" in
    if max_str_digits <? String.length t then inl (int_limit_error (String.length t)) else inr z.
Proof.
  destruct z as [|p|p]; [done| |]; intros _; cbv zeta.
  - assert (pretty (Zpos p) = pretty_N_go (Npos p) "") as -> by done.
    destruct (pretty_N_go_head (Npos p)) as (c & t & Ht & Hc); [done|].
    rewrite Ht py_int_digit_head // -Ht int_body_pretty_N_go //.
  - assert (pretty (Zneg p) = String "-" (pretty_N_go (Npos p) "")) as -> by done.
    rewrite /py_int /= int_body_pretty_N_go //.
Qed.

(** ** Parsers: [ArgumentParser] and [add_argument] *)

(** The values an [argparse.Namespace] attribute holds here: [None],
    strings, [int]s and booleans. *)
Inductive arg_value := VNone | VStr (s : string) | VInt (n : Z) | VBool (b : bool).

#[export] Instance arg_value_eq_dec : EqDecision arg_value.
Proof. solve_decision. Defined.

(** [type=None] (the string itself) or [type=int]. *)
Inductive arg_type := TStr | TInt.

#[export] Instance arg_type_eq_dec : EqDecision arg_type.
Proof. solve_decision. Defined.

(** The three action classes of [Lib/argparse.py] the scripts use:
    [_StoreAction] (one argument, converted by [type], with its [default]),
    [_StoreTrueAction] ([action='store_true'], default [False]) and
    [_HelpAction] (added by [ArgumentParser] for [-h]/[--help]). *)
Inductive action_kind :=
| KStore (ty : arg_type) (default : arg_value)
| KStoreTrue
| KHelp.

#[export] Instance action_kind_eq_dec : EqDecision action_kind.
Proof. solve_decision. Defined.

Record action := mk_action {
  option_strings : list string;
  dest : string;
  kind : action_kind;
  required : bool
}.

#[export] Instance action_eq_dec : EqDecision action.
Proof.
  intros [o1 d1 k1 r1] [o2 d2 k2 r2].
  destruct (decide (o1 = o2)), (decide (d1 = d2)), (decide (k1 = k2)), (decide (r1 = r2));
    [left; by subst|right; congruence..].
Defined.

Record parser := mk_parser { description : string; actions : list action }.

(** [argparse.SUPPRESS]: the [dest] of the help action, never stored in
    the namespace. *)
Definition SUPPRESS : string := "==SUPPRESS==".

(** [_get_optional_kwargs]: the [dest] of an optional is its first long
    option string (else its first one) without the leading dashes, with
    the inner dashes replaced by underscores. *)
Fixpoint lstrip_dash (s : string) : string :=
  match s with String "-" s' => lstrip_dash s' | _ => s end.

Fixpoint dash_to_underscore (s : string) : string :=
  match s with
  | EmptyString => EmptyString
  | String c s' => String (if Ascii.eqb c "-" then underscore else c) (dash_to_underscore s')
  end.

Definition is_long (o : string) : bool := String.prefix "--" o.

Definition option_dest (opts : list string) : string :=
  let first := match List.filter is_long opts with o :: _ => o | [] => default "" (head opts) end in
  dash_to_underscore (lstrip_dash first).

(** [ArgumentParser(description=...)]: [add_help=True] registers
    [-h]/[--help] first. *)
Definition help_action : action := mk_action ["-h"; "--help"] SUPPRESS KHelp false.

Definition ArgumentParser (description : string) : parser := mk_parser description [help_action].

(** [parser.add_argument(option strings, ...)] for an optional argument. *)
Definition add_argument (p : parser) (opts : list string) (k : action_kind) (req : bool) : parser :=
  mk_parser (description p) (actions p ++ [mk_action opts (option_dest opts) k req]).

(** [_get_action_name]: the option strings joined by slashes. *)
Definition action_name (a : action) : string := String.concat "/" (option_strings a).

(** The number of arguments an action consumes: [nargs=None] for a store
    action, [nargs=0] for the others. *)
Definition arity (a : action) : nat := match kind a with KStore _ _ => 1 | _ => 0 end.

(** [parser._option_string_actions], in registration order. *)
Definition option_string_actions (p : parser) : list (string * action) :=
  List.concat (map (fun a => map (fun o => (o, a)) (option_strings a)) (actions p)).

Fixpoint assoc_str {A} (k : string) (l : list (string * A)) : option A :=
  match l with
  | [] => None
  | (k', v) :: l' => if String.eqb k k' then Some v else assoc_str k l'
  end.

Definition lookup_option (p : parser) (o : string) : option action :=
  assoc_str o (option_string_actions p).

(** ** Classifying the argument strings: [_parse_optional] *)

(** [s.partition(c)]: the text before the first [c], and what follows it
    if [c] occurs. *)
Fixpoint partition_char (c : ascii) (s : string) : string * option string :=
  match s with
  | EmptyString => (EmptyString, None)
  | String c' s' =>
      if Ascii.eqb c' c then (EmptyString, Some s')
      else let '(a, b) := partition_char c s' in (String c' a, b)
  end.

(** An option tuple: the action, the option string that names it, and the
    argument attached to it ([--days=5], [-hx]), if any. *)
Definition option_tuple : Type := action * string * option string.

(** [-x...] whose second character is not a dash. *)
Definition is_short (o : string) : bool :=
  match o with String c (String c' _) => Ascii.eqb c "-" && negb (Ascii.eqb c' "-") | _ => false end.

(** [_get_option_tuples]: a [--] string is an abbreviation of every long
    option string its part before [=] begins (with [allow_abbrev=True]);
    a [-x...] string names the option [-x] with the rest attached, or
    abbreviates the option strings it begins. *)
Definition get_option_tuples (p : parser) (s : string) : list option_tuple :=
  match s with
  | String c (String c' rest) =>
      if negb (Ascii.eqb c "-") then []
      else if Ascii.eqb c' "-" then
        let '(prefix, explicit) := partition_char "=" s in
        omap (fun oa : string * action =>
                if String.prefix prefix oa.1 then Some (oa.2, oa.1, explicit) else None)
             (option_string_actions p)
      else
        omap (fun oa : string * action =>
                if String.eqb oa.1 (String "-" (String c' EmptyString)) then Some (oa.2, oa.1, Some rest)
                else if String.prefix s oa.1 then Some (oa.2, oa.1, None) else None)
             (option_string_actions p)
  | _ => []
  end.

Fixpoint all_digits (s : string) : bool :=
  match s with EmptyString => true | String c s' => is_digit c && all_digits s' end.

Definition newline_char : ascii := Ascii.ascii_of_nat 10.

(** [$] of a Python regular expression also matches before a final
    newline. *)
Definition drop_final_newline (s : string) : string :=
  match rev (String.list_ascii_of_string s) with
  | c :: r => if Ascii.eqb c newline_char then String.string_of_list_ascii (rev r) else s
  | [] => s
  end.

(** [parser._negative_number_matcher], [^-\d+$|^-\d*\.\d+$]. *)
Definition looks_like_negative_number (s : string) : bool :=
  match s with
  | String "-" b =>
      match partition_char "." (drop_final_newline b) with
      | (d, None) => negb (String.eqb d "") && all_digits d
      | (d1, Some d2) => all_digits d1 && negb (String.eqb d2 "") && all_digits d2
      end
  | _ => false
  end.

(** [parser._has_negative_number_optionals]: some option string looks like
    a negative number. *)
Definition has_negative_number_optionals (p : parser) : bool :=
  existsb (fun oa : string * action => looks_like_negative_number oa.1) (option_string_actions p).

Definition contains_space (s : string) : bool :=
  existsb (Ascii.eqb " "%char) (String.list_ascii_of_string s).

(** An argument string is a positional ([TArg], pattern ['A']) or an
    optional ([TOpt], pattern ['O']), known or not. *)
Inductive token :=
| TArg (s : string)
| TOpt (s : string) (t : option option_tuple).

(** The end of [_parse_optional], once [s] is neither an option string
    nor one followed by [=]: one matching option tuple is the
    interpretation, several are ambiguous; with none, a negative number
    (unless some option string looks like one) or a string with a space is
    a positional, anything else an unknown optional. *)
Definition resolve_tuples (p : parser) (s : string) (ts : list option_tuple) : string + token :=
  match ts with
  | [t] => inr (TOpt s (Some t))
  | [] =>
      if looks_like_negative_number s && negb (has_negative_number_optionals p) then inr (TArg s)
      else if contains_space s then inr (TArg s)
      else inr (TOpt s None)
  | _ =>
      inl ("ambiguous option: " ++ s ++ " could match "
           ++ String.concat ", " (map (fun t : option_tuple => t.1.2) ts))%string
  end.

(** [_parse_optional], with the ambiguity error of [self.error]. *)
Definition parse_optional (p : parser) (s : string) : string + token :=
  match s with
  | EmptyString => inr (TArg s)
  | String c _ =>
    if negb (Ascii.eqb c "-") then inr (TArg s) else
    match lookup_option p s with
    | Some a => inr (TOpt s (Some (a, s, None)))
    | None =>
      if String.length s =? 1 then inr (TArg s) else
      let '(o, explicit) := partition_char "=" s in
      match explicit, lookup_option p o with
      | Some e, Some a => inr (TOpt s (Some (a, o, Some e)))
      | _, _ => resolve_tuples p s (get_option_tuples p s)
      end
    end
  end.

(** The classification loop of [_parse_known_args], which stops at the
    first ambiguous string.  A [--] makes every later string positional
    and is then removed from the values in a way that differs between
    Python versions: a command line holding [--] is outside the model
    ([Unsupported]). *)
Inductive classified := Unsupported | Ambiguous (msg : string) | Classified (ts : list token).

Fixpoint classify_all (p : parser) (argv : list string) : classified :=
  match argv with
  | [] => Classified []
  | s :: argv' =>
      if String.eqb s "--" then Unsupported else
      match parse_optional p s with
      | inl m => Ambiguous m
      | inr t => match classify_all p argv' with Classified ts => Classified (t :: ts) | r => r end
      end
  end.

(** ** Consuming the optionals: [consume_optional] and [take_action] *)

(** The attributes of the [argparse.Namespace]. *)
Definition namespace : Type := gmap string arg_value.

(** [ArgumentError(action, msg)] as [str()] prints it. *)
Definition argument_error (a : action) (msg : string) : string :=
  ("argument " ++ action_name a ++ ": " ++ msg)%string.

(** [_get_value]: the [type] conversion, whose [ValueError] becomes an
    [ArgumentError]. *)
Definition get_value (a : action) (ty : arg_type) (s : string) : string + arg_value :=
  match ty with
  | TStr => inr (VStr s)
  | TInt =>
      match py_int s with
      | inr n => inr (VInt n)
      | inl _ => inl (argument_error a ("invalid int value: " ++ py_repr_str s)%string)
      end
  end.

(** The outcome of taking actions: an [ArgumentError], the exit of the
    help action, an argument outside the model, or the namespace and the
    set of seen actions. *)
Inductive step_result :=
| SErr (msg : string)
| SHelp
| SUnsupported
| SOk (ns : namespace) (seen : list action).

(** [take_action]: the action is marked seen and called on its argument.
    [_get_values] first removes a [--] from the argument strings, so an
    explicit [--namespace=--] stores what that removal leaves, which
    differs between Python versions: such an argument is outside the
    model. *)
Definition take_action (a : action) (arg : option string) (ns : namespace) (seen : list action) : step_result :=
  match kind a, arg with
  | KHelp, _ => SHelp
  | KStoreTrue, _ => SOk (<[dest a := VBool true]> ns) (a :: seen)
  | KStore ty _, Some s =>
      if String.eqb s "--" then SUnsupported else
      match get_value a ty s with
      | inl m => SErr m
      | inr v => SOk (<[dest a := v]> ns) (a :: seen)
      end
  | KStore _ _, None => SErr (argument_error a "expected one argument")
  end.

Fixpoint take_actions (l : list (action * option string)) (ns : namespace) (seen : list action) : step_result :=
  match l with
  | [] => SOk ns seen
  | (a, arg) :: l' =>
      match take_action a arg ns seen with
      | SOk ns' seen' => take_actions l' ns' seen'
      | r => r
      end
  end.

Definition ignored_explicit (a : action) (e : string) : string :=
  argument_error a ("ignored explicit argument " ++ py_repr_str e)%string.

(** The loop of [consume_optional] over a cluster of one-letter flags
    ([-hh]): each letter names a flag, the last may take the rest of the
    cluster as its argument or wait for the next argument string.  It
    returns the actions to take, in order, and the one left waiting. *)
Fixpoint explicit_flags (p : parser) (a : action) (e : string)
    : string + (list (action * option string) * option action) :=
  match e with
  | EmptyString => inr ([(a, None)], None)
  | String c e' =>
      match lookup_option p (String "-" (String c EmptyString)) with
      | None => inl (ignored_explicit a e)
      | Some a' =>
          match e' with
          | EmptyString => inr ([(a, None)], Some a')
          | _ =>
              if arity a' =? 1 then inr ([(a, None); (a', Some e')], None)
              else if Ascii.eqb c "-" then inl (ignored_explicit a' e')
              else match explicit_flags p a' e' with
                   | inl m => inl m
                   | inr (ts, next) => inr ((a, None) :: ts, next)
                   end
          end
      end
  end.

(** [match_argument] for an optional that takes its arguments from the
    following strings: none for a flag, the next string if it is a
    positional for a store action.  The flag says whether it was used. *)
Definition read_following (a : action) (next : option string)
    : string + (list (action * option string) * bool) :=
  if arity a =? 0 then inr ([(a, None)], false)
  else match next with
       | Some v => inr ([(a, Some v)], true)
       | None => inl (argument_error a "expected one argument")
       end.

(** [consume_optional] for one known optional, given the next string when
    it is a positional. *)
Definition consume_optional (p : parser) (t : option_tuple) (next : option string)
    : string + (list (action * option string) * bool) :=
  let '(a, o, explicit) := t in
  match explicit with
  | None => read_following a next
  | Some e =>
      if arity a =? 1 then inr ([(a, Some e)], false)
      else if is_short o && negb (String.eqb e "") then
        match explicit_flags p a e with
        | inl m => inl m
        | inr (ts, None) => inr (ts, false)
        | inr (ts, Some a') =>
            match read_following a' next with
            | inl m => inl m
            | inr (ts', used) => inr (ts ++ ts', used)
            end
        end
      else inl (ignored_explicit a e)
  end.

Inductive consumed :=
| CErr (msg : string)
| CHelp
| CUnsupported
| CDone (ns : namespace) (seen : list action) (extras : list string).

(** The consumption loop of [_parse_known_args]: positionals and unknown
    optionals go to the extras (these parsers declare no positional), a
    known optional consumes its arguments and its actions are taken. *)
Fixpoint consume (p : parser) (toks : list token) (ns : namespace) (seen : list action)
    (extras : list string) : consumed :=
  match toks with
  | [] => CDone ns seen extras
  | TArg s :: rest => consume p rest ns seen (extras ++ [s])
  | TOpt s None :: rest => consume p rest ns seen (extras ++ [s])
  | TOpt _ (Some t) :: rest =>
      let next := match rest with TArg v :: _ => Some v | _ => None end in
      match consume_optional p t next with
      | inl m => CErr m
      | inr (todo, used) =>
          match take_actions todo ns seen with
          | SErr m => CErr m
          | SHelp => CHelp
          | SUnsupported => CUnsupported
          | SOk ns' seen' =>
              consume p (if used then match rest with _ :: rest' => rest' | [] => rest end else rest)
                ns' seen' extras
          end
      end
  end.

(** ** [parse_args] *)

(** The default an action puts in the namespace before parsing; the help
    action has [dest=SUPPRESS] and puts none. *)
Definition action_default (a : action) : option arg_value :=
  match kind a with
  | KStore _ d => Some d
  | KStoreTrue => Some (VBool false)
  | KHelp => None
  end.

(** [parse_known_args]: [setattr(namespace, dest, default)] for every
    action whose [dest] is not yet an attribute. *)
Definition initial_namespace (p : parser) : namespace :=
  foldl (fun ns a =>
           match action_default a, ns !! dest a with
           | Some d, None => <[dest a := d]> ns
           | _, _ => ns
           end) ∅ (actions p).

(** After the loop: an action not seen that is required is reported, one
    whose default is a string still in the namespace has it converted by
    its [type]. *)
Definition finalize_action (seen : list action) (acc : string + (namespace * list string)) (a : action)
    : string + (namespace * list string) :=
  match acc with
  | inl m => inl m
  | inr (ns, missing) =>
      if bool_decide (a ∈ seen) then inr (ns, missing)
      else if required a then inr (ns, missing ++ [action_name a])
      else match kind a with
           | KStore ty (VStr d) =>
               if bool_decide (ns !! dest a = Some (VStr d)) then
                 match get_value a ty d with
                 | inl m => inl m
                 | inr v => inr (<[dest a := v]> ns, missing)
                 end
               else inr (ns, missing)
           | _ => inr (ns, missing)
           end
  end.

Definition finalize (p : parser) (ns : namespace) (seen : list action) : string + namespace :=
  match foldl (finalize_action seen) (inr (ns, [])) (actions p) with
  | inl m => inl m
  | inr (ns', []) => inr ns'
  | inr (_, missing) => inl ("the following arguments are required: " ++ String.concat ", " missing)%string
  end.

(** What [argparse] takes from its environment: the program name
    ([os.path.basename(sys.argv[0])]) and the usage and help texts, whose
    line breaking depends on the width of the terminal. *)
Class ArgparseEnv := {
  prog : string;
  format_usage : parser -> string;
  format_help : parser -> string
}.

Section WithEnv.
Context `{ArgparseEnv}.

(** [parser.error(msg)]: the usage and the message on [sys.stderr], then
    [sys.exit(2)]. *)
Definition parser_error {A} (p : parser) (msg : string) : PyM A :=
  emit (EvWrite 2 (format_usage p));;
  emit (EvWrite 2 (prog ++ ": error: " ++ msg ++ newline)%string);;
  sys_exit 2.

(** The help action: [parser.print_help()] on [sys.stdout], then
    [parser.exit()]. *)
Definition print_help_exit {A} (p : parser) : PyM A :=
  emit (EvWrite 1 (format_help p));;
  sys_exit 0.

(** [parser.parse_args()] on the arguments [sys.argv[1:]]. *)
Definition parse_args (p : parser) (argv : list string) : option (PyM namespace) :=
  match classify_all p argv with
  | Unsupported => None
  | Ambiguous m => Some (parser_error p m)
  | Classified ts =>
      match consume p ts (initial_namespace p) [] [] with
      | CErr m => Some (parser_error p m)
      | CHelp => Some (print_help_exit p)
      | CUnsupported => None
      | CDone ns seen extras =>
          Some match finalize p ns seen with
          | inl m => parser_error p m
          | inr ns' =>
              match extras with
              | [] => ret ns'
              | _ => parser_error p ("unrecognized arguments: " ++ String.concat " " extras)%string
              end
          end
      end
  end.

End WithEnv.

(** ** What [parse_args] guarantees *)

Definition is_write (ev : event) : Prop := exists fd text, ev = EvWrite fd text.

Section Guarantees.
Context `{ArgparseEnv}.

Lemma parser_error_spec {A} p msg :
  trace_only is_write (parser_error (A:=A) p msg) /\ outcome (parser_error (A:=A) p msg) = inl (SystemExit 2).
Proof. split; [|done]. repeat constructor; by eexists _, _. Qed.

Lemma print_help_exit_spec {A} p :
  trace_only is_write (print_help_exit (A:=A) p) /\ outcome (print_help_exit (A:=A) p) = inl (SystemExit 0).
Proof. split; [|done]. repeat constructor; by eexists _, _. Qed.

(** The three ways out of [parse_args]: a namespace without output, or an
    exit with status 2 (an error) or 0 (the help) that only wrote text. *)
Definition parse_outcome (m : PyM namespace) : Prop :=
  (exists ns, m = ret ns) \/
  (trace_only is_write m /\ (outcome m = inl (SystemExit 2) \/ outcome m = inl (SystemExit 0))).

Lemma parse_outcome_error p msg : parse_outcome (parser_error p msg).
Proof. right. destruct (parser_error_spec (A:=namespace) p msg) as [? ->]. by split; [|left]. Qed.

Lemma parse_outcome_help p : parse_outcome (print_help_exit p).
Proof. right. destruct (print_help_exit_spec (A:=namespace) p) as [? ->]. by split; [|right]. Qed.

End Guarantees.

#[export] Hint Resolve parse_outcome_error parse_outcome_help : gitops.

Lemma classify_all_supported p argv :
  (forall s, s ∈ argv -> s <> "--") -> classify_all p argv <> Unsupported.
Proof.
  induction argv as [|s argv IH]; intros Hs; simpl; [done|].
  rewrite (proj2 (String.eqb_neq s "--")); [apply Hs; set_solver|].
  destruct (parse_optional p s); [done|].
  destruct (classify_all p argv); [|done..]. apply IH. intros s' ?. apply Hs. set_solver.
Qed.

(** *** The namespace is well typed *)

(** The values an action can leave in its attribute: its default, or a
    value of its [type]; [True] or [False] for a flag. *)
Definition value_ok (k : action_kind) (v : arg_value) : Prop :=
  match k with
  | KStore TStr d => v = d \/ exists s, v = VStr s
  | KStore TInt d => v = d \/ exists n, v = VInt n
  | KStoreTrue => exists b, v = VBool b
  | KHelp => True
  end.

Definition stores (a : action) : bool := match kind a with KHelp => false | _ => true end.

(** The parsers of the scripts give each storing action its own [dest]
    ([add_argument] does not check it). *)
Definition wf_parser (p : parser) : bool :=
  bool_decide (NoDup (map dest (List.filter stores (actions p)))).

Definition ns_ok (p : parser) (ns : namespace) : Prop :=
  forall a, a ∈ actions p -> stores a = true -> exists v, ns !! dest a = Some v /\ value_ok (kind a) v.

Lemma wf_parser_dest p a b : wf_parser p = true -> a ∈ actions p -> b ∈ actions p ->
  stores a = true -> stores b = true -> dest a = dest b -> a = b.
Proof.
  unfold wf_parser. intros Hwf%bool_decide_eq_true_1 Ha Hb Hsa Hsb Hd.
  assert (a ∈ List.filter stores (actions p)) as Ha' by (by apply list_elem_of_In, filter_In; rewrite -list_elem_of_In).
  assert (b ∈ List.filter stores (actions p)) as Hb' by (by apply list_elem_of_In, filter_In; rewrite -list_elem_of_In).
  apply list_elem_of_lookup in Ha' as [i Hi], Hb' as [j Hj].
  assert (i = j) as ->; [|congruence].
  eapply NoDup_lookup; [done| |]; rewrite list_lookup_fmap; [rewrite Hi|rewrite Hj]; simpl; [done|].
  by rewrite Hd.
Qed.

Lemma ns_ok_insert p ns b v : wf_parser p = true -> b ∈ actions p -> stores b = true ->
  value_ok (kind b) v -> ns_ok p ns -> ns_ok p (<[dest b := v]> ns).
Proof.
  intros Hwf Hb Hsb Hv Hns a Ha Hsa.
  destruct (decide (dest a = dest b)) as [Hd|Hd].
  - rewrite Hd lookup_insert_eq. exists v. split; [done|].
    by rewrite (wf_parser_dest p a b).
  - rewrite lookup_insert_ne; [done|]. by apply Hns.
Qed.

Lemma option_string_actions_in p o a :
  (o, a) ∈ option_string_actions p -> a ∈ actions p /\ o ∈ option_strings a.
Proof.
  unfold option_string_actions. intros Hl. apply list_elem_of_In, in_concat in Hl as (l & Hl1 & Hl2).
  apply list_elem_of_In, list_elem_of_fmap in Hl1 as (b & -> & Hb).
  apply list_elem_of_In, list_elem_of_fmap in Hl2 as (o' & Heq & Ho). by injection Heq as -> ->.
Qed.

Lemma lookup_option_in p o a : lookup_option p o = Some a -> a ∈ actions p /\ o ∈ option_strings a.
Proof.
  intros Hl. apply option_string_actions_in. revert Hl. unfold lookup_option.
  induction (option_string_actions p) as [|[k v] l IH]; simpl; [done|].
  destruct (String.eqb_spec o k) as [->|]; [intros [= ->]; set_solver|set_solver].
Qed.

Lemma get_option_tuples_in p s a o e : (a, o, e) ∈ get_option_tuples p s -> a ∈ actions p /\ o ∈ option_strings a.
Proof.
  unfold get_option_tuples. intros Hin. apply option_string_actions_in.
  repeat case_match; simplify_eq; try set_solver;
    apply list_elem_of_omap in Hin as ([o' a'] & Hoa & Hs); simpl in Hs;
    repeat case_match; simplify_eq; done.
Qed.

(** A token names its action by one of the action's option strings. *)
Definition token_ok (p : parser) (t : token) : Prop :=
  match t with TOpt _ (Some (a, o, _)) => a ∈ actions p /\ o ∈ option_strings a | _ => True end.

Lemma parse_optional_ok p s t : parse_optional p s = inr t -> token_ok p t.
Proof.
  unfold parse_optional.
  destruct s as [|c s']; [by intros [= <-]|]. destruct (negb _); [by intros [= <-]|].
  destruct (lookup_option p _) as [a|] eqn:Hl; [intros [= <-]; by apply lookup_option_in|].
  destruct (_ =? 1); [by intros [= <-]|].
  assert (resolve_tuples p (String c s') (get_option_tuples p (String c s')) = inr t -> token_ok p t)
    as Htuples.
  { unfold resolve_tuples.
    destruct (get_option_tuples p _) as [|[[a o] e] [|]] eqn:Ht; [|intros [= <-]|done].
    - destruct (_ && _); [by intros [= <-]|]. by destruct (contains_space _); intros [= <-].
    - apply (get_option_tuples_in p (String c s') _ _ e). rewrite Ht. set_solver. }
  destruct (partition_char "=" _) as [o [e|]]; [|exact Htuples].
  destruct (lookup_option p o) as [a|] eqn:Ho; [intros [= <-]; by apply lookup_option_in|exact Htuples].
Qed.

Lemma classify_all_ok p argv ts : classify_all p argv = Classified ts -> Forall (token_ok p) ts.
Proof.
  revert ts. induction argv as [|s argv IH]; simpl; intros ts; [by intros [= <-]|].
  destruct (String.eqb s "--"); [done|].
  destruct (parse_optional p s) as [|t] eqn:Hs; [done|].
  destruct (classify_all p argv) as [| |ts'] eqn:Hc; [done..|]. intros [= <-].
  constructor; [by eapply parse_optional_ok|by apply IH].
Qed.

(** The actions a step takes are actions of the parser. *)
Definition actions_in (p : parser) (todo : list (action * option string)) : Prop :=
  Forall (fun x => x.1 ∈ actions p) todo.

Lemma explicit_flags_in p a e ts next : a ∈ actions p ->
  explicit_flags p a e = inr (ts, next) -> actions_in p ts /\ (forall a', next = Some a' -> a' ∈ actions p).
Proof.
  revert a ts next. induction e as [|c e IH]; simpl; intros a ts next Ha.
  { intros [= <- <-]. split; [by repeat constructor|done]. }
  destruct (lookup_option p _) as [a'|] eqn:Hl; [|done].
  apply lookup_option_in in Hl as [Ha' _].
  destruct e as [|c' e'].
  { intros [= <- <-]. split; [by repeat constructor|by intros ? [= <-]]. }
  destruct (arity a' =? 1); [intros [= <- <-]; split; [by repeat constructor|done]|].
  destruct (Ascii.eqb c "-"); [done|].
  destruct (explicit_flags p a' _) as [|[ts' next']] eqn:He; [done|]. intros [= <- <-].
  destruct (IH a' ts' next' Ha' He). split; [by constructor|done].
Qed.

Lemma read_following_in p a next todo used : a ∈ actions p ->
  read_following a next = inr (todo, used) -> actions_in p todo.
Proof.
  unfold read_following. intros Ha.
  destruct (arity a =? 0); [intros [= <- _]; by repeat constructor|].
  destruct next; [intros [= <- _]; by repeat constructor|done].
Qed.

Lemma consume_optional_in p t next todo used : token_ok p (TOpt "" (Some t)) ->
  consume_optional p t next = inr (todo, used) -> actions_in p todo.
Proof.
  destruct t as [[a o] [e|]]; simpl; intros [Ha _]; [|by apply read_following_in].
  destruct (arity a =? 1); [intros [= <- _]; by repeat constructor|].
  destruct (is_short o && _); [|done].
  destruct (explicit_flags p a e) as [|[ts [a'|]]] eqn:He; [done| |];
    apply explicit_flags_in in He as [Hts Hnext]; [|done| |done].
  - destruct (read_following a' next) as [|[ts' used']] eqn:Hr; [done|]. intros [= <- _].
    apply Forall_app. split; [done|]. eapply read_following_in; [|done]. by apply Hnext.
  - by intros [= <- _].
Qed.

Section Typing.
Variable p : parser.
Hypothesis Hwf : wf_parser p = true.

Lemma get_value_ok a ty d s v : get_value a ty s = inr v -> value_ok (KStore ty d) v.
Proof.
  destruct ty; simpl; [intros [= <-]; right; eauto|].
  destruct (py_int s); [done|]. intros [= <-]; right; eauto.
Qed.

Lemma take_actions_ok todo ns seen ns' seen' : actions_in p todo -> ns_ok p ns ->
  take_actions todo ns seen = SOk ns' seen' -> ns_ok p ns'.
Proof.
  revert ns seen. induction todo as [|[a arg] todo IH]; simpl; intros ns seen Hin Hns; [by intros [= <- _]|].
  inversion Hin as [|? ? Ha Hin']; subst; simpl in Ha.
  unfold take_action. destruct (kind a) as [ty d| |] eqn:Hk.
  - destruct arg as [s|]; [|done]. destruct (String.eqb s "--"); [done|].
    destruct (get_value a ty s) as [|v] eqn:Hv; [done|].
    apply IH; [done|]. apply ns_ok_insert; [done|done|by rewrite /stores Hk|rewrite Hk; by eapply get_value_ok|done].
  - apply IH; [done|]. apply ns_ok_insert; [done|done|by rewrite /stores Hk|rewrite Hk; by exists true|done].
  - done.
Qed.

Lemma consume_ok toks ns seen extras ns' seen' extras' : Forall (token_ok p) toks -> ns_ok p ns ->
  consume p toks ns seen extras = CDone ns' seen' extras' -> ns_ok p ns'.
Proof.
  revert ns seen extras. induction toks as [toks IH] using (induction_ltof1 _ (@length _)).
  unfold ltof in IH. intros ns seen extras Hok Hns.
  destruct toks as [|[s|s [t|]] rest]; simpl; [by intros [= <- _ _]| | |];
    inversion Hok as [|? ? Ht Hrest]; subst;
    [by apply (IH rest); [simpl; lia|..]| |by apply (IH rest); [simpl; lia|..]].
  destruct (consume_optional p t _) as [|[todo used]] eqn:Hc; [done|].
  destruct (take_actions todo ns seen) as [| | |ns1 seen1] eqn:Htake; [done..|].
  apply consume_optional_in in Hc; [|by destruct t as [[??]?]].
  pose proof (take_actions_ok _ _ _ _ _ Hc Hns Htake) as Hns1.
  destruct used; [destruct rest as [|t' rest]|]; simpl.
  - by apply (IH []); [simpl; lia|..].
  - inversion Hrest; subst. by apply (IH rest); [simpl; lia|..].
  - by apply (IH rest); [simpl; lia|..].
Qed.

Lemma finalize_ok ns seen ns' : ns_ok p ns -> finalize p ns seen = inr ns' -> ns_ok p ns'.
Proof.
  unfold finalize. intros Hns.
  assert (forall l acc ns1 missing1, (forall a, a ∈ l -> a ∈ actions p) ->
          (forall ns0 m0, acc = inr (ns0, m0) -> ns_ok p ns0) ->
          foldl (finalize_action seen) acc l = inr (ns1, missing1) -> ns_ok p ns1) as Hfold.
  { induction l as [|a l IH]; simpl; intros acc ns1 missing1 Hl Hacc; [by intros ?%Hacc|].
    apply IH; [set_solver|]. intros ns0 m0. unfold finalize_action.
    destruct acc as [|[ns2 m2]]; [done|]. specialize (Hacc _ _ eq_refl).
    destruct (bool_decide _); [by intros [= <- _]|]. destruct (required a); [by intros [= <- _]|].
    destruct (kind a) as [ty [| d | |]| |] eqn:Hk; try by intros [= <- _].
    destruct (bool_decide _); [|by intros [= <- _]].
    destruct (get_value a ty d) as [|v] eqn:Hv; [done|]. intros [= <- _].
    apply ns_ok_insert; [done|set_solver|by rewrite /stores Hk|rewrite Hk; by eapply get_value_ok|done]. }
  destruct (foldl _ _ _) as [|[ns1 [|]]] eqn:Hf; [done| |done]. intros [= <-].
  eapply Hfold; [done| |exact Hf]. by intros ? ? [= <- _].
Qed.

(** Before parsing, each storing action's attribute holds its default. *)
Lemma initial_namespace_lookup : forall a, a ∈ actions p -> stores a = true ->
  initial_namespace p !! dest a = action_default a.
Proof.
  unfold initial_namespace.
  set (f := fun (ns : namespace) a => match action_default a, ns !! dest a with
                                      | Some d, None => <[dest a := d]> ns | _, _ => ns end).
  assert (forall l ns k v, ns !! k = Some v -> foldl f ns l !! k = Some v) as Hkeep.
  { induction l as [|a l IH]; simpl; intros ns k v Hk; [done|]. apply IH. unfold f.
    destruct (action_default a), (ns !! dest a) eqn:Hd; [done| |done..].
    rewrite lookup_insert_ne; [congruence|done]. }
  assert (forall l ns, NoDup (map dest (List.filter stores l)) ->
          (forall a, a ∈ l -> stores a = true -> ns !! dest a = None) ->
          forall a, a ∈ l -> stores a = true -> foldl f ns l !! dest a = action_default a) as Hfold.
  { induction l as [|b l IH]; simpl; intros ns Hnd Hnone a Ha Hsa; [set_solver|].
    destruct (stores b) eqn:Hsb; simpl in Hnd.
    - apply NoDup_cons in Hnd as [Hb Hnd].
      assert (action_default b = Some (default VNone (action_default b))) as Hdb
        by (unfold action_default, stores in *; by destruct (kind b)).
      assert (f ns b = <[dest b := default VNone (action_default b)]> ns) as Hf.
      { unfold f. rewrite Hdb. by rewrite (Hnone b (list_elem_of_here b l) Hsb). }
      rewrite Hf. apply elem_of_cons in Ha as [->|Ha].
      + rewrite Hdb. apply Hkeep. by rewrite lookup_insert_eq.
      + apply IH; [done| |done|done]. intros c Hc Hsc.
        rewrite lookup_insert_ne; [|apply Hnone; set_solver].
        intros Hd. apply Hb. rewrite Hd. apply list_elem_of_fmap. exists c. split; [done|].
        apply list_elem_of_In, filter_In. split; [by apply list_elem_of_In|done].
    - assert (f ns b = ns) as ->.
      { unfold f, action_default, stores in *. by destruct (kind b). }
      apply elem_of_cons in Ha as [->|Ha]; [congruence|].
      apply IH; [done|set_solver|done|done]. }
  intros a Ha Hsa. rewrite Hfold; [by apply bool_decide_eq_true_1 in Hwf|set_solver|done|done|done].
Qed.

Lemma initial_namespace_ok : ns_ok p (initial_namespace p).
Proof.
  intros a Ha Hsa. rewrite initial_namespace_lookup //.
  unfold action_default, stores in *. destruct (kind a) as [[] d| |]; try done.
  - exists d. split; [done|by left].
  - exists d. split; [done|by left].
  - exists (VBool false). split; [done|by exists false].
Qed.

(** *** The attributes of the actions the command line names *)

(** The value an action stores when it is taken: a [str] for [type=None],
    an [int] for [type=int], a boolean for [store_true]. *)
Definition typed_value (k : action_kind) (v : arg_value) : Prop :=
  match k with
  | KStore TStr _ => exists s, v = VStr s
  | KStore TInt _ => exists n, v = VInt n
  | KStoreTrue => exists b, v = VBool b
  | KHelp => True
  end.

Definition seen_typed (ns : namespace) (seen : list action) : Prop :=
  forall a, a ∈ seen -> a ∈ actions p -> stores a = true ->
    exists v, ns !! dest a = Some v /\ typed_value (kind a) v.

Lemma get_value_typed a ty d s v : get_value a ty s = inr v -> typed_value (KStore ty d) v.
Proof.
  destruct ty; simpl; [intros [= <-]; eauto|].
  destruct (py_int s); [done|]. intros [= <-]; eauto.
Qed.

Lemma take_action_inv a arg ns seen ns' seen' : take_action a arg ns seen = SOk ns' seen' ->
  exists v, ns' = <[dest a := v]> ns /\ seen' = a :: seen /\ typed_value (kind a) v /\ stores a = true.
Proof.
  unfold take_action, stores. destruct (kind a) as [ty d| |] eqn:Hk; [|intros [= <- <-]|done].
  - destruct arg as [s|]; [|done]. destruct (String.eqb s "--"); [done|].
    destruct (get_value a ty s) as [|v] eqn:Hv; [done|]. intros [= <- <-].
    exists v. split_and!; [done|done|by eapply get_value_typed|done].
  - exists (VBool true). split_and!; [done|done|by exists true|done].
Qed.

Lemma seen_typed_insert a v ns seen : a ∈ actions p -> stores a = true ->
  typed_value (kind a) v -> seen_typed ns seen -> seen_typed (<[dest a := v]> ns) (a :: seen).
Proof.
  intros Ha Hsa Hv Hs b Hb Hbp Hsb.
  destruct (decide (dest b = dest a)) as [Hd|Hd].
  - assert (b = a) as -> by (by apply (wf_parser_dest p)).
    exists v. by rewrite lookup_insert_eq.
  - rewrite lookup_insert_ne; [congruence|]. apply elem_of_cons in Hb as [->|Hb]; [done|].
    by apply Hs.
Qed.

Lemma take_actions_typed todo ns seen ns' seen' : actions_in p todo -> seen_typed ns seen ->
  take_actions todo ns seen = SOk ns' seen' -> seen_typed ns' seen'.
Proof.
  revert ns seen. induction todo as [|[a arg] todo IH]; simpl; intros ns seen Hin Hs; [by intros [= <- <-]|].
  inversion Hin as [|? ? Ha Hin']; subst; simpl in Ha.
  destruct (take_action a arg ns seen) as [| | |ns1 seen1] eqn:Ht; [done..|].
  destruct (take_action_inv _ _ _ _ _ _ Ht) as (v & -> & -> & Hv & Hsa).
  apply IH; [done|]. by apply seen_typed_insert.
Qed.

Lemma consume_typed toks ns seen extras ns' seen' extras' : Forall (token_ok p) toks ->
  seen_typed ns seen -> consume p toks ns seen extras = CDone ns' seen' extras' -> seen_typed ns' seen'.
Proof.
  revert ns seen extras. induction toks as [toks IH] using (induction_ltof1 _ (@length _)).
  unfold ltof in IH. intros ns seen extras Hok Hs.
  destruct toks as [|[s|s [t|]] rest]; simpl; [by intros [= <- <- _]| | |];
    inversion Hok as [|? ? Ht Hrest]; subst;
    [by apply (IH rest); [simpl; lia|..]| |by apply (IH rest); [simpl; lia|..]].
  destruct (consume_optional p t _) as [|[todo used]] eqn:Hc; [done|].
  destruct (take_actions todo ns seen) as [| | |ns1 seen1] eqn:Htake; [done..|].
  apply consume_optional_in in Hc; [|by destruct t as [[??]?]].
  pose proof (take_actions_typed _ _ _ _ _ Hc Hs Htake) as Hs1.
  destruct used; [destruct rest as [|t' rest]|]; simpl.
  - by apply (IH []); [simpl; lia|..].
  - inversion Hrest; subst. by apply (IH rest); [simpl; lia|..].
  - by apply (IH rest); [simpl; lia|..].
Qed.

Lemma finalize_action_typed seen acc a ns1 m1 : a ∈ actions p ->
  finalize_action seen acc a = inr (ns1, m1) ->
  exists ns0 m0, acc = inr (ns0, m0) /\ (seen_typed ns0 seen -> seen_typed ns1 seen) /\
    m0 `sublist_of` m1 /\ (required a = true -> a ∈ seen \/ action_name a ∈ m1).
Proof.
  intros Ha. unfold finalize_action.
  destruct acc as [|[ns0 m0]]; [done|]. intros Hf. exists ns0, m0. split; [done|]. revert Hf.
  destruct (bool_decide (a ∈ seen)) eqn:Hseen.
  { intros [= <- <-]. split_and!; [done|reflexivity|intros _; left; by apply bool_decide_eq_true in Hseen]. }
  apply bool_decide_eq_false in Hseen.
  destruct (required a) eqn:Hreq.
  { intros [= <- <-]. split_and!; [done|by apply sublist_inserts_r|right; set_solver]. }
  destruct (kind a) as [ty [| d | |]| |] eqn:Hka; try by intros [= <- <-].
  destruct (bool_decide _); [|by intros [= <- <-]].
  destruct (get_value a ty d) as [|v]; [done|]. intros [= <- <-]. split_and!; [|done|done].
  intros Hs0 b Hb Hbp Hsb. rewrite lookup_insert_ne; [|by apply Hs0].
  intros Hd. apply Hseen. rewrite (wf_parser_dest p a b); [done|done|done|by rewrite /stores Hka|done|done|done].
Qed.

(** The loop after parsing changes only the attributes of actions not
    seen, and reports every required action not seen. *)
Lemma finalize_typed ns seen ns' : seen_typed ns seen -> finalize p ns seen = inr ns' ->
  seen_typed ns' seen /\ forall a, a ∈ actions p -> required a = true -> a ∈ seen.
Proof.
  unfold finalize. intros Hs.
  assert (forall l acc ns1 m1, (forall a, a ∈ l -> a ∈ actions p) ->
          foldl (finalize_action seen) acc l = inr (ns1, m1) ->
          exists ns0 m0, acc = inr (ns0, m0) /\ (seen_typed ns0 seen -> seen_typed ns1 seen) /\
            m0 `sublist_of` m1 /\
            forall a, a ∈ l -> required a = true -> a ∈ seen \/ action_name a ∈ m1) as Hfold.
  { induction l as [|a l IH]; simpl; intros acc ns1 m1 Hl Hf.
    - exists ns1, m1. subst acc. split_and!; [done|done|done|set_solver].
    - destruct (IH _ _ _ ltac:(set_solver) Hf) as (ns2 & m2 & Hacc & Hs2 & Hm2 & Hr).
      destruct (finalize_action_typed seen acc a ns2 m2 ltac:(set_solver) Hacc)
        as (ns0 & m0 & -> & Hs0 & Hm0 & Ha).
      exists ns0, m0. split_and!; [done|auto|by etrans|].
      intros b [->|Hb]%elem_of_cons Hrb; [|by apply Hr].
      destruct (Ha Hrb) as [|Hm]; [by left|right]. by eapply elem_of_sublist. }
  destruct (foldl _ _ _) as [|[ns1 [|]]] eqn:Hf; [done| |done]. intros [= <-].
  destruct (Hfold _ _ _ _ ltac:(done) Hf) as (ns0 & m0 & [= <- <-] & Hs1 & _ & Hr).
  split; [by apply Hs1|]. intros a Ha Hra. destruct (Hr a Ha Hra) as [|Hm]; [done|set_solver].
Qed.

End Typing.

(** A parse that returns a namespace went through the whole loop. *)
Lemma parse_args_inr `{ArgparseEnv} p argv m ns : parse_args p argv = Some m -> outcome m = inr ns ->
  exists ts ns0 seen, classify_all p argv = Classified ts /\
    consume p ts (initial_namespace p) [] [] = CDone ns0 seen [] /\ finalize p ns0 seen = inr ns.
Proof.
  unfold parse_args.
  destruct (classify_all p argv) as [|msg|ts]; [done|intros [= <-]; by rewrite (proj2 (parser_error_spec p msg)); intros [=]|].
  destruct (consume p ts _ _ _) as [msg| | |ns0 seen extras] eqn:Hc; [| |done|].
  { intros [= <-]. rewrite (proj2 (parser_error_spec p msg)). by intros [=]. }
  { intros [= <-]. rewrite (proj2 (print_help_exit_spec p)). by intros [=]. }
  intros [= <-]. destruct (finalize p ns0 seen) as [msg|ns1] eqn:Hf; [rewrite (proj2 (parser_error_spec p msg)); by intros [=]|].
  destruct extras; [|rewrite (proj2 (parser_error_spec p _)); by intros [=]]. intros [= ->]. by exists ts, ns0, seen.
Qed.

(** *** Which argument string set an attribute *)

(** The actions one optional takes: its own action, unless an argument
    was attached that it cannot take ([--execute=1]), and the actions a
    cluster of one-letter flags names. *)
Definition named_letter (p : parser) (b : action) : Prop :=
  exists c, lookup_option p (String "-" (String c EmptyString)) = Some b.

Lemma explicit_flags_taken p a e ts next :
  explicit_flags p a e = inr (ts, next) ->
  (forall b arg, (b, arg) ∈ ts -> b = a \/ named_letter p b) /\
  (forall b, next = Some b -> named_letter p b).
Proof.
  revert a ts next. induction e as [|c e IH]; simpl; intros a ts next.
  { intros [= <- <-]. split; [|done]. intros b arg ?%list_elem_of_singleton. simplify_eq. by left. }
  destruct (lookup_option p _) as [a'|] eqn:Hl; [|done].
  destruct e as [|c' e'].
  { intros [= <- <-]. split; [intros b arg ?%list_elem_of_singleton; simplify_eq; by left|].
    intros b [= <-]. by exists c. }
  destruct (arity a' =? 1).
  { intros [= <- <-]. split; [|done]. intros b arg Hin.
    apply elem_of_cons in Hin as [[= ->]|?%list_elem_of_singleton]; simplify_eq; [by left|right; by exists c]. }
  destruct (Ascii.eqb c "-"); [done|].
  destruct (explicit_flags p a' _) as [|[ts' next']] eqn:He; [done|]. intros [= <- <-].
  destruct (IH a' ts' next' He) as [Hts Hnext]. split; [|done].
  intros b arg [[= -> _]|Hin]%elem_of_cons; [by left|].
  destruct (Hts b arg Hin) as [->|]; [right; by exists c|by right].
Qed.

Definition taken_by (p : parser) (t : option_tuple) (b : action) : Prop :=
  let '(a, o, e) := t in (b = a /\ (e = None \/ arity a = 1 \/ is_short o = true)) \/ named_letter p b.

Lemma consume_optional_taken p t next todo used b arg :
  consume_optional p t next = inr (todo, used) -> (b, arg) ∈ todo -> taken_by p t b.
Proof.
  destruct t as [[a o] e]; simpl.
  assert (forall a' next ts used, read_following a' next = inr (ts, used) -> (b, arg) ∈ ts -> b = a') as Hread.
  { intros a' next' ts used'. unfold read_following.
    destruct (arity a' =? 0); [intros [= <- _] ?%list_elem_of_singleton; by simplify_eq|].
    destruct next'; [intros [= <- _] ?%list_elem_of_singleton; by simplify_eq|done]. }
  destruct e as [e|]; [|intros Hr Hin; left; split; [by eapply Hread|by left]].
  destruct (arity a =? 1) eqn:Ha.
  { intros [= <- _] ?%list_elem_of_singleton. simplify_eq. left. split; [done|right; left; by apply Nat.eqb_eq]. }
  destruct (is_short o && _) eqn:Hs; [|done]. apply andb_true_iff in Hs as [Hs _].
  destruct (explicit_flags p a e) as [|[ts [a'|]]] eqn:He; [done| |];
    apply explicit_flags_taken in He as [Hts Hnext].
  - destruct (read_following a' next) as [|[ts' used']] eqn:Hr; [done|]. intros [= <- _] [Hin|Hin]%elem_of_app.
    + destruct (Hts b arg Hin) as [->|]; [left; by auto|by right].
    + right. rewrite (Hread _ _ _ _ Hr Hin). by apply Hnext.
  - intros [= <- _] Hin. destruct (Hts b arg Hin) as [->|]; [left; by auto|by right].
Qed.

Lemma take_actions_changes todo ns seen ns' seen' k :
  take_actions todo ns seen = SOk ns' seen' -> ns' !! k <> ns !! k ->
  exists b arg, (b, arg) ∈ todo /\ dest b = k /\ stores b = true.
Proof.
  revert ns seen. induction todo as [|[a arg] todo IH]; simpl; intros ns seen; [by intros [= <- _]|].
  assert (forall ns1 seen1, take_action a arg ns seen = SOk ns1 seen1 ->
            ns1 !! k <> ns !! k -> dest a = k /\ stores a = true) as Hstep.
  { intros ns1 seen1. unfold take_action, stores.
    destruct (kind a) as [ty d| |];
      [destruct arg as [s|]; [destruct (String.eqb s "--"); [|destruct (get_value a ty s)]|]| |]; try done;
      intros [= <- _]; (destruct (decide (dest a = k)) as [|Hne]; [done|]; by rewrite lookup_insert_ne). }
  destruct (take_action a arg ns seen) as [| | |ns1 seen1] eqn:Ht; [done..|]. intros Htake Hk.
  destruct (decide (ns1 !! k = ns !! k)) as [Heq|Hne].
  - destruct (IH ns1 seen1 Htake) as (b & arg' & Hin & Hb); [by rewrite Heq|].
    exists b, arg'. split; [by apply elem_of_cons; right|done].
  - exists a, arg. split; [by apply elem_of_cons; left|]. by eapply Hstep.
Qed.

(** An attribute [consume] changes is the [dest] of an action one of the
    known optionals takes. *)
Lemma consume_changes p toks ns seen extras ns' seen' extras' k :
  consume p toks ns seen extras = CDone ns' seen' extras' -> ns' !! k <> ns !! k ->
  exists s t b, TOpt s (Some t) ∈ toks /\ taken_by p t b /\ dest b = k /\ stores b = true.
Proof.
  revert ns seen extras. induction toks as [toks IH] using (induction_ltof1 _ (@length _)).
  unfold ltof in IH. intros ns seen extras.
  destruct toks as [|[s|s [t|]] rest]; simpl; [by intros [= <- _ _]| | |].
  - intros Hc Hk. destruct (IH rest ltac:(simpl; lia) _ _ _ Hc Hk) as (s' & t & b & ? & ?). exists s', t, b. split; [by apply elem_of_cons; right|done].
  - destruct (consume_optional p t _) as [|[todo used]] eqn:Hco; [done|].
    destruct (take_actions todo ns seen) as [| | |ns1 seen1] eqn:Htake; [done..|]. intros Hc Hk.
    destruct (decide (ns1 !! k = ns !! k)) as [Heq|Hne].
    + assert (length (if used then match rest with _ :: rest' => rest' | [] => rest end else rest) < S (length rest))
        as Hlen by (destruct used, rest; simpl; lia).
      destruct (IH _ Hlen _ _ _ Hc) as (s' & t' & b & Hin & ? & ? & ?); [by rewrite Heq|].
      exists s', t', b. split; [|done]. apply elem_of_cons; right.
      destruct used, rest as [|? rest]; simpl in Hin; set_solver.
    + destruct (take_actions_changes _ _ _ _ _ k Htake Hne) as (b & arg & Hin & Hb & Hsb).
      exists s, t, b. split_and!; [set_solver|by eapply consume_optional_taken|done|done].
  - intros Hc Hk. destruct (IH rest ltac:(simpl; lia) _ _ _ Hc Hk) as (s' & t & b & ? & ?). exists s', t, b. split; [by apply elem_of_cons; right|done].
Qed.

Lemma prefix_refl s : String.prefix s s = true.
Proof. induction s as [|c s IH]; simpl; [done|]. by destruct (ascii_dec c c). Qed.

Lemma partition_char_none c s a : partition_char c s = (a, None) -> a = s.
Proof.
  revert a. induction s as [|c' s IH]; simpl; intros a; [by intros [= <-]|].
  destruct (Ascii.eqb c' c); [done|]. destruct (partition_char c s) as [a' b'] eqn:Hp. intros [= <- ->].
  by rewrite (IH a').
Qed.

(** A token keeps its argument string; a known optional without an
    attached argument is an abbreviation of (a prefix of) its option
    string. *)
Lemma parse_optional_str p s s' x : parse_optional p s = inr (TOpt s' x) -> s' = s.
Proof.
  unfold parse_optional, resolve_tuples.
  destruct s as [|c s0]; [done|]. destruct (negb _); [done|].
  destruct (lookup_option p _); [by intros [= <- _]|]. destruct (_ =? 1); [done|].
  destruct (partition_char "=" _) as [o [e|]]; [destruct (lookup_option p o); [by intros [= <- _]|]|];
    (destruct (get_option_tuples p _) as [|? [|]]; [destruct (_ && _); [done|]; destruct (contains_space _)|..];
     by intros [= <- _]).
Qed.

Lemma get_option_tuples_none_prefix p s a o : (a, o, None) ∈ get_option_tuples p s -> String.prefix s o = true.
Proof.
  unfold get_option_tuples. destruct s as [|c [|c' s0]]; [set_solver|set_solver|].
  destruct (negb _); [set_solver|]. destruct (Ascii.eqb c' "-").
  - destruct (partition_char "=" _) as [pre e] eqn:Hp.
    intros ([o' a'] & Hin & Hs)%list_elem_of_omap. simpl in Hs.
    destruct (String.prefix pre o') eqn:Hpre; [|done]. injection Hs as -> -> ->.
    by rewrite -(partition_char_none _ _ _ Hp).
  - intros ([o' a'] & Hin & Hs)%list_elem_of_omap. simpl in Hs.
    destruct (String.eqb _ _); [done|].
    destruct (String.prefix _ o') eqn:Hpre; [|done]. injection Hs as -> ->. exact Hpre.
Qed.
Lemma parse_optional_none_prefix p s s' a o :
  parse_optional p s = inr (TOpt s' (Some (a, o, None))) -> String.prefix s o = true.
Proof.
  unfold parse_optional.
  assert (resolve_tuples p s (get_option_tuples p s) = inr (TOpt s' (Some (a, o, None))) ->
          String.prefix s o = true) as Hres.
  { unfold resolve_tuples. destruct (get_option_tuples p s) as [|t [|]] eqn:Ht.
    - destruct (_ && _); [done|]. by destruct (contains_space _).
    - intros [= <- ->]. apply (get_option_tuples_none_prefix p s a). rewrite Ht. set_solver.
    - done. }
  destruct s as [|c s0]; [done|]. destruct (negb _); [done|].
  destruct (lookup_option p _); [intros [= _ Ho]; subst o; apply prefix_refl|]. destruct (_ =? 1); [done|].
  destruct (partition_char "=" _) as [o' [e|]]; [|exact Hres].
  destruct (lookup_option p o'); [done|exact Hres].
Qed.

Lemma classify_all_in p argv ts s t : classify_all p argv = Classified ts -> TOpt s t ∈ ts ->
  s ∈ argv /\ parse_optional p s = inr (TOpt s t).
Proof.
  revert ts. induction argv as [|s' argv IH]; simpl; intros ts; [intros [= <-]; set_solver|].
  destruct (String.eqb s' "--"); [done|].
  destruct (parse_optional p s') as [|t'] eqn:Hs; [done|].
  destruct (classify_all p argv) as [| |ts'] eqn:Hc; [done..|]. intros [= <-] [Heq|Hin]%elem_of_cons.
  - subst t'. pose proof (parse_optional_str _ _ _ _ Hs) as ->. split; [by apply elem_of_cons; left|done].
  - destruct (IH ts' eq_refl Hin). split; [by apply elem_of_cons; right|done].
Qed.

Lemma finalize_keeps p ns seen ns' k : finalize p ns seen = inr ns' ->
  (forall a, a ∈ actions p -> dest a = k -> match kind a with KStore _ _ => False | _ => True end) ->
  ns' !! k = ns !! k.
Proof.
  unfold finalize. intros Hf Hk.
  assert (forall l acc ns1 m1, (forall a, a ∈ l -> a ∈ actions p) ->
          (forall ns0 m0, acc = inr (ns0, m0) -> ns0 !! k = ns !! k) ->
          foldl (finalize_action seen) acc l = inr (ns1, m1) -> ns1 !! k = ns !! k) as Hfold.
  { induction l as [|a l IH]; simpl; intros acc ns1 m1 Hl Hacc; [by intros ?%Hacc|].
    apply IH; [set_solver|]. intros ns0 m0. unfold finalize_action.
    destruct acc as [|[ns2 m2]]; [done|]. specialize (Hacc _ _ eq_refl).
    destruct (bool_decide _); [by intros [= <- _]|]. destruct (required a); [by intros [= <- _]|].
    destruct (kind a) as [ty [| d | |]| |] eqn:Hka; try by intros [= <- _].
    destruct (bool_decide _); [|by intros [= <- _]].
    destruct (get_value a ty d); [done|]. intros [= <- _].
    rewrite lookup_insert_ne; [|done]. intros Hd. specialize (Hk a ltac:(set_solver) Hd). by rewrite Hka in Hk. }
  destruct (foldl _ _ _) as [|[ns1 [|]]] eqn:Hfl; [done| |done]. injection Hf as <-.
  eapply Hfold; [done| |exact Hfl]. by intros ? ? [= <- _].
Qed.

(** A [store_true] flag is [True] in the namespace only if an argument
    string names it: a prefix of one of its option strings (the option
    string itself or an abbreviation), or a one-letter option string,
    alone or in a cluster. *)
Lemma store_true_selected `{ArgparseEnv} p argv m ns a :
  wf_parser p = true -> parse_args p argv = Some m -> outcome m = inr ns ->
  a ∈ actions p -> kind a = KStoreTrue -> ns !! dest a = Some (VBool true) ->
  exists s o t, s ∈ argv /\ parse_optional p s = inr (TOpt s (Some t)) /\ o ∈ option_strings a /\
    (String.prefix s o = true \/ is_short o = true \/ String.length o = 2).
Proof.
  intros Hwf Hp Hm Ha Hk Hv.
  destruct (parse_args_inr p argv m ns Hp Hm) as (ts & ns0 & seen & Hc & Hcons & Hf).
  rewrite (finalize_keeps p ns0 seen ns (dest a) Hf) in Hv.
  { intros b Hb Hd. destruct (kind b) eqn:Hkb; [|done..].
    assert (b = a) as ->; [|congruence].
    apply (wf_parser_dest p); [done..|by rewrite /stores Hkb|by rewrite /stores Hk|done]. }
  assert (initial_namespace p !! dest a = Some (VBool false)) as Hinit.
  { rewrite initial_namespace_lookup //; [by rewrite /stores Hk|by rewrite /action_default Hk]. }
  destruct (consume_changes p ts _ _ _ _ _ _ (dest a) Hcons) as (s & [[a' o] e] & b & Hin & Htaken & Hd & Hsb);
    [by rewrite Hv Hinit|].
  destruct (classify_all_in p argv ts s _ Hc Hin) as [Hs Hps].
  pose proof (parse_optional_ok p s _ Hps) as [Ha' Ho].
  assert (b ∈ actions p) as Hb.
  { destruct Htaken as [[-> _]|[c Hl]]; [done|by apply lookup_option_in in Hl as [? _]]. }
  assert (b = a) as ->.
  { apply (wf_parser_dest p); [done..|by rewrite /stores Hk|done]. }
  destruct Htaken as [[<- [->|[Har|Hshort]]]|[c Hl]].
  - eexists s, o, _. split_and!; [done|exact Hps|done|left]. by eapply parse_optional_none_prefix.
  - by rewrite /arity Hk in Har.
  - eexists s, o, _. split_and!; [done|exact Hps|done|by right; left].
  - apply lookup_option_in in Hl as [_ Hl]. eexists s, (String "-" (String c EmptyString)), _.
    split_and!; [done|exact Hps|done|by right; right].
Qed.

Lemma parse_args_outcome `{ArgparseEnv} p argv m : parse_args p argv = Some m -> parse_outcome m.
Proof.
  unfold parse_args. destruct (classify_all p argv) as [|msg|ts]; [done|intros [= <-]; auto with gitops|].
  destruct (consume p ts _ _ _) as [msg| | |ns0 seen extras]; [intros [= <-]; auto with gitops..|done|].
  intros [= <-]. destruct (finalize p ns0 seen) as [msg|ns1]; [auto with gitops|].
  destruct extras; [left; by exists ns1|auto with gitops].
Qed.

(** *** [str(n)] on the command line is a value *)

(** Every option string is [-x...] with a second character that is not a
    digit, and none looks like a negative number. *)
Definition options_not_numeric (p : parser) : bool :=
  forallb (fun oa : string * action =>
             match oa.1 with
             | String c (String c' _) => Ascii.eqb c "-" && negb (is_digit c')
             | _ => false
             end) (option_string_actions p)
  && negb (has_negative_number_optionals p).

Lemma digit_not_special c : is_digit c = true ->
  Ascii.eqb c "-" = false /\ Ascii.eqb c "=" = false /\ Ascii.eqb c "." = false /\ Ascii.eqb c newline_char = false.
Proof. intros (d & Hd & ->)%digit_cases_ascii. digit_cases d. Qed.

Lemma is_digit_not_eq c c' : is_digit c = true -> is_digit c' = false -> Ascii.eqb c c' = false.
Proof. intros Hc Hc'. destruct (Ascii.eqb_spec c c') as [<-|]; [by rewrite Hc in Hc'|done]. Qed.

Lemma partition_char_all_digits c s : is_digit c = false -> all_digits s = true -> partition_char c s = (s, None).
Proof.
  intros Hc. induction s as [|c' s IH]; simpl; [done|]. intros [Hc' Hs]%andb_true_iff.
  rewrite (is_digit_not_eq c' c) // IH //.
Qed.

Lemma all_digits_pretty_N_go x : all_digits (pretty_N_go x "") = true.
Proof.
  apply (pretty_N_go_ind (fun t => all_digits t = true)); [|done].
  intros d t Hd Ht. by rewrite /= is_digit_pretty_N_char.
Qed.

Lemma drop_final_newline_digits s : all_digits s = true -> drop_final_newline s = s.
Proof.
  intros Hs. unfold drop_final_newline.
  assert (Forall (fun c => is_digit c = true) (String.list_ascii_of_string s)) as Hall.
  { induction s as [|c s IH]; simpl in *; [done|]. apply andb_true_iff in Hs as [? ?]. by constructor; [|apply IH]. }
  destruct (rev _) as [|c r] eqn:Hr; [done|].
  assert (is_digit c = true) as Hc.
  { rewrite Forall_forall in Hall. apply Hall. apply list_elem_of_In, in_rev. rewrite Hr. by left. }
  by destruct (digit_not_special c Hc) as (_ & _ & _ & ->).
Qed.

Lemma omap_all_none {A B} (f : A -> option B) l : (forall x, In x l -> f x = None) -> omap f l = [].
Proof. induction l as [|x l IH]; simpl; intros Hl; [done|]. rewrite Hl; [by left|]. apply IH. auto. Qed.

(** [str(n)] for [n < 0], on a parser whose option strings are not
    numeric, is a positional: it looks like a negative number. *)
Lemma parse_optional_pretty_Z p (z : Z) : options_not_numeric p = true ->
  parse_optional p (pretty z) = inr (TArg (pretty z)).
Proof.
  unfold options_not_numeric. intros [Hopts Hneg]%andb_true_iff.
  rewrite forallb_forall in Hopts.
  destruct z as [|x|x]; [done| |].
  - assert (pretty (Zpos x) = pretty_N_go (Npos x) "") as -> by done.
    destruct (pretty_N_go_head (Npos x)) as (c & t & Ht & Hc); [done|].
    rewrite Ht /=. by destruct (digit_not_special c Hc) as (-> & _).
  - assert (pretty (Zneg x) = String "-" (pretty_N_go (Npos x) "")) as -> by done.
    destruct (pretty_N_go_head (Npos x)) as (c & t & Ht & Hc); [done|].
    assert (forall o, o ∈ map fst (option_string_actions p) -> exists c0 c' t', o = String c0 (String c' t') /\ is_digit c' = false) as Hshape.
    { intros o ([o' a] & -> & Hin)%list_elem_of_fmap. specialize (Hopts _ (proj1 (list_elem_of_In _ _) Hin)).
      simpl in Hopts. destruct o' as [|c0 [|c' t']]; [done|done|]. apply andb_true_iff in Hopts as [_ ?%negb_true_iff].
      by exists c0, c', t'. }
    assert (lookup_option p (String "-" (pretty_N_go (Npos x) "")) = None) as Hl.
    { unfold lookup_option. rewrite Ht. clear Hopts Hneg.
      induction (option_string_actions p) as [|[o a] l IH]; [done|]. cbn [assoc_str].
      destruct (Hshape o) as (c0 & c' & t' & -> & Hc'); [by left|].
      cbn [String.eqb]. rewrite (is_digit_not_eq c c') //.
      destruct (Ascii.eqb "-" c0); apply IH; intros o' Ho'; apply Hshape; by right. }
    assert (get_option_tuples p (String "-" (pretty_N_go (Npos x) "")) = []) as Hg.
    { unfold get_option_tuples. rewrite Ht /=. destruct (digit_not_special c Hc) as (-> & _).
      apply omap_all_none. intros [o a] Hin%list_elem_of_In. destruct (Hshape o) as (c0 & c' & t' & -> & Hc');
        [apply list_elem_of_fmap; by exists (o, a)|].
      cbn [String.eqb String.prefix fst snd].
      destruct (Ascii.eqb_spec c' c) as [->|_]; [by rewrite Hc in Hc'|].
      destruct (ascii_dec c c') as [->|_]; [by rewrite Hc in Hc'|].
      by destruct (Ascii.eqb c0 "-"), (ascii_dec "-" c0). }
    pose proof (all_digits_pretty_N_go (Npos x)) as Hall. rewrite Ht in Hall Hl Hg |- *.
    assert (partition_char "=" (String "-" (String c t)) = (String "-" (String c t), None)) as Hpart.
    { change (partition_char "=" (String "-" (String c t)))
        with (let '(a, b) := partition_char "=" (String c t) in (String "-" a, b)).
      by rewrite partition_char_all_digits. }
    unfold parse_optional. rewrite Hl. cbn [negb Ascii.eqb Bool.eqb String.length Nat.eqb].
    rewrite Hpart Hg /resolve_tuples /looks_like_negative_number.
    rewrite drop_final_newline_digits // partition_char_all_digits // Hall Hneg.
    reflexivity.
Qed.

(** ** What the scripts read back *)

(** [int(str(z))] gives [z] back as long as [str(z)] has at most 4300
    digits; beyond, [int()] raises the [ValueError] of the digit limit,
    naming the number of digits. *)
Lemma int_str_roundtrip z :
  py_int (pretty z) =
    if (Z.abs z <? 10 ^ 4300)%Z then inr z
    else inl (int_limit_error (String.length (pretty (Z.abs z)))).
Proof.
  destruct (decide (z = 0%Z)) as [->|Hz]; [by vm_compute|].
  rewrite py_int_pretty_cases //. cbv zeta.
  assert (pretty (Z.abs z) = pretty_N_go (Z.to_N (Z.abs z)) "") as ->.
  { by destruct z. }
  destruct (Z.ltb_spec (Z.abs z) (10 ^ 4300)) as [Hlt|Hge].
  - rewrite (proj2 (Nat.ltb_ge _ _)); [|done].
    apply (length_pretty_N_go_le _ 4300). rewrite Z2N.id; [apply Z.abs_nonneg|exact Hlt].
  - rewrite (proj2 (Nat.ltb_lt _ _)); [|done].
    apply (length_pretty_N_go_gt _ 4300). rewrite Z2N.id; [apply Z.abs_nonneg|exact Hge].
Qed.

(** On a parser whose storing actions have distinct [dest]s, every
    namespace [parse_args] returns gives each of them an attribute that
    is its default or a value of its type, and a value of its type when
    the action is required. *)
Lemma parse_args_typed `{ArgparseEnv} p argv m ns :
  wf_parser p = true -> parse_args p argv = Some m -> outcome m = inr ns ->
  forall a, a ∈ actions p -> stores a = true ->
  exists v, ns !! dest a = Some v /\ value_ok (kind a) v /\ (required a = true -> typed_value (kind a) v).
Proof.
  intros Hwf Hp Hm a Ha Hsa.
  destruct (parse_args_inr p argv m ns Hp Hm) as (ts & ns0 & seen & Hc & Hcons & Hf).
  pose proof (classify_all_ok p argv ts Hc) as Hok.
  assert (ns_ok p ns) as Hns.
  { eapply finalize_ok; [done| |exact Hf].
    eapply consume_ok; [done|exact Hok|apply initial_namespace_ok; done|exact Hcons]. }
  assert (seen_typed p ns0 seen) as Hs0.
  { eapply consume_typed; [done|exact Hok| |exact Hcons]. intros ? []%elem_of_nil. }
  destruct (finalize_typed p Hwf ns0 seen ns Hs0 Hf) as [Hs Hreq].
  destruct (Hns a Ha Hsa) as (v & Hv & Hok'). exists v. split_and!; [done|done|].
  intros Hra. destruct (Hs a (Hreq a Ha Hra) Ha Hsa) as (v' & Hv' & Ht). congruence.
Qed.
