(* ===== verification/Cli.v ===== *)
(** * The entry points: the [if __name__ == '__main__':] blocks

    Each script builds its [argparse] parser ([health_check.py] lines
    175-176, [cleanup_ecr.py] lines 115-120, [cost_report.py] lines
    131-132), parses [sys.argv[1:]] (lines 178, 122, 134) and calls its
    function with the attributes of the namespace (lines 179, 124-130,
    135).  [script_main] is that composition: the run of [parse_args],
    then, on a namespace, the call.  The theorems say that a script whose
    command line argparse rejects makes no call, that no image is deleted
    unless the command line names [--execute], that [--namespace=NS] and
    [--days N] reach the functions unchanged, and that the defaults are
    the documented ones. *)

From Stdlib Require Import ssreflect ZArith Ascii Lia.
From stdpp Require Import base list strings numbers sets gmap pretty.
From S2P Require Import Prelude PyJson Kubectl HealthCheck EcrCleanup PyDate CostReport ArgParse.

#[local] Set Warnings "-register-all -rewrite-rw".

(** ** The parsers *)

(** [health_check.py], lines 175-176. *)
Definition health_check_parser : parser :=
  let parser := ArgumentParser "Health check for GitOps platform" in
  add_argument parser ["--namespace"] (KStore TStr (VStr "default")) false.

(** [cleanup_ecr.py], lines 115-120. *)
Definition cleanup_ecr_parser : parser :=
  let parser := ArgumentParser "Cleanup old ECR images" in
  let parser := add_argument parser ["--repository"] (KStore TStr VNone) true in
  let parser := add_argument parser ["--days"] (KStore TInt (VInt 30)) false in
  let parser := add_argument parser ["--keep-latest"] (KStore TInt (VInt 10)) false in
  let parser := add_argument parser ["--region"] (KStore TStr (VStr "us-east-1")) false in
  add_argument parser ["--execute"] KStoreTrue false.

(** [cost_report.py], lines 131-132. *)
Definition cost_report_parser : parser :=
  let parser := ArgumentParser "Generate AWS cost report" in
  add_argument parser ["--days"] (KStore TInt (VInt 30)) false.

(** ** The main blocks *)

(** [args.name]. *)
Definition getattr (args : namespace) (name : string) : PyM arg_value :=
  match args !! name with
  | Some v => ret v
  | None => raise (AttributeError ("'Namespace' object has no attribute '" ++ name ++ "'")%string)
  end.

(** The functions of the scripts take a [str], an [int] or a [bool] where
    these parsers store one ([parse_args_typed]); an attribute of
    another type would not reach them. *)
Definition unexpected_attribute : exc := TypeError "attribute of an unexpected type".

(** [args = parser.parse_args()], then the body on the namespace. *)
Definition script_main (p : parser) (argv : list string) (body : namespace -> PyM unit)
    `{ArgparseEnv} : option (PyM unit) :=
  match parse_args p argv with
  | Some m => Some (let* args := m in body args)
  | None => None
  end.

Section Main.
Context `{ArgparseEnv}.

Section HealthCheckMain.
Context `{Host}.

(** [health_check.py], line 179. *)
Definition health_check_body (args : namespace) : PyM unit :=
  let* namespace := getattr args "namespace" in
  match namespace with
  | VStr namespace => run_health_check namespace
  | _ => raise unexpected_attribute
  end.

(** [health_check.py], lines 172-179. *)
Definition health_check_main (argv : list string) : option (PyM unit) :=
  script_main health_check_parser argv health_check_body.

End HealthCheckMain.

Section CleanupMain.
Context `{EcrClient}.

(** [cleanup_ecr.py], lines 124-130: the keyword arguments are evaluated
    in order, then the call, with [dry_run=not args.execute]. *)
Definition cleanup_body (args : namespace) : PyM unit :=
  let* repository := getattr args "repository" in
  let* days := getattr args "days" in
  let* keep_latest := getattr args "keep_latest" in
  let* region := getattr args "region" in
  let* execute := getattr args "execute" in
  match repository, days, keep_latest, region, execute with
  | VStr repository_name, VInt days_to_keep, VInt keep_latest, VStr region, VBool execute =>
      cleanup_old_images repository_name days_to_keep keep_latest region (negb execute)
  | _, _, _, _, _ => raise unexpected_attribute
  end.

(** [cleanup_ecr.py], lines 112-130. *)
Definition cleanup_main (argv : list string) : option (PyM unit) :=
  script_main cleanup_ecr_parser argv cleanup_body.

End CleanupMain.

Section CostReportMain.
Context `{CostExplorer}.

(** [cost_report.py], line 135. *)
Definition cost_report_body (args : namespace) : PyM unit :=
  let* days := getattr args "days" in
  match days with
  | VInt days => generate_cost_report days
  | _ => raise unexpected_attribute
  end.

(** [cost_report.py], lines 128-135. *)
Definition cost_report_main (argv : list string) : option (PyM unit) :=
  script_main cost_report_parser argv cost_report_body.

End CostReportMain.
End Main.

(** ** What the command lines do *)

Lemma bind_outcome_inl {A B} (m : PyM A) (f : A -> PyM B) e : outcome m = inl e -> bind m f = (trace m, inl e).
Proof. destruct m as [w [e'|a]]; simpl; [by intros [= ->]|done]. Qed.

(** The [--execute] flag of [cleanup_ecr.py]. *)
Definition execute_action : action := mk_action ["--execute"] (option_dest ["--execute"]) KStoreTrue false.

Lemma execute_action_in : execute_action ∈ actions cleanup_ecr_parser.
Proof. apply list_elem_of_In. simpl. do 5 right. by left. Qed.

Lemma prefix_execute_cases s : String.prefix s "--execute" = true ->
  s = "" \/ s = "-" \/ s = "--" \/ 3 <= String.length s.
Proof.
  destruct s as [|c1 [|c2 [|c3 s]]]; simpl; [by left| | |intros _; lia];
    repeat (destruct (ascii_dec _ _) as [->|]; [|done]); intros _; auto.
Qed.



Section CleanupClaims.
Context `{ArgparseEnv} `{EcrClient}.

(** The body either stops at an attribute before any call, or calls
    [cleanup_old_images] with [dry_run] the negation of [args.execute]. *)
Lemma cleanup_body_cases ns :
  trace (cleanup_body ns) = [] \/
  exists r d k g x, ns !! "execute" = Some (VBool x) /\
    cleanup_body ns = cleanup_old_images r d k g (negb x).
Proof.
  unfold cleanup_body, getattr.
  destruct (ns !! "repository") as [v1|]; [|by left]; rewrite bind_ret_l.
  destruct (ns !! "days") as [v2|]; [|by left]; rewrite bind_ret_l.
  destruct (ns !! "keep_latest") as [v3|]; [|by left]; rewrite bind_ret_l.
  destruct (ns !! "region") as [v4|]; [|by left]; rewrite bind_ret_l.
  destruct (ns !! "execute") as [v5|] eqn:Hx; [|by left]; rewrite bind_ret_l.
  destruct v1 as [|r| |]; try by left. destruct v2 as [| |d|]; try by left.
  destruct v3 as [| |k|]; try by left. destruct v4 as [|g| |]; try by left.
  destruct v5 as [| | |x]; try by left.
  right. exists r, d, k, g, x. split; [done|]. cbn iota beta.
  match goal with |- ?a = ?a => reflexivity end.
Qed.

(** C34: [cleanup_ecr.py] deletes images only when asked to.  Whatever the
    command line, a run of the script that calls [batch_delete_image]
    has, among its arguments, [--execute] or an abbreviation of it that
    argparse accepts ([--e] to [--execute]); [--execute=...] is rejected,
    and no other option, value or cluster sets the flag. *)
Theorem cleanup_main_needs_execute argv m args :
  cleanup_main argv = Some m -> EvApi "batch_delete_image" args ∈ trace m ->
  exists s, s ∈ argv /\ String.prefix s "--execute" = true /\ 3 <= String.length s.
Proof.
  unfold cleanup_main, script_main.
  destruct (parse_args cleanup_ecr_parser argv) as [m0|] eqn:Hp; [|done]. intros [= <-] Hin.
  destruct (parse_args_outcome _ _ _ Hp) as [[ns ->]|[Hw Hout]].
  - rewrite bind_ret_l in Hin.
    destruct (cleanup_body_cases ns) as [Htr|(r & d & k & g & x & Hx & Hbody)]; [rewrite Htr in Hin; set_solver|].
    destruct x.
    + destruct (store_true_selected cleanup_ecr_parser argv (ret ns) ns execute_action)
        as (s & o & t & Hs & Hps & Ho%list_elem_of_singleton & Hcase);
        [by vm_compute|exact Hp|done|exact execute_action_in|done|exact Hx|].
      subst o. destruct Hcase as [Hpre|[Hshort|Hlen]]; [|done|done].
      exists s. split_and!; [done|done|].
      destruct (prefix_execute_cases s Hpre) as [->|[->|[->|?]]]; [vm_compute in Hps; congruence..|done].
    + rewrite Hbody in Hin.
      pose proof (cleanup_trace_only (fun ev => ~ is_delete_call ev) r d k g true) as Hdry.
      unfold trace_only in Hdry. rewrite Forall_forall in Hdry.
      destruct (Hdry ltac:(by intros ? [? [=]]) ltac:(by intros ? ? ? [? [= -> _]]) ltac:(done) _ Hin).
      by exists args.
  - destruct Hout as [Hout|Hout]; rewrite (bind_outcome_inl _ _ _ Hout) in Hin; unfold trace_only in Hw;
      rewrite Forall_forall in Hw; by destruct (Hw _ Hin) as (? & ? & ?).
Qed.


End CleanupClaims.

(** [str(d)] on the command line of [cost_report.py]: a positional that
    [int()] reads back. *)
Lemma cost_report_days_token (d : Z) :
  parse_optional cost_report_parser (pretty d) = inr (TArg (pretty d)) /\ String.eqb (pretty d) "--" = false.
Proof.
  pose proof (parse_optional_pretty_Z cost_report_parser d ltac:(by vm_compute)) as Hp.
  split; [done|]. destruct (String.eqb_spec (pretty d) "--") as [Heq|]; [|done].
  rewrite Heq in Hp. by vm_compute in Hp.
Qed.

#[local] Arguments py_int : simpl never.

Lemma parse_cost_report_days `{ArgparseEnv} d : (Z.abs d < 10 ^ 4300)%Z ->
  parse_args cost_report_parser ["--days"; pretty d] =
    Some (ret (<["days" := VInt d]> (initial_namespace cost_report_parser))).
Proof.
  intros Hd. destruct (cost_report_days_token d) as [Hclass Hneq].
  assert (py_int (pretty d) = inr d) as Hint.
  { rewrite int_str_roundtrip. destruct (Z.ltb_spec (Z.abs d) (10 ^ 4300)) as [_|Hge]; [done|].
    exfalso. exact (proj1 (Z.lt_nge _ _) Hd Hge). }
  remember (pretty d) as s eqn:Hs. clear Hs.
  unfold parse_args. simpl. rewrite Hneq Hclass. simpl. unfold take_action, get_value. simpl. rewrite Hint Hneq. simpl. unfold finalize. simpl.
  reflexivity.
Qed.

Lemma parse_health_check_namespace `{ArgparseEnv} ns : ns <> "--" ->
  parse_args health_check_parser [("--namespace=" ++ ns)%string] =
    Some (ret (<["namespace" := VStr ns]> (initial_namespace health_check_parser))).
Proof.
  intros Hns. unfold parse_args. simpl. unfold take_action. simpl.
  rewrite (proj2 (String.eqb_neq ns "--") Hns). unfold finalize. simpl. reflexivity.
Qed.

Section MainClaims.
Context `{ArgparseEnv}.

(** C15: [health_check.py] checks the namespace [default] when no option
    is given, and any namespace [NS] other than [--] given as
    [--namespace=NS], even one that starts with a dash or holds an [=],
    is the one it checks.  [--namespace=--] stores what [_get_values]'
    removal of [--] leaves, which depends on the Python version: that
    command line is outside the model. *)
Theorem health_check_main_namespace `{Host} :
  health_check_main [] = Some (run_health_check "default") /\
  (forall ns, ns <> "--" ->
     health_check_main [("--namespace=" ++ ns)%string] = Some (run_health_check ns)) /\
  health_check_main ["--namespace=--"] = None.
Proof.
  split_and!; [|intros ns Hns|by vm_compute]; unfold health_check_main, script_main;
    [rewrite (_ : parse_args health_check_parser [] =
                  Some (ret (<["namespace" := VStr "default"]> ∅))); [by vm_compute|]
    |rewrite parse_health_check_namespace //];
    by rewrite bind_ret_l /health_check_body /getattr lookup_insert_eq bind_ret_l.
Qed.

(** C35: [cost_report.py --days N] reports on [N] days for every integer
    [N] that [str] writes with at most 4300 digits, negative ones
    included (argparse reads [-5] as a value, not as an option), and on
    30 days without the option. *)
Theorem cost_report_main_days `{CostExplorer} d : (Z.abs d < 10 ^ 4300)%Z ->
  cost_report_main ["--days"; pretty d] = Some (generate_cost_report d) /\
  cost_report_main [] = Some (generate_cost_report 30).
Proof.
  intros Hd. unfold cost_report_main, script_main. split.
  - rewrite parse_cost_report_days //.
    by rewrite bind_ret_l /cost_report_body /getattr lookup_insert_eq bind_ret_l.
  - rewrite (_ : parse_args cost_report_parser [] = Some (ret (<["days" := VInt 30]> ∅))); [by vm_compute|].
    by rewrite bind_ret_l /cost_report_body /getattr lookup_insert_eq bind_ret_l.
Qed.

End MainClaims.

(** ** Witnesses *)

(** An environment for the examples: the script's name, and texts that
    stand for the usage line and the help. *)
Definition sample_env (name : string) : ArgparseEnv := {|
  prog := name;
  format_usage := fun _ => ("usage: " ++ name ++ newline)%string;
  format_help := fun p => ("usage: " ++ name ++ newline ++ description p ++ newline)%string
|}.

Definition sample_cleanup_argv : list string :=
  ["--repository"; "gitops-app"; "--keep-latest"; "0"; "--days"; "1"; "--exec"].

Definition sample_cleanup_run : PyM unit :=
  default (ret tt) (@cleanup_main (sample_env "cleanup_ecr.py") (test_client dated_images) sample_cleanup_argv).

Lemma cleanup_main_needs_execute_witness :
  api_calls (trace sample_cleanup_run) =
    [("client", ["ecr"; "us-east-1"]); ("list_images", ["gitops-app"]);
     ("batch_get_image", ["gitops-app"]);
     ("batch_delete_image", ["gitops-app"; "sha256:b2"; "sha256:a1"; "sha256:c3"])] /\
  exists s, s ∈ sample_cleanup_argv /\ String.prefix s "--execute" = true /\ 3 <= String.length s.
Proof.
  split; [by vm_compute|].
  apply (@cleanup_main_needs_execute (sample_env "cleanup_ecr.py") (test_client dated_images)
           sample_cleanup_argv sample_cleanup_run ["gitops-app"; "sha256:b2"; "sha256:a1"; "sha256:c3"]).
  - vm_compute. reflexivity.
  - apply list_elem_of_In. vm_compute. repeat (first [left; reflexivity|right]).
Defined.



(** Witness of C15: a namespace that starts with a dash and holds an [=]. *)
Lemma health_check_main_namespace_witness :
  @health_check_main (sample_env "health_check.py") (fixed_answer_host (PDict []))
    ["--namespace=-prod=1"] =
  Some (@run_health_check (fixed_answer_host (PDict [])) "-prod=1").
Proof.
  apply (proj1 (proj2 (@health_check_main_namespace (sample_env "health_check.py")
                          (fixed_answer_host (PDict []))))).
  discriminate.
Defined.

Lemma cost_report_main_days_witness :
  @cost_report_main (sample_env "cost_report.py") sample_ce ["--days"; "-5"] =
    Some (@generate_cost_report sample_ce (-5)) /\
  @cost_report_main (sample_env "cost_report.py") sample_ce [] = Some (@generate_cost_report sample_ce 30).
Proof.
  apply (@cost_report_main_days (sample_env "cost_report.py") sample_ce (-5)).
  vm_compute. reflexivity.
Defined.
